(** * spacy-llm task core: a shallow embedding and its verified properties

    The development follows the Python sources

      - [spacy_llm/tasks/ner.py]                              ([Module Ner])
      - [spacy_llm/tasks/entity_linker/candidate_selector.py] ([Module CandidateSelector])
      - [spacy_llm/tasks/builtin_task.py]                     ([Module BuiltinTask],
                                                               [Module BuiltinTaskWithLabels])
      - [spacy_llm/tasks/summarization/task.py]               ([Module Summarization])

    Python values are modelled as follows: [str] is [string] (a sequence of
    characters below U+0100), a [list] is a [list], an insertion-ordered
    [dict] with string keys is an association list ([Py.pydict]), an object's
    attribute dictionary is a [gmap string _], and a call that may raise
    returns an [Py.outcome].  Collaborators that live outside the repository
    (spaCy's tokenizer and phrase matcher, the knowledge base, srsly's codecs,
    pydantic's validation) are parameters of the definitions that call them. *)

From Stdlib Require Import List String Ascii ZArith QArith Bool Lia Sorted Permutation.
From stdpp Require Import base gmap strings.
Import ListNotations.

Close Scope Q_scope.
Open Scope string_scope.
Open Scope list_scope.
Open Scope nat_scope.

(* ===================================================================== *)
(** * Part I.  The embedding                                              *)
(* ===================================================================== *)

(** ** Python primitives used by the sources *)

Module Py.

(** Exceptions raised by the modelled code. *)
Inductive exn : Type :=
| ValueError (msg : string)
| AttributeError (attr : string)
| TypeError (msg : string)
| DecodeError.

(** The result of a call: a value, or a raised exception. *)
Inductive outcome (A : Type) : Type :=
| Returns (a : A)
| Raises (e : exn).

Arguments Returns {A} a.
Arguments Raises {A} e.

Definition bind {A B : Type} (m : outcome A) (k : A -> outcome B) : outcome B :=
  match m with
  | Returns a => k a
  | Raises e => Raises e
  end.

Definition bind_flip {A B : Type} (k : A -> outcome B) (m : outcome A) : outcome B :=
  bind m k.

Definition raised {A : Type} (m : outcome A) : Prop :=
  exists e, m = Raises e.

(** [for x in xs: acc = body(acc, x)], where the body may raise. *)
Fixpoint for_each {A S : Type} (body : S -> A -> outcome S) (xs : list A) (acc : S)
  : outcome S :=
  match xs with
  | [] => Returns acc
  | x :: rest => bind (body acc x) (for_each body rest)
  end.

(** *** Strings *)

(** The characters [str.strip] removes, on the 8-bit range: the white space
    of Unicode below 256, that is U+0009 to U+000D, U+001C to U+0020,
    U+0085 (next line) and U+00A0 (no-break space). *)
Definition is_space (c : ascii) : bool :=
  let n := nat_of_ascii c in
  ((9 <=? n) && (n <=? 13)) || ((28 <=? n) && (n <=? 32))
  || (n =? 133) || (n =? 160).

Fixpoint lstrip_chars (cs : list ascii) : list ascii :=
  match cs with
  | c :: rest => if is_space c then lstrip_chars rest else cs
  | [] => []
  end.

Definition rstrip_chars (cs : list ascii) : list ascii :=
  rev (lstrip_chars (rev cs)).

(** [s.strip()] *)
Definition strip (s : string) : string :=
  string_of_list_ascii (rstrip_chars (lstrip_chars (list_ascii_of_string s))).

(** [c in s] for a one-character string [c]. *)
Fixpoint contains_char (c : ascii) (s : string) : bool :=
  match s with
  | EmptyString => false
  | String a rest => Ascii.eqb a c || contains_char c rest
  end.

(** [s.split(sep)] for a one-character separator: never the empty list. *)
Fixpoint split (sep : ascii) (s : string) : list string :=
  match s with
  | EmptyString => [EmptyString]
  | String a rest =>
      if Ascii.eqb a sep then EmptyString :: split sep rest
      else match split sep rest with
           | piece :: pieces => String a piece :: pieces
           | [] => [String a EmptyString]
           end
  end.

(** [s.split(sep, 1)]: at most one cut, at the first separator. *)
Fixpoint split1 (sep : ascii) (s : string) : list string :=
  match s with
  | EmptyString => [EmptyString]
  | String a rest =>
      if Ascii.eqb a sep then [EmptyString; rest]
      else match split1 sep rest with
           | piece :: pieces => String a piece :: pieces
           | [] => [String a EmptyString]
           end
  end.

(** [a, b = xs]: unpacking into exactly two names. *)
Definition unpack2 {A : Type} (xs : list A) : outcome (A * A) :=
  match xs with
  | [a; b] => Returns (a, b)
  | _ => Raises (ValueError "wrong number of values to unpack")
  end.

(** [s[i:j]] for [0 <= i], [0 <= j]. *)
Definition str_slice (i j : nat) (s : string) : string :=
  substring i (j - i) s.

(** [xs[:n]] for any integer [n]; a negative [n] counts from the end. *)
Definition slice_to {A : Type} (n : Z) (xs : list A) : list A :=
  if (0 <=? n)%Z then firstn (Z.to_nat n) xs
  else firstn (List.length xs - Z.to_nat (- n)) xs.

(** *** Insertion-ordered dictionaries with string keys *)

Definition pydict (V : Type) : Type := list (string * V).

(** [d.get(k)] / [d[k]] *)
Fixpoint dict_get {V : Type} (k : string) (d : pydict V) : option V :=
  match d with
  | [] => None
  | (k', v) :: rest => if String.eqb k' k then Some v else dict_get k rest
  end.

(** [k in d] *)
Definition dict_mem {V : Type} (k : string) (d : pydict V) : bool :=
  match dict_get k d with Some _ => true | None => false end.

(** [d[k] = v]: an existing key keeps its position, a new key goes last. *)
Fixpoint dict_set {V : Type} (k : string) (v : V) (d : pydict V) : pydict V :=
  match d with
  | [] => [(k, v)]
  | (k', v') :: rest =>
      if String.eqb k' k then (k', v) :: rest else (k', v') :: dict_set k v rest
  end.

Definition dict_keys {V : Type} (d : pydict V) : list string := map fst d.
Definition dict_values {V : Type} (d : pydict V) : list V := map snd d.

(** [x in xs] for a sequence of strings. *)
Definition str_in (x : string) (xs : list string) : bool :=
  existsb (String.eqb x) xs.

(** *** [sorted(set(xs))] on strings *)

Fixpoint insert_sorted (x : string) (xs : list string) : list string :=
  match xs with
  | [] => [x]
  | y :: rest =>
      match String.compare x y with
      | Lt => x :: y :: rest
      | Eq => y :: rest
      | Gt => y :: insert_sorted x rest
      end
  end.

(** [a < b] on strings: the order [sorted] uses. *)
Definition str_lt (a b : string) : Prop := String.compare a b = Lt.

(** Strings in increasing code-unit order, each once. *)
Definition sorted_set (xs : list string) : list string :=
  fold_right insert_sorted [] xs.

(** *** Dynamically typed values *)

(** The scalar values a configuration attribute may hold: [None], a [bool],
    an [int] or a [str]. *)
Inductive scalar : Type :=
| SNone
| SBool (b : bool)
| SInt (z : Z)
| SStr (s : string).

(** An object passed where the code checks [isinstance(_, str)]: a scalar,
    or a list of them. *)
Inductive object : Type :=
| OScalar (v : scalar)
| OList (items : list scalar).

(** The truth value of a scalar in a condition ([if v:]). *)
Definition truthy (v : scalar) : bool :=
  match v with
  | SNone => false
  | SBool b => b
  | SInt z => negb (z =? 0)%Z
  | SStr s => negb (String.eqb s "")
  end.

End Py.

(** stdpp's monad notation [x ← m; k] for calls that may raise. *)
#[global] Instance outcome_bind : MBind Py.outcome := @Py.bind_flip.
#[global] Instance outcome_ret : MRet Py.outcome := @Py.Returns.

(** ** Documents and spans (spaCy's [Doc] and [Span], as the tasks use them) *)

Module Spacy.

(** A labelled span [start, end) of a document. *)
Record Span : Type := mkSpan {
  span_start : nat;
  span_end : nat;
  span_label : string
}.

(** A document: its text, its entity annotation ([doc.ents]) and its custom
    extension attributes ([doc._.<name>]). *)
Record Doc : Type := mkDoc {
  text : string;
  ents : list Span;
  user_attrs : gmap string string
}.

(** [doc.set_ents(spans)] *)
Definition set_ents (doc : Doc) (spans : list Span) : Doc :=
  {| text := text doc; ents := spans; user_attrs := user_attrs doc |}.

(** [setattr(doc._, field, value)] *)
Definition set_user_attr (doc : Doc) (field value : string) : Doc :=
  {| text := text doc; ents := ents doc;
     user_attrs := <[field := value]> (user_attrs doc) |}.

Definition span_len (s : Span) : nat := span_end s - span_start s.

(** Two spans overlap when they share a position. *)
Definition overlaps (a b : Span) : bool :=
  (span_start a <? span_end b) && (span_start b <? span_end a).

(** Stable insertion by decreasing length: [s], discovered before every span
    of [sorted], goes in front of the first span that is not longer. *)
Fixpoint insert_by_len (s : Span) (sorted : list Span) : list Span :=
  match sorted with
  | [] => [s]
  | t :: rest =>
      if span_len t <=? span_len s then s :: t :: rest
      else t :: insert_by_len s rest
  end.

Definition sort_longest_first (spans : list Span) : list Span :=
  fold_right insert_by_len [] spans.

(** One pass over the candidates: a candidate is accepted unless it overlaps
    a span accepted before it. *)
Fixpoint greedy_accept (accepted candidates : list Span) : list Span :=
  match candidates with
  | [] => accepted
  | s :: rest =>
      if existsb (overlaps s) accepted then greedy_accept accepted rest
      else greedy_accept (accepted ++ [s]) rest
  end.

(** Modelled from the spec: [filter_spans] is imported from [spacy.util] and
    its body is not part of the repository's sources.  Section 4.4 of the
    specification gives the policy: greedy longest-span-first acceptance,
    equal lengths taken in discovery order, and a span that overlaps an
    accepted span discarded. *)
Definition filter_spans (spans : list Span) : list Span :=
  greedy_accept [] (sort_longest_first spans).

End Spacy.

(** ** [spacy_llm/tasks/ner.py] *)

Module Ner.

(** [class NERExample(BaseModel)] *)
Record NERExample : Type := mkNERExample {
  example_text : string;
  entities : Py.pydict (list string)
}.

(** A match of the phrase matcher: a token-aligned range of the text. *)
Record Match : Type := mkMatch {
  start_char : nat;
  end_char : nat
}.

(** The state of a [NERTask] instance. *)
Record NERTask : Type := mkNERTask {
  _normalizer : string -> string;
  _label_dict : Py.pydict string;
  _examples : option (list NERExample);
  _alignment_mode : string;
  _lang : string;
  _case_sensitive_matching : bool;
  _single_match : bool
}.

Section WithCollaborators.

(** [str.lower] *)
Variable lower : string -> string.

(** spaCy's [PhraseMatcher] over a blank pipeline of language [lang]:
    [phrase_matcher lang case_sensitive substrings text] is the list
    [matcher(doc, as_spans=True)], in the order the matcher yields it. *)
Variable phrase_matcher : string -> bool -> list string -> string -> list Match.

(** [doc.char_span(start, end, alignment_mode=mode)]: the bounds of the
    token-aligned span, or [None]. *)
Variable char_span : Spacy.Doc -> nat -> nat -> string -> option (nat * nat).

(** [spacy.util.filter_spans] *)
Variable filter_spans : list Spacy.Span -> list Spacy.Span.

(** [lowercase_normalizer()] of [spacy_llm.registry], the default normalizer. *)
Variable lowercase_normalizer : string -> string.

(** The text of a match, [doc.char_span(start, end).text], under the casing
    policy of the search. *)
Definition span_text (case_sensitive : bool) (text : string) (m : Match) : string :=
  let span_text := Py.str_slice (start_char m) (end_char m) text in
  if negb case_sensitive then lower span_text else span_text.

(** The loop of [_filter_first_hit]: the state is [(seen_spans, filtered)]. *)
Definition _filter_first_hit_step (case_sensitive : bool) (text : string)
    (st : list string * list (nat * nat)) (m : Match)
  : list string * list (nat * nat) :=
  let '(seen_spans, filtered) := st in
  let span_text := span_text case_sensitive text m in
  if negb (Py.str_in span_text seen_spans)
  then (seen_spans ++ [span_text], filtered ++ [(start_char m, end_char m)])
  else (seen_spans, filtered).

Definition _filter_first_hit (case_sensitive : bool) (text : string)
    (matches : list Match) : list (nat * nat) :=
  snd (fold_left (_filter_first_hit_step case_sensitive text) matches ([], [])).

(** [find_substrings(text, substrings, lang=, case_sensitive=, single_match=)] *)
Definition find_substrings (text : string) (substrings : list string)
    (lang : string) (case_sensitive single_match : bool) : list (nat * nat) :=
  let matches := phrase_matcher lang case_sensitive substrings text in
  if single_match then _filter_first_hit case_sensitive text matches
  else map (fun m => (start_char m, end_char m)) matches.

(** [{f(x): x for x in xs}] *)
Definition label_dict_of (normalizer : string -> string) (labels : list string)
  : Py.pydict string :=
  fold_left (fun d label => Py.dict_set (normalizer label) label d) labels [].

(** [NERTask._validate_alignment] *)
Definition _validate_alignment (mode : string) : Py.outcome unit :=
  if Py.str_in mode ["strict"; "contract"; "expand"] then Py.Returns tt
  else Py.Raises (Py.ValueError "Unsupported alignment mode").

(** An item of the iterable that [examples()] returns, of type [Any]. *)
Variable Any : Type.

(** [NERExample] called on the keywords of one item: the validation of the
    item against the fields of [NERExample] by pydantic's [BaseModel]; it
    raises on an item that does not fit. *)
Variable NERExample_of : Any -> Py.outcome NERExample.

(** The comprehension over [examples()], or [None] without a reader: the
    reader is called once, then the items are validated in order; what the
    reader raises, or the first item that does not validate, ends the
    construction. *)
Definition read_examples (examples : option (unit -> Py.outcome (list Any)))
  : Py.outcome (option (list NERExample)) :=
  match examples with
  | Some examples =>
      egs ← examples tt;
      parsed ← Py.for_each
                 (fun parsed eg => example ← NERExample_of eg; mret (parsed ++ [example]))
                 egs [];
      mret (Some parsed)
  | None => mret None
  end.

(** [NERTask.__init__]: the examples are read and validated before the
    alignment mode is. *)
Definition __init__ (labels : string)
    (examples : option (unit -> Py.outcome (list Any)))
    (normalizer : option (string -> string)) (alignment_mode lang : string)
    (case_sensitive_matching single_match : bool) : Py.outcome NERTask :=
  let _normalizer :=
    match normalizer with Some f => f | None => lowercase_normalizer end in
  let _label_dict := label_dict_of _normalizer (Py.split "," labels) in
  _examples ← read_examples examples;
  _ ← _validate_alignment alignment_mode;
  mret {| _normalizer := _normalizer;
          _label_dict := _label_dict;
          _examples := _examples;
          _alignment_mode := alignment_mode;
          _lang := lang;
          _case_sensitive_matching := case_sensitive_matching;
          _single_match := single_match |}.

(** The body of the loop of [_format_response], for one line. *)
Definition _format_response_line (self : NERTask)
    (output : list (string * list string)) (line : string)
  : Py.outcome (list (string * list string)) :=
  if negb (String.eqb line "") && Py.contains_char ":" line then
    '(label, phrases) ← Py.unpack2 (Py.split1 ":" line);
    let norm_label := _normalizer self label in
    match Py.dict_get norm_label (_label_dict self) with
    | Some canonical =>
        if negb (String.eqb (Py.strip phrases) "") then
          let _phrases := map Py.strip (Py.split "," (Py.strip phrases)) in
          mret (output ++ [(canonical, _phrases)])
        else mret output
    | None => mret output
    end
  else mret output.

(** [NERTask._format_response] *)
Definition _format_response (self : NERTask) (response : string)
  : Py.outcome (list (string * list string)) :=
  Py.for_each (_format_response_line self) (Py.split "010" (Py.strip response)) [].

(** The spans one [(label, phrases)] entry adds to [spans]. *)
Definition spans_of_entry (self : NERTask) (doc : Spacy.Doc)
    (spans : list Spacy.Span) (entry : string * list string) : list Spacy.Span :=
  let '(label, phrases) := entry in
  let offsets :=
    find_substrings (Spacy.text doc) phrases (_lang self)
      (_case_sensitive_matching self) (_single_match self) in
  fold_left
    (fun spans '(start, end_) =>
       match char_span doc start end_ (_alignment_mode self) with
       | Some (s, e) => spans ++ [Spacy.mkSpan s e label]
       | None => spans
       end)
    offsets spans.

(** The spans collected for one document before overlap resolution. *)
Definition collect_spans (self : NERTask) (doc : Spacy.Doc) (prompt_response : string)
  : Py.outcome (list Spacy.Span) :=
  formatted ← _format_response self prompt_response;
  mret (fold_left (spans_of_entry self doc) formatted []).

(** The body of the loop of [parse_responses], for one [(doc, response)] pair. *)
Definition parse_response (self : NERTask) (doc : Spacy.Doc) (prompt_response : string)
  : Py.outcome Spacy.Doc :=
  spans ← collect_spans self doc prompt_response;
  mret (Spacy.set_ents doc (filter_spans spans)).

(** [NERTask.parse_responses]: the documents the generator yields. *)
Definition parse_responses (self : NERTask) (docs : list Spacy.Doc)
    (responses : list string) : Py.outcome (list Spacy.Doc) :=
  Py.for_each
    (fun yielded '(doc, prompt_response) =>
       doc' ← parse_response self doc prompt_response;
       mret (yielded ++ [doc']))
    (combine docs responses) [].

End WithCollaborators.

Arguments read_examples {Any} NERExample_of examples.
Arguments __init__ lowercase_normalizer {Any} NERExample_of labels examples normalizer
  alignment_mode lang case_sensitive_matching single_match.

Section Prompts.

(** The rendering of [_TEMPLATE_STR] by jinja2 with the fields [text],
    [labels] and [examples]. *)
Variable render : string -> list string -> option (list NERExample) -> string.

(** [NERTask.generate_prompts]: the prompts the generator yields. *)
Definition generate_prompts (self : NERTask) (docs : list Spacy.Doc) : list string :=
  map (fun doc =>
         render (Spacy.text doc) (Py.dict_values (_label_dict self)) (_examples self))
      docs.

End Prompts.

End Ner.

(** ** [spacy_llm/tasks/entity_linker/candidate_selector.py] *)

Module CandidateSelector.

(** [Entity] of [entity_linker/ty.py]. *)
Record Entity : Type := mkEntity {
  id : string;
  description : string
}.

(** A knowledge-base candidate: the entity's id and its prior probability
    (a float, modelled as a rational). *)
Record Candidate : Type := mkCandidate {
  entity_ : string;
  prior_prob : Q
}.

(** The state of a [PipelineCandidateSelector]: the knowledge base's
    [get_candidates_batch], the description table and the cut-off. *)
Record PipelineCandidateSelector : Type := mkSelector {
  _kb : list Spacy.Span -> list (list Candidate);
  _descs : gmap string string;
  _top_n : Z
}.

(** [cands.sort(key=lambda x: x.prior_prob, reverse=True)]: a stable sort by
    decreasing probability.  [c] stood before every element of [sorted]. *)
Fixpoint insert_by_prob (c : Candidate) (sorted : list Candidate) : list Candidate :=
  match sorted with
  | [] => [c]
  | d :: rest =>
      if Qle_bool (prior_prob d) (prior_prob c) then c :: d :: rest
      else d :: insert_by_prob c rest
  end.

Definition sort_by_prior_prob (cands : list Candidate) : list Candidate :=
  fold_right insert_by_prob [] cands.

Section WithConstants.

(** [EntityLinker.NIL] of spaCy. *)
Variable NIL : string.

(** [UNAVAILABLE_ENTITY_DESC] of [entity_linker/util.py]. *)
Variable UNAVAILABLE_ENTITY_DESC : string.

(** [get_entity_description]: the warning emitted for a missing id does not
    change the returned value and is not modelled. *)
Definition get_entity_description (self : PipelineCandidateSelector)
    (entity_id : string) : string :=
  default UNAVAILABLE_ENTITY_DESC (_descs self !! entity_id).

(** The entities of one mention, from its sorted candidates. *)
Definition entities_of (self : PipelineCandidateSelector) (cands : list Candidate)
  : list Entity :=
  if 0 <? List.length cands then
    map (fun cand =>
           {| id := entity_ cand;
              description := get_entity_description self (entity_ cand) |})
        (Py.slice_to (_top_n self) cands)
  else [ {| id := NIL; description := UNAVAILABLE_ENTITY_DESC |} ].

(** [PipelineCandidateSelector.__call__] *)
Definition __call__ (self : PipelineCandidateSelector) (mentions : list Spacy.Span)
  : list (list Entity) :=
  let all_cands := map sort_by_prior_prob (_kb self mentions) in
  map (entities_of self) all_cands.

End WithConstants.

(** A loaded spaCy pipeline, as far as the selector uses it: the names of
    its components and, for the name of an entity-linking component, the
    [get_candidates_batch] of that component's knowledge base. *)
Record Pipeline : Type := mkPipeline {
  component_names : list string;
  get_pipe : string -> list Spacy.Span -> list (list Candidate)
}.

Section Loading.

(** [spacy.load], which reads a pipeline from a path and may raise. *)
Variable spacy_load : string -> Py.outcome Pipeline.

(** [PipelineCandidateSelector.__init__]; [ent_desc_reader] is the injected
    reader of the description file. *)
Definition __init__ (nlp_path desc_path el_component_name : string) (top_n : Z)
    (ent_desc_reader : string -> Py.outcome (gmap string string))
  : Py.outcome PipelineCandidateSelector :=
  _nlp ← spacy_load nlp_path;
  if negb (Py.str_in el_component_name (component_names _nlp)) then
    Py.Raises (Py.ValueError "Component wasn't found in pipeline.")
  else
    descs ← ent_desc_reader desc_path;
    mret {| _kb := get_pipe _nlp el_component_name;
            _descs := descs;
            _top_n := top_n |}.

End Loading.

End CandidateSelector.

(** ** [spacy_llm/tasks/builtin_task.py] *)

Module BuiltinTask.

(** The state of a [BuiltinTask]: its scalar instance attributes by name
    ([_template] among them), its prompt examples, and what the [_cfg_keys]
    property of its class returns. *)
Record BuiltinTask (FewshotExample : Type) : Type := mkTask {
  attrs : gmap string Py.scalar;
  _prompt_examples : list FewshotExample;
  _cfg_keys : list string
}.

Arguments mkTask {FewshotExample} attrs _prompt_examples _cfg_keys.
Arguments attrs {FewshotExample} b.
Arguments _prompt_examples {FewshotExample} b.
Arguments _cfg_keys {FewshotExample} b.

Section Task.

(** spaCy's training [Example] and the task's [prompt_example_type]. *)
Variable Example : Type.
Variable FewshotExample : Type.

Abbreviation Task := (BuiltinTask FewshotExample).

(** [BuiltinTask.__init__]; [cfg_keys] is the class's [_cfg_keys]. *)
Definition __init__ (template : string) (prompt_examples : option (list FewshotExample))
    (cfg_keys : list string) : Task :=
  {| attrs := {[ "_template" := Py.SStr template ]};
     _prompt_examples := default [] prompt_examples;
     _cfg_keys := cfg_keys |}.

Definition with_prompt_examples (self : Task) (examples : list FewshotExample) : Task :=
  {| attrs := attrs self; _prompt_examples := examples; _cfg_keys := _cfg_keys self |}.

(** [getattr(self, key)] *)
Definition getattr (self : Task) (key : string) : Py.outcome Py.scalar :=
  match attrs self !! key with
  | Some v => Py.Returns v
  | None => Py.Raises (Py.AttributeError key)
  end.

(** [setattr(self, key, value)] *)
Definition setattr (self : Task) (key : string) (value : Py.scalar) : Task :=
  {| attrs := <[key := value]> (attrs self);
     _prompt_examples := _prompt_examples self;
     _cfg_keys := _cfg_keys self |}.

(** [self.prompt_template] *)
Definition prompt_template (self : Task) : Py.outcome Py.scalar := getattr self "_template".

(** *** Initialization from training examples *)

Section Initialize.

(** [self._prompt_example_type.generate(eg, self)] *)
Variable generate : Example -> Task -> FewshotExample.

(** The body of the loop of [BuiltinTask._initialize]. *)
Definition _initialize_step (n_prompt_examples : Z) (self : Task) (eg : Example) : Task :=
  if (n_prompt_examples <? 0)%Z
     || (Z.of_nat (List.length (_prompt_examples self)) <? n_prompt_examples)%Z
  then with_prompt_examples self (_prompt_examples self ++ [generate eg self])
  else self.

(** [BuiltinTask._initialize(get_examples, nlp, n_prompt_examples)]; [nlp] is
    not used by the method. *)
Definition _initialize (self : Task) (get_examples : list Example)
    (n_prompt_examples : Z) : Task :=
  fold_left (_initialize_step n_prompt_examples) get_examples self.

End Initialize.

(** *** Configuration and examples as dictionaries *)

(** [get_cfg]: [{key: getattr(self, key) for key in self._cfg_keys}] *)
Definition get_cfg (self : Task) : Py.outcome (Py.pydict Py.scalar) :=
  Py.for_each
    (fun cfg key => value ← getattr self key; mret (Py.dict_set key value cfg))
    (_cfg_keys self) [].

(** [set_cfg]: [for key, value in cfg.items(): setattr(self, key, value)] *)
Definition set_cfg (self : Task) (cfg : Py.pydict Py.scalar) : Task :=
  fold_left (fun self '(key, value) => setattr self key value) cfg self.

Section Serialization.

(** The dictionary form of an example: [eg.dict()] and
    [prompt_example_type.parse_obj], which validates and may raise. *)
Variable ExampleDict : Type.
Variable to_dict : FewshotExample -> ExampleDict.
Variable parse_obj : ExampleDict -> Py.outcome FewshotExample.

(** srsly's codecs, at the three types they are used at. *)
Variable bytes : Type.
Variable json_dumps : Py.pydict Py.scalar -> bytes.
Variable json_loads : bytes -> Py.outcome (Py.pydict Py.scalar).
Variable msgpack_dumps_examples : list ExampleDict -> bytes.
Variable msgpack_loads_examples : bytes -> Py.outcome (list ExampleDict).
Variable msgpack_dumps : Py.pydict bytes -> bytes.
Variable msgpack_loads : bytes -> Py.outcome (Py.pydict bytes).

(** [_get_prompt_examples] *)
Definition _get_prompt_examples (self : Task) : list ExampleDict :=
  map to_dict (_prompt_examples self).

(** [_set_prompt_examples] *)
Definition _set_prompt_examples (self : Task) (examples : list ExampleDict)
  : Py.outcome Task :=
  parsed ← Py.for_each (fun acc eg => e ← parse_obj eg; mret (acc ++ [e])) examples [];
  mret (with_prompt_examples self parsed).

(** The name a channel is excluded by: [key.split(".")[0]]. *)
Definition channel_name (key : string) : string :=
  hd key (Py.split "." key).

(** Modelled from the spec: [util.to_bytes] is spaCy's and its body is not
    part of the repository's sources.  Section 4.6: each channel that the
    exclusion set does not name produces its bytes; the result packs them by
    channel name. *)
Definition util_to_bytes (getters : Py.pydict (unit -> Py.outcome bytes))
    (exclude : list string) : Py.outcome bytes :=
  serialized ←
    Py.for_each
      (fun serialized '(key, getter) =>
         if negb (Py.str_in (channel_name key) exclude) then
           b ← getter tt; mret (Py.dict_set key b serialized)
         else mret serialized)
      getters [];
  mret (msgpack_dumps serialized).

(** Modelled from the spec: [util.from_bytes] is spaCy's and its body is not
    part of the repository's sources.  Section 4.6: each channel that the
    exclusion set does not name, and that the data holds, is consumed by its
    setter; an excluded channel leaves the object as it is. *)
Definition util_from_bytes {S : Type} (bytes_data : bytes)
    (setters : Py.pydict (bytes -> S -> Py.outcome S)) (exclude : list string)
    (self : S) : Py.outcome S :=
  msg ← msgpack_loads bytes_data;
  Py.for_each
    (fun self '(key, setter) =>
       if negb (Py.str_in (channel_name key) exclude) then
         match Py.dict_get key msg with
         | Some b => setter b self
         | None => mret self
         end
       else mret self)
    setters self.

(** [BuiltinTask.to_bytes(exclude=...)] *)
Definition to_bytes (self : Task) (exclude : list string) : Py.outcome bytes :=
  let serialize :=
    [ ("cfg", fun _ : unit => cfg ← get_cfg self; mret (json_dumps cfg));
      ("prompt_examples",
        fun _ : unit => mret (msgpack_dumps_examples (_get_prompt_examples self))) ] in
  util_to_bytes serialize exclude.

(** [BuiltinTask.from_bytes(bytes_data, exclude=...)] *)
Definition from_bytes (self : Task) (bytes_data : bytes) (exclude : list string)
  : Py.outcome Task :=
  let deserialize :=
    [ ("cfg", fun b self => cfg ← json_loads b; mret (set_cfg self cfg));
      ("prompt_examples",
        fun b self => egs ← msgpack_loads_examples b; _set_prompt_examples self egs) ] in
  util_from_bytes bytes_data deserialize exclude self.

End Serialization.

End Task.

Arguments __init__ {FewshotExample} template prompt_examples cfg_keys.
Arguments with_prompt_examples {FewshotExample} self examples.
Arguments getattr {FewshotExample} self key.
Arguments setattr {FewshotExample} self key value.
Arguments prompt_template {FewshotExample} self.
Arguments _initialize_step {Example FewshotExample} generate n_prompt_examples self eg.
Arguments _initialize {Example FewshotExample} generate self get_examples n_prompt_examples.
Arguments get_cfg {FewshotExample} self.
Arguments set_cfg {FewshotExample} self cfg.
Arguments _get_prompt_examples {FewshotExample ExampleDict} to_dict self.
Arguments _set_prompt_examples {FewshotExample ExampleDict} parse_obj self examples.
Arguments util_to_bytes {bytes} msgpack_dumps getters exclude.
Arguments util_from_bytes {bytes} msgpack_loads {S} bytes_data setters exclude self.
Arguments to_bytes {FewshotExample ExampleDict} to_dict {bytes} json_dumps
  msgpack_dumps_examples msgpack_dumps self exclude.
Arguments from_bytes {FewshotExample ExampleDict} parse_obj {bytes} json_loads
  msgpack_loads_examples msgpack_loads self bytes_data exclude.

End BuiltinTask.

(** *** Tasks with labels *)

Module BuiltinTaskWithLabels.

(** The state of a [BuiltinTaskWithLabels]: the state it inherits, the
    normalizer, the label map and the label definitions. *)
Record BuiltinTaskWithLabels (FewshotExample : Type) : Type := mkTask {
  base : BuiltinTask.BuiltinTask FewshotExample;
  _normalizer : string -> string;
  _label_dict : Py.pydict string;
  _label_definitions : option (Py.pydict string)
}.

Arguments mkTask {FewshotExample} base _normalizer _label_dict _label_definitions.
Arguments base {FewshotExample} b.
Arguments _normalizer {FewshotExample} b.
Arguments _label_dict {FewshotExample} b.
Arguments _label_definitions {FewshotExample} b.

Section Task.

Variable Example : Type.
Variable FewshotExample : Type.

Abbreviation Task := (BuiltinTask.BuiltinTask FewshotExample).
Abbreviation LabelledTask := (BuiltinTaskWithLabels FewshotExample).

(** [lowercase_normalizer()] of [spacy_llm.registry], the default normalizer. *)
Variable lowercase_normalizer : string -> string.

(** [{self._normalizer(label): label for label in sorted(set(labels))}] *)
Definition build_label_dict (normalizer : string -> string) (labels : list string)
  : Py.pydict string :=
  fold_left (fun d label => Py.dict_set (normalizer label) label d)
    (Py.sorted_set labels) [].

(** [BuiltinTaskWithLabels.__init__] *)
Definition __init__ (template : string)
    (prompt_examples : option (list FewshotExample)) (cfg_keys : list string)
    (labels : list string) (label_definitions : option (Py.pydict string))
    (normalizer : option (string -> string)) : LabelledTask :=
  let _normalizer :=
    match normalizer with Some f => f | None => lowercase_normalizer end in
  {| base := BuiltinTask.__init__ template prompt_examples cfg_keys;
     _normalizer := _normalizer;
     _label_dict := build_label_dict _normalizer labels;
     _label_definitions := label_definitions |}.

Definition with_base (self : LabelledTask) (b : Task) : LabelledTask :=
  {| base := b; _normalizer := _normalizer self; _label_dict := _label_dict self;
     _label_definitions := _label_definitions self |}.

Definition with_label_dict (self : LabelledTask) (d : Py.pydict string) : LabelledTask :=
  {| base := base self; _normalizer := _normalizer self; _label_dict := d;
     _label_definitions := _label_definitions self |}.

(** The [labels] property: [tuple(self._label_dict.values())] *)
Definition labels (self : LabelledTask) : list string :=
  Py.dict_values (_label_dict self).

(** [self._extract_labels_from_example] and
    [self._prompt_example_type.generate(eg, self)] *)
Variable _extract_labels_from_example : Example -> list string.
Variable generate : Example -> LabelledTask -> FewshotExample.

(** The state of the loop of [BuiltinTaskWithLabels._initialize]: the local
    [labels], the task, and (as a record of the calls made) the examples
    handed to [_extract_labels_from_example] so far. *)
Record init_state : Type := mkInit {
  init_labels : list string;
  init_self : LabelledTask;
  init_scanned : list Example
}.

Definition _initialize_step (infer_labels : bool) (n_prompt_examples : Z)
    (st : init_state) (eg : Example) : init_state :=
  let labels := init_labels st in
  let self := init_self st in
  let '(labels, scanned) :=
    if infer_labels
    then (labels ++ _extract_labels_from_example eg, init_scanned st ++ [eg])
    else (labels, init_scanned st) in
  let self :=
    if (n_prompt_examples <? 0)%Z
       || (Z.of_nat (List.length (BuiltinTask._prompt_examples (base self))) <? n_prompt_examples)%Z
    then with_base self
           (BuiltinTask.with_prompt_examples (base self)
              (BuiltinTask._prompt_examples (base self) ++ [generate eg self]))
    else self in
  {| init_labels := labels; init_self := self; init_scanned := scanned |}.

(** [BuiltinTaskWithLabels._initialize(get_examples, nlp, labels,
    n_prompt_examples)]: the task afterwards, and the examples that were
    scanned for labels. *)
Definition _initialize (self : LabelledTask) (get_examples : list Example)
    (labels_arg : list string) (n_prompt_examples : Z) : LabelledTask * list Example :=
  let labels0 :=
    match labels_arg with [] => labels self | _ => labels_arg end in
  let infer_labels := match labels0 with [] => true | _ => false end in
  let labels1 := if infer_labels then [] else labels0 in
  let st :=
    fold_left (_initialize_step infer_labels n_prompt_examples) get_examples
      {| init_labels := labels1; init_self := self; init_scanned := [] |} in
  (with_label_dict (init_self st)
     (build_label_dict (_normalizer self) (init_labels st)),
   init_scanned st).

(** [BuiltinTaskWithLabels.add_label]: the returned integer and the task
    afterwards. *)
Definition add_label (self : LabelledTask) (label : Py.object)
  : Py.outcome (Z * LabelledTask) :=
  match label with
  | Py.OScalar (Py.SStr label) =>
      if Py.str_in label (labels self) then mret (0%Z, self)
      else mret (1%Z,
                 with_label_dict self
                   (Py.dict_set (_normalizer self label) label (_label_dict self)))
  | _ => Py.Raises (Py.ValueError "E187")
  end.

End Task.

Arguments __init__ {FewshotExample} lowercase_normalizer template prompt_examples
  cfg_keys labels label_definitions normalizer.
Arguments with_base {FewshotExample} self b.
Arguments with_label_dict {FewshotExample} self d.
Arguments labels {FewshotExample} self.
Arguments mkInit {Example FewshotExample} init_labels init_self init_scanned.
Arguments init_labels {Example FewshotExample} i.
Arguments init_self {Example FewshotExample} i.
Arguments init_scanned {Example FewshotExample} i.
Arguments _initialize_step {Example FewshotExample} _extract_labels_from_example
  generate infer_labels n_prompt_examples st eg.
Arguments _initialize {Example FewshotExample} _extract_labels_from_example
  generate self get_examples labels_arg n_prompt_examples.
Arguments add_label {FewshotExample} self label.

End BuiltinTaskWithLabels.

(** ** [spacy_llm/tasks/summarization/task.py] *)

Module Summarization.

Section Task.

Variable FewshotExample : Type.

Abbreviation Task := (BuiltinTask.BuiltinTask FewshotExample).

(** The injected [parse_responses] callable ([self._parse_responses]): the
    summaries it yields for the documents and the raw responses. *)
Variable _parse_responses : Task -> list Spacy.Doc -> list string -> Py.outcome (list string).

(** [SummarizationTask._cfg_keys] *)
Definition _cfg_keys : list string := ["_template"].

(** [SummarizationTask.__init__] *)
Definition __init__ (template : string) (max_n_words : option Z) (field : string)
    (prompt_examples : option (list FewshotExample)) : Task :=
  let self := BuiltinTask.__init__ template prompt_examples _cfg_keys in
  let self :=
    BuiltinTask.setattr self "_max_n_words"
      (match max_n_words with
       | Some n => Py.SInt n
       | None => Py.SNone
       end) in
  let self := BuiltinTask.setattr self "_field" (Py.SStr field) in
  BuiltinTask.setattr self "_check_example_summaries" (Py.SBool true).

(** [SummarizationTask.initialize] *)
Definition initialize {Example : Type} (generate : Example -> Task -> FewshotExample)
    (self : Task) (get_examples : list Example) (n_prompt_examples : Z) : Task :=
  BuiltinTask._initialize generate self get_examples n_prompt_examples.

(** [self._field], used as the name of a document attribute. *)
Definition field (self : Task) : Py.outcome string :=
  v ← BuiltinTask.getattr self "_field";
  match v with
  | Py.SStr name => mret name
  | _ => Py.Raises (Py.TypeError "attribute name must be string")
  end.

(** [SummarizationTask.parse_responses]: the documents the generator yields. *)
Definition parse_responses (self : Task) (docs : list Spacy.Doc) (responses : list string)
  : Py.outcome (list Spacy.Doc) :=
  summaries ← _parse_responses self docs responses;
  Py.for_each
    (fun yielded '(doc, summary) =>
       name ← field self;
       mret (yielded ++ [Spacy.set_user_attr doc name summary]))
    (combine docs summaries) [].

End Task.

Arguments __init__ {FewshotExample} template max_n_words field prompt_examples.
Arguments field {FewshotExample} self.
Arguments parse_responses {FewshotExample} _parse_responses self docs responses.

Section Prompts.

Variable FewshotExample : Type.

Abbreviation PromptTask := (BuiltinTask.BuiltinTask FewshotExample).

(** jinja2: [Environment().from_string], which compiles a template, and
    [Template.render] with the fields [text], [prompt_examples] and the
    prompt data; either may raise. *)
Variable Template : Type.
Variable from_string : Py.scalar -> Py.outcome Template.
Variable render :
  Template -> string -> list FewshotExample -> Py.pydict Py.scalar -> Py.outcome string.

(** The warnings of [_check_prompt_example_summary_len], which compares
    word counts scaled by the floating-point factor 1.2. *)
Variable _check_prompt_example_summary_len : PromptTask -> list string.

(** [SummarizationTask._get_prompt_data]: the prompt data, the task
    afterwards and the warnings emitted. *)
Definition _get_prompt_data (self : PromptTask) (shard : Spacy.Doc)
  : Py.outcome (Py.pydict Py.scalar * PromptTask * list string) :=
  check ← BuiltinTask.getattr self "_check_example_summaries";
  let '(self, warnings) :=
    if Py.truthy check
    then (BuiltinTask.setattr self "_check_example_summaries" (Py.SBool false),
          _check_prompt_example_summary_len self)
    else (self, []) in
  max_n_words ← BuiltinTask.getattr self "_max_n_words";
  mret ([("max_n_words", max_n_words)], self, warnings).

(** [BuiltinTask.generate_prompts] on a summarization task
    ([_preprocess_docs_for_prompt] is not overridden and returns the
    documents): the prompts the generator yields, the task afterwards and the
    warnings emitted on the way. *)
Definition generate_prompts (self : PromptTask) (docs : list Spacy.Doc)
  : Py.outcome (list string * PromptTask * list string) :=
  template ← BuiltinTask.getattr self "_template";
  _template ← from_string template;
  Py.for_each
    (fun '(prompts, self, warnings) doc =>
       let prompt_examples := BuiltinTask._prompt_examples self in
       '(data, self', emitted) ← _get_prompt_data self doc;
       prompt ← render _template (Spacy.text doc) prompt_examples data;
       mret (prompts ++ [prompt], self', warnings ++ emitted))
    docs ([], self, []).

End Prompts.

Arguments _get_prompt_data {FewshotExample} _check_prompt_example_summary_len self shard.
Arguments generate_prompts {FewshotExample Template} from_string render
  _check_prompt_example_summary_len self docs.

End Summarization.

(** ** Reference collaborators and sample data for the closed examples *)

Module Samples.

(** [str.lower] on the ASCII range. *)
Definition ascii_lower (c : ascii) : ascii :=
  let n := nat_of_ascii c in
  if (65 <=? n) && (n <=? 90) then ascii_of_nat (n + 32) else c.

Fixpoint lower (s : string) : string :=
  match s with
  | EmptyString => EmptyString
  | String c rest => String (ascii_lower c) (lower rest)
  end.

Fixpoint starts_with (p t : list ascii) : bool :=
  match p, t with
  | [], _ => true
  | a :: p', b :: t' => Ascii.eqb a b && starts_with p' t'
  | _ :: _, [] => false
  end.

Fixpoint matches_from (patterns : list (list ascii)) (t : list ascii) (i : nat)
  : list Ner.Match :=
  match t with
  | [] => []
  | _ :: rest =>
      flat_map
        (fun p =>
           match p with
           | [] => []
           | _ => if starts_with p t then [Ner.mkMatch i (i + List.length p)] else []
           end)
        patterns
      ++ matches_from patterns rest (S i)
  end.

(** A stand-in for the phrase matcher: every literal occurrence of every
    phrase, from left to right, compared under the casing policy. *)
Definition phrase_matcher (lang : string) (case_sensitive : bool)
    (substrings : list string) (text : string) : list Ner.Match :=
  let norm := if case_sensitive then (fun s => s) else lower in
  matches_from (map (fun p => list_ascii_of_string (norm p)) substrings)
    (list_ascii_of_string (norm text)) 0.

(** A stand-in for [doc.char_span] on a text whose every position is a token
    boundary. *)
Definition char_span (doc : Spacy.Doc) (start end_ : nat) (mode : string)
  : option (nat * nat) :=
  Some (start, end_).

Definition doc_of (text : string) : Spacy.Doc :=
  {| Spacy.text := text; Spacy.ents := []; Spacy.user_attrs := ∅ |}.

Definition nyt : string := "The New York Times is based in New York.".

(** A stand-in for the validation of an item read from an examples file: an
    item is an example that fits, or one that pydantic rejects. *)
Definition validate (eg : option Ner.NERExample) : Py.outcome Ner.NERExample :=
  match eg with
  | Some example => Py.Returns example
  | None => Py.Raises (Py.ValueError "validation error for NERExample")
  end.

(** A [NERTask] as [NERTask.__init__] builds it. *)
Definition ner_task (labels : string) (single_match : bool) : Py.outcome Ner.NERTask :=
  Ner.__init__ lower validate labels None None "contract" "xx" false single_match.

Definition ner_task_state (labels : string) (single_match : bool) : Ner.NERTask :=
  {| Ner._normalizer := lower;
     Ner._label_dict := Ner.label_dict_of lower (Py.split "," labels);
     Ner._examples := None;
     Ner._alignment_mode := "contract";
     Ner._lang := "xx";
     Ner._case_sensitive_matching := false;
     Ner._single_match := single_match |}.

Definition ner_parse_responses :=
  Ner.parse_responses lower phrase_matcher char_span Spacy.filter_spans.

(** A reference wire format for the codecs of the serialization channels. *)
#[warnings="-register-all"] Inductive blob : Type :=
| BCfg (cfg : Py.pydict Py.scalar)
| BExamples (examples : list string)
| BChannel (key : string) (payload : blob)
| BMsg (channels : list blob).

Definition json_loads (b : blob) : Py.outcome (Py.pydict Py.scalar) :=
  match b with BCfg cfg => Py.Returns cfg | _ => Py.Raises Py.DecodeError end.

Definition msgpack_loads_examples (b : blob) : Py.outcome (list string) :=
  match b with BExamples l => Py.Returns l | _ => Py.Raises Py.DecodeError end.

Definition msgpack_dumps (msg : Py.pydict blob) : blob :=
  BMsg (map (fun '(key, payload) => BChannel key payload) msg).

Definition msgpack_loads (b : blob) : Py.outcome (Py.pydict blob) :=
  match b with
  | BMsg channels =>
      Py.for_each
        (fun msg c =>
           match c with
           | BChannel key payload => Py.Returns (msg ++ [(key, payload)])
           | _ => Py.Raises Py.DecodeError
           end)
        channels []
  | _ => Py.Raises Py.DecodeError
  end.

(** A summarization parser that yields one summary per response. *)
Definition parse_summaries (self : BuiltinTask.BuiltinTask string)
    (docs : list Spacy.Doc) (responses : list string) : Py.outcome (list string) :=
  Py.Returns (map Py.strip responses).

(** A knowledge base that knows three candidates for a mention that starts
    the text and none for any other mention. *)
Definition kb (mentions : list Spacy.Span) : list (list CandidateSelector.Candidate) :=
  map (fun m =>
         if Spacy.span_start m =? 0
         then [ CandidateSelector.mkCandidate "Q1" (1 # 10);
                CandidateSelector.mkCandidate "Q2" (9 # 10);
                CandidateSelector.mkCandidate "Q3" (5 # 10) ]
         else [])
      mentions.

Definition selector (top_n : Z) : CandidateSelector.PipelineCandidateSelector :=
  {| CandidateSelector._kb := kb;
     CandidateSelector._descs := {[ "Q2" := "second"; "Q3" := "third" ]};
     CandidateSelector._top_n := top_n |}.

Definition select (top_n : Z) :=
  CandidateSelector.__call__ "NIL" "no description" (selector top_n).

(** A labelled task as [BuiltinTaskWithLabels.__init__] builds it. *)
Definition labelled_task (labels : list string) : BuiltinTaskWithLabels.BuiltinTaskWithLabels string :=
  BuiltinTaskWithLabels.__init__ lower "template" None ["_template"] labels None None.

(** The labels of a training example: here, the words of its text. *)
Definition example_labels (eg : string) : list string := Py.split " " eg.

Definition labelled_initialize :=
  BuiltinTaskWithLabels._initialize (FewshotExample := string) example_labels
    (fun eg _ => eg).

(** A response of three lines: a known label written in lower case, an
    unknown label, and a line without a colon. *)
Definition three_lines : string :=
  "per: Ann
ORG: Rome
no entities here".

(** The codecs, the example type being [string], over the reference wire
    format. *)
Definition save :=
  BuiltinTask.to_bytes (FewshotExample := string) (fun eg => eg) BCfg BExamples
    msgpack_dumps.

Definition load :=
  BuiltinTask.from_bytes (FewshotExample := string) (fun eg => Py.Returns eg) json_loads
    msgpack_loads_examples msgpack_loads.

(** Two summarization tasks, as [SummarizationTask.__init__] builds them. *)
Definition saved_task : BuiltinTask.BuiltinTask string :=
  Summarization.__init__ "Summarize in {{ max_n_words }} words." (Some 80%Z) "summary"
    (Some ["a worked example"]).

Definition fresh_task : BuiltinTask.BuiltinTask string :=
  Summarization.__init__ "Summarize." None "summary" None.

(** A stand-in for jinja2: a template is its text, and rendering puts the
    document text after it. *)
Definition from_string (template : Py.scalar) : Py.outcome string :=
  match template with
  | Py.SStr text => Py.Returns text
  | _ => Py.Raises (Py.TypeError "template must be a string")
  end.

Definition render_text (template text : string) (prompt_examples : list string)
    (data : Py.pydict Py.scalar) : string :=
  String.append template (String.append " " text).

Definition render (template text : string) (prompt_examples : list string)
    (data : Py.pydict Py.scalar) : Py.outcome string :=
  Py.Returns (render_text template text prompt_examples data).

(** A check of the example summaries that always warns. *)
Definition check_summaries (self : BuiltinTask.BuiltinTask string) : list string :=
  ["summary too long"].

End Samples.

(** ** Declarative counterparts used in the statements *)

Module Declarative.

(** What one response line contributes to [_format_response]: nothing, or one
    [(canonical label, phrases)] entry. *)
Definition line_entry (self : Ner.NERTask) (line : string)
  : option (string * list string) :=
  match Py.split1 ":" line with
  | [label; phrases] =>
      match Py.dict_get (Ner._normalizer self label) (Ner._label_dict self) with
      | Some canonical =>
          if String.eqb (Py.strip phrases) "" then None
          else Some (canonical, map Py.strip (Py.split "," (Py.strip phrases)))
      | None => None
      end
  | _ => None
  end.

Definition option_list {A : Type} (o : option A) : list A :=
  match o with Some a => [a] | None => [] end.

(** The last label of [labels] whose normalized form is [k]. *)
Fixpoint last_with_key (normalizer : string -> string) (k : string)
    (labels : list string) : option string :=
  match labels with
  | [] => None
  | label :: rest =>
      match last_with_key normalizer k rest with
      | Some v => Some v
      | None => if String.eqb (normalizer label) k then Some label else None
      end
  end.

(** The first occurrence of every key, in first-seen order: the head is
    kept and every later element with the head's key is dropped. *)
Fixpoint first_occurrences {A : Type} (key : A -> string) (xs : list A) : list A :=
  match xs with
  | [] => []
  | x :: rest =>
      x :: List.filter (fun y => negb (String.eqb (key y) (key x)))
             (first_occurrences key rest)
  end.

(** The offsets of a match, as [find_substrings] returns them. *)
Definition offsets (m : Ner.Match) : nat * nat := (Ner.start_char m, Ner.end_char m).

(** The text a match covers, as it is written in the document. *)
Definition written_text (text : string) (m : Ner.Match) : string :=
  substring (Ner.start_char m) (Ner.end_char m - Ner.start_char m) text.

(** The case-normalized text of a match: the text it covers, in lower case. *)
Definition case_normalized_text (lower : string -> string) (text : string)
    (m : Ner.Match) : string :=
  lower (written_text text m).

(** The text of a match as the search compares it: case-normalized when the
    search is not case sensitive, as written when it is. *)
Definition matched_text (lower : string -> string) (case_sensitive : bool)
    (text : string) (m : Ner.Match) : string :=
  if case_sensitive then written_text text m else case_normalized_text lower text m.

(** The spans of length [n]. *)
Definition by_len (n : nat) (s : Spacy.Span) : bool := Spacy.span_len s =? n.

(** [a] is at least as long as [b]. *)
Definition not_shorter (a b : Spacy.Span) : Prop := Spacy.span_len b <= Spacy.span_len a.

(** Two spans that share no position. *)
Definition disjoint (a b : Spacy.Span) : Prop := Spacy.overlaps a b = false.

(** One step of the configuration dictionary: the entry of [key], holding
    the attribute of that name. *)
Definition cfg_entry {FewshotExample : Type} (self : BuiltinTask.BuiltinTask FewshotExample)
    (cfg : Py.pydict Py.scalar) (key : string) : Py.pydict Py.scalar :=
  match BuiltinTask.attrs self !! key with
  | Some value => Py.dict_set key value cfg
  | None => cfg
  end.


(** The invariant of a label map: its keys are distinct, and every entry
    files a label under the label's own normalized form. *)
Definition label_dict_ok (normalizer : string -> string) (d : Py.pydict string) : Prop :=
  List.NoDup (Py.dict_keys d) /\ forall k v, In (k, v) d -> normalizer v = k.

(** [a] is at least as probable as [b]. *)
Definition at_least_as_probable (a b : CandidateSelector.Candidate) : Prop :=
  (CandidateSelector.prior_prob b <= CandidateSelector.prior_prob a)%Q.

End Declarative.

(* ===================================================================== *)
(** * Part II.  Properties                                                *)
(* ===================================================================== *)

(** ** Calls that may raise *)

Lemma returns_not_raised {A : Type} (a : A) : ~ Py.raised (Py.Returns a).
Proof. intros [e He]. discriminate He. Qed.

(** A loop whose body never raises is a plain left fold. *)
Lemma for_each_total {A S : Type} (body : S -> A -> Py.outcome S) (f : S -> A -> S)
    (xs : list A) (acc : S) :
  (forall s x, body s x = Py.Returns (f s x)) ->
  Py.for_each body xs acc = Py.Returns (fold_left f xs acc).
Proof.
  intros Hbody. revert acc.
  induction xs as [|x xs IH]; intros acc; simpl; [reflexivity|].
  rewrite Hbody. simpl. apply IH.
Qed.

(** Appending one element per iteration is [map]. *)
Lemma fold_left_snoc_map {A B : Type} (f : A -> B) (xs : list A) (acc : list B) :
  fold_left (fun out x => out ++ [f x]) xs acc = acc ++ map f xs.
Proof.
  revert acc. induction xs as [|x xs IH]; intros acc; simpl.
  - now rewrite app_nil_r.
  - rewrite IH, <- app_assoc. reflexivity.
Qed.

(** ** Prompt examples and their cap ([BuiltinTask._initialize]) *)

Section InitializeFacts.

Context {Example FewshotExample : Type}.
Variable generate : Example -> BuiltinTask.BuiltinTask FewshotExample -> FewshotExample.

Abbreviation count self := (List.length (BuiltinTask._prompt_examples self)).

Lemma initialize_step_cases (n : Z) self eg :
  let self' := BuiltinTask._initialize_step generate n self eg in
  (self' = self /\ (0 <= n)%Z /\ (n <= Z.of_nat (count self))%Z)
  \/ (BuiltinTask._prompt_examples self'
        = BuiltinTask._prompt_examples self ++ [generate eg self]
      /\ ((n < 0)%Z \/ (Z.of_nat (count self) < n)%Z)).
Proof.
  unfold BuiltinTask._initialize_step.
  destruct (Z.ltb_spec n 0); simpl.
  - right. split; [reflexivity | lia].
  - destruct (Z.ltb_spec (Z.of_nat (count self)) n); simpl.
    + right. split; [reflexivity | lia].
    + left. repeat split; lia.
Qed.

Lemma initialize_cons (n : Z) eg egs self :
  BuiltinTask._initialize generate self (eg :: egs) n
  = BuiltinTask._initialize generate (BuiltinTask._initialize_step generate n self eg) egs n.
Proof. reflexivity. Qed.

(** Initialization only appends: what was stored stays, in front. *)
Lemma initialize_extends (n : Z) egs self :
  exists added,
    BuiltinTask._prompt_examples (BuiltinTask._initialize generate self egs n)
    = BuiltinTask._prompt_examples self ++ added
    /\ List.length added <= List.length egs.
Proof.
  revert self. induction egs as [|eg egs IH]; intros self.
  - exists []. split; [now rewrite app_nil_r | simpl; lia].
  - rewrite initialize_cons.
    destruct (IH (BuiltinTask._initialize_step generate n self eg)) as (added & -> & Hlen).
    destruct (initialize_step_cases n self eg) as [(-> & _) | (-> & _)].
    + exists added. split; [reflexivity | simpl; lia].
    + exists (generate eg self :: added). rewrite <- app_assoc. split; [reflexivity|].
      simpl. lia.
Qed.

Lemma initialize_bounded (n : Z) egs self :
  (0 <= n)%Z ->
  count (BuiltinTask._initialize generate self egs n) <= Nat.max (Z.to_nat n) (count self).
Proof.
  intros Hn. revert self. induction egs as [|eg egs IH]; intros self; [simpl; lia|].
  rewrite initialize_cons.
  specialize (IH (BuiltinTask._initialize_step generate n self eg)).
  destruct (initialize_step_cases n self eg) as [(Heq & _) | (Heq & Hlt)];
    cbv zeta in Heq.
  - rewrite Heq in IH |- *. exact IH.
  - rewrite Heq, length_app in IH. simpl in IH. lia.
Qed.

Lemma initialize_unbounded (n : Z) egs self :
  (n < 0)%Z ->
  count (BuiltinTask._initialize generate self egs n) = count self + List.length egs.
Proof.
  intros Hn. revert self. induction egs as [|eg egs IH]; intros self; [simpl; lia|].
  rewrite initialize_cons, IH.
  destruct (initialize_step_cases n self eg) as [(_ & ? & _) | (Heq & _)]; [lia|].
  cbv zeta in Heq. rewrite Heq, length_app. simpl. lia.
Qed.

End InitializeFacts.

(** C9 (as amended): initialization only appends to the stored prompt
    examples.  With a cap [n >= 0] the count afterwards is at most the larger
    of [n] and the count before, hence at most [n] when no more than [n]
    examples were present before; with a negative cap (the documented [-1])
    every provided training example is taken. *)
Theorem C9_prompt_example_cap :
  forall (Example FewshotExample : Type)
    (generate : Example -> BuiltinTask.BuiltinTask FewshotExample -> FewshotExample)
    (self : BuiltinTask.BuiltinTask FewshotExample) (get_examples : list Example) (n : Z),
    let self' := BuiltinTask._initialize generate self get_examples n in
    (exists added,
        BuiltinTask._prompt_examples self' = BuiltinTask._prompt_examples self ++ added
        /\ List.length added <= List.length get_examples)
    /\ ((0 <= n)%Z ->
        List.length (BuiltinTask._prompt_examples self')
        <= Nat.max (Z.to_nat n) (List.length (BuiltinTask._prompt_examples self)))
    /\ ((0 <= n)%Z ->
        (Z.of_nat (List.length (BuiltinTask._prompt_examples self)) <= n)%Z ->
        (Z.of_nat (List.length (BuiltinTask._prompt_examples self')) <= n)%Z)
    /\ ((n < 0)%Z ->
        List.length (BuiltinTask._prompt_examples self')
        = List.length (BuiltinTask._prompt_examples self) + List.length get_examples).
Proof.
  intros Example FewshotExample generate self egs n self'. subst self'.
  split; [apply initialize_extends|].
  split; [apply initialize_bounded|].
  split; [|apply initialize_unbounded].
  intros Hn Hcount.
  pose proof (initialize_bounded generate n egs self Hn). lia.
Qed.

(** C9, at a task without examples, three training examples and cap 2. *)
Lemma C9_prompt_example_cap_witness :
  (Z.of_nat
     (List.length
        (BuiltinTask._prompt_examples
           (BuiltinTask._initialize (fun (eg : string) _ => eg)
              (BuiltinTask.__init__ "template" None ["_template"])
              ["a"; "b"; "c"] 2))) <= 2)%Z.
Proof.
  apply (C9_prompt_example_cap string string (fun eg _ => eg)
           (BuiltinTask.__init__ "template" None ["_template"]) ["a"; "b"; "c"] 2).
  - lia.
  - simpl. lia.
Defined.

(** C9 as stated fails: a task constructed with two prompt examples and
    initialized with cap 1 still stores two. *)
Lemma C9_cap_exceeded_by_existing_examples :
  (0 <= 1)%Z
  /\ List.length
       (BuiltinTask._prompt_examples
          (BuiltinTask._initialize (fun (eg : string) _ => eg)
             (BuiltinTask.__init__ "template" (Some ["first"; "second"]) ["_template"])
             ["third"] 1)) = 2
  /\ ~ (2 <= 1).
Proof. split; [lia|]. split; [reflexivity | lia]. Qed.

(** ** Response lines ([NERTask._format_response]) *)

Lemma split1_shape (sep : ascii) (s : string) :
  (Py.contains_char sep s = true /\ exists a b, Py.split1 sep s = [a; b])
  \/ (Py.contains_char sep s = false /\ exists a, Py.split1 sep s = [a]).
Proof.
  induction s as [|c s IH]; simpl.
  - right. split; [reflexivity | now exists ""].
  - destruct (Ascii.eqb c sep); simpl.
    + left. split; [reflexivity | now exists "", s].
    + destruct IH as [(-> & a & b & ->) | (-> & a & ->)].
      * left. split; [reflexivity | now exists (String c a), b].
      * right. split; [reflexivity | now exists (String c a)].
Qed.

(** A line without a colon is a single piece: the guard of the loop and the
    shape of the split agree. *)
Lemma split1_no_colon (sep : ascii) (s : string) :
  Py.contains_char sep s = false -> exists a, Py.split1 sep s = [a].
Proof.
  intros H. destruct (split1_shape sep s) as [(H' & _) | (_ & Ha)]; [congruence | exact Ha].
Qed.

(** The body of the loop never raises: the unpacking is guarded. *)
Lemma format_response_line_entry self output line :
  Ner._format_response_line self output line
  = Py.Returns (output ++ Declarative.option_list (Declarative.line_entry self line)).
Proof.
  unfold Ner._format_response_line, Declarative.line_entry.
  destruct (split1_shape ":" line) as [(Hc & a & b & Hs) | (Hc & a & Hs)];
    rewrite Hc, Hs.
  - assert (Hne : negb (String.eqb line "") = true).
    { destruct line; [discriminate Hc | reflexivity]. }
    rewrite Hne. simpl.
    destruct (Py.dict_get _ _); simpl; [|now rewrite app_nil_r].
    destruct (String.eqb (Py.strip b) ""); simpl; [now rewrite app_nil_r | reflexivity].
  - rewrite andb_false_r. simpl. now rewrite app_nil_r.
Qed.

Lemma fold_left_snoc_flat_map {A B : Type} (f : A -> list B) (xs : list A) (acc : list B) :
  fold_left (fun out x => out ++ f x) xs acc = acc ++ flat_map f xs.
Proof.
  revert acc. induction xs as [|x xs IH]; intros acc; simpl.
  - now rewrite app_nil_r.
  - rewrite IH, <- app_assoc. reflexivity.
Qed.

(** [_format_response] returns, in line order, the entries of its lines. *)
Lemma format_response_entries self response :
  Ner._format_response self response
  = Py.Returns
      (flat_map (fun line => Declarative.option_list (Declarative.line_entry self line))
         (Py.split "010" (Py.strip response))).
Proof.
  unfold Ner._format_response.
  rewrite (for_each_total _
             (fun out line =>
                out ++ Declarative.option_list (Declarative.line_entry self line))).
  - now rewrite fold_left_snoc_flat_map.
  - intros. apply format_response_line_entry.
Qed.

Section NerFacts.

Variable lower : string -> string.
Variable phrase_matcher : string -> bool -> list string -> string -> list Ner.Match.
Variable char_span : Spacy.Doc -> nat -> nat -> string -> option (nat * nat).
Variable filter_spans : list Spacy.Span -> list Spacy.Span.

Abbreviation collect := (Ner.collect_spans lower phrase_matcher char_span).
Abbreviation entry_spans := (Ner.spans_of_entry lower phrase_matcher char_span).

Lemma collect_spans_returns self doc response :
  collect self doc response
  = Py.Returns
      (fold_left (entry_spans self doc)
         (flat_map (fun line => Declarative.option_list (Declarative.line_entry self line))
            (Py.split "010" (Py.strip response))) []).
Proof.
  unfold Ner.collect_spans. now rewrite format_response_entries.
Qed.

(** Parsing one response never raises. *)
Lemma parse_response_returns self doc response :
  exists spans,
    collect self doc response = Py.Returns spans
    /\ Ner.parse_response lower phrase_matcher char_span filter_spans self doc response
       = Py.Returns (Spacy.set_ents doc (filter_spans spans)).
Proof.
  eexists. split; [apply collect_spans_returns|].
  unfold Ner.parse_response. now rewrite collect_spans_returns.
Qed.

End NerFacts.

(** ** Positional pairing ([zip]) *)

Lemma combine_lookup {A B : Type} (xs : list A) (ys : list B) (i : nat) x y :
  xs !! i = Some x -> ys !! i = Some y -> combine xs ys !! i = Some (x, y).
Proof.
  revert ys i. induction xs as [|x' xs IH]; intros [|y' ys] [|i]; simpl; try discriminate.
  - now intros [= ->] [= ->].
  - apply IH.
Qed.

(** C1 (as amended): [parse_responses] pairs documents and responses by
    position with [zip].  It raises nothing when the two lengths differ; it
    yields one document per pair, as many as the shorter sequence has, the
    i-th from the i-th document and the i-th response (NER) or the i-th
    summary of the injected parser (summarization). *)
Theorem C1_parse_responses_pairs_by_position :
  (forall (lower : string -> string)
      (phrase_matcher : string -> bool -> list string -> string -> list Ner.Match)
      (char_span : Spacy.Doc -> nat -> nat -> string -> option (nat * nat))
      (filter_spans : list Spacy.Span -> list Spacy.Span)
      (self : Ner.NERTask) (docs : list Spacy.Doc) (responses : list string),
      exists yielded,
        Ner.parse_responses lower phrase_matcher char_span filter_spans self docs responses
        = Py.Returns yielded
        /\ List.length yielded = Nat.min (List.length docs) (List.length responses)
        /\ forall i doc response,
            docs !! i = Some doc -> responses !! i = Some response ->
            exists doc',
              Ner.parse_response lower phrase_matcher char_span filter_spans
                self doc response = Py.Returns doc'
              /\ yielded !! i = Some doc')
  /\ (forall (FewshotExample : Type)
        (parser : BuiltinTask.BuiltinTask FewshotExample -> list Spacy.Doc ->
                  list string -> Py.outcome (list string))
        (self : BuiltinTask.BuiltinTask FewshotExample)
        (docs : list Spacy.Doc) (responses summaries : list string) (name : string),
        parser self docs responses = Py.Returns summaries ->
        BuiltinTask.attrs self !! "_field" = Some (Py.SStr name) ->
        exists yielded,
          Summarization.parse_responses parser self docs responses = Py.Returns yielded
          /\ List.length yielded = Nat.min (List.length docs) (List.length summaries)
          /\ forall i doc summary,
              docs !! i = Some doc -> summaries !! i = Some summary ->
              yielded !! i = Some (Spacy.set_user_attr doc name summary)).
Proof.
  split.
  - intros lower phrase_matcher char_span filter_spans self docs responses.
    set (g := fun (p : Spacy.Doc * string) =>
                Spacy.set_ents (fst p)
                  (filter_spans
                     (fold_left (Ner.spans_of_entry lower phrase_matcher char_span self (fst p))
                        (flat_map
                           (fun line =>
                              Declarative.option_list (Declarative.line_entry self line))
                           (Py.split "010" (Py.strip (snd p)))) []))).
    assert (Hg : forall doc response,
               Ner.parse_response lower phrase_matcher char_span filter_spans
                 self doc response = Py.Returns (g (doc, response))).
    { intros doc response. unfold Ner.parse_response.
      now rewrite collect_spans_returns. }
    exists (map g (combine docs responses)). split; [|split].
    + unfold Ner.parse_responses.
      rewrite (for_each_total _ (fun out p => out ++ [g p])).
      * now rewrite fold_left_snoc_map.
      * intros s [doc response]. now rewrite Hg.
    + now rewrite length_map, length_combine.
    + intros i doc response Hd Hr. exists (g (doc, response)). split; [apply Hg|].
      rewrite list_lookup_fmap, (combine_lookup _ _ _ _ _ Hd Hr). reflexivity.
  - intros FewshotExample parser self docs responses summaries name Hparse Hfield.
    set (g := fun (p : Spacy.Doc * string) => Spacy.set_user_attr (fst p) name (snd p)).
    exists (map g (combine docs summaries)). split; [|split].
    + unfold Summarization.parse_responses. rewrite Hparse. simpl.
      rewrite (for_each_total _ (fun out p => out ++ [g p])).
      * now rewrite fold_left_snoc_map.
      * intros s [doc summary]. unfold Summarization.field, BuiltinTask.getattr.
        rewrite Hfield. reflexivity.
    + now rewrite length_map, length_combine.
    + intros i doc summary Hd Hs.
      rewrite list_lookup_fmap, (combine_lookup _ _ _ _ _ Hd Hs). reflexivity.
Qed.

(** C1, at a summarization task with two documents and one response: the
    parser returns one summary, the field is a string, one document is
    yielded. *)
Lemma C1_parse_responses_pairs_by_position_witness :
  exists yielded,
    Summarization.parse_responses Samples.parse_summaries
      (Summarization.__init__ "template" None "summary" (None : option (list string)))
      [Samples.doc_of "A long text."; Samples.doc_of "Another long text."]
      [" A text. "]
    = Py.Returns yielded
    /\ List.length yielded = 1.
Proof.
  destruct (proj2 C1_parse_responses_pairs_by_position string Samples.parse_summaries
              (Summarization.__init__ "template" None "summary" None)
              [Samples.doc_of "A long text."; Samples.doc_of "Another long text."]
              [" A text. "] ["A text."] "summary")
    as (yielded & Hrun & Hlen & _).
  - reflexivity.
  - vm_compute. reflexivity.
  - exists yielded. split; [exact Hrun | exact Hlen].
Defined.

(** C1 as stated fails: with two documents and one response the NER parser
    raises nothing and yields the first document only; the second document
    is silently left out. *)
Lemma C1_length_mismatch_is_not_fatal :
  List.length [Samples.doc_of "Ann lives in Rome"; Samples.doc_of "Bob"]
    <> List.length ["PER: Ann"]
  /\ Samples.ner_parse_responses (Samples.ner_task_state "PER,LOC" false)
       [Samples.doc_of "Ann lives in Rome"; Samples.doc_of "Bob"] ["PER: Ann"]
     = Py.Returns
         [Spacy.set_ents (Samples.doc_of "Ann lives in Rome") [Spacy.mkSpan 0 3 "PER"]]
  /\ ~ Py.raised
         (Samples.ner_parse_responses (Samples.ner_task_state "PER,LOC" false)
            [Samples.doc_of "Ann lives in Rome"; Samples.doc_of "Bob"] ["PER: Ann"]).
Proof.
  assert (Hrun :
    Samples.ner_parse_responses (Samples.ner_task_state "PER,LOC" false)
      [Samples.doc_of "Ann lives in Rome"; Samples.doc_of "Bob"] ["PER: Ann"]
    = Py.Returns
        [Spacy.set_ents (Samples.doc_of "Ann lives in Rome") [Spacy.mkSpan 0 3 "PER"]]).
  { vm_compute. reflexivity. }
  split; [simpl; lia|]. split; [exact Hrun|].
  rewrite Hrun. apply returns_not_raised.
Qed.

(** ** Candidate selection ([PipelineCandidateSelector.__call__]) *)

Lemma insert_by_prob_length c cands :
  List.length (CandidateSelector.insert_by_prob c cands) = S (List.length cands).
Proof.
  induction cands as [|d cands IH]; simpl; [reflexivity|].
  destruct (Qle_bool _ _); simpl; [reflexivity | now rewrite IH].
Qed.

(** Sorting keeps every candidate. *)
Lemma sort_by_prior_prob_length cands :
  List.length (CandidateSelector.sort_by_prior_prob cands) = List.length cands.
Proof.
  induction cands as [|c cands IH]; simpl; [reflexivity|].
  now rewrite insert_by_prob_length, IH.
Qed.

Lemma insert_by_prob_perm c cands :
  Permutation (c :: cands) (CandidateSelector.insert_by_prob c cands).
Proof.
  induction cands as [|d cands IH]; simpl; [reflexivity|].
  destruct (Qle_bool _ _); [reflexivity|].
  rewrite perm_swap. now apply perm_skip.
Qed.

Lemma sort_by_prior_prob_perm cands :
  Permutation cands (CandidateSelector.sort_by_prior_prob cands).
Proof.
  induction cands as [|c cands IH]; simpl; [reflexivity|].
  rewrite <- insert_by_prob_perm. now apply perm_skip.
Qed.

(** [xs[:n]] of a non-empty list is non-empty as soon as [n >= 1]. *)
Lemma slice_to_nonempty {A : Type} (n : Z) (xs : list A) :
  (1 <= n)%Z -> 1 <= List.length xs -> 1 <= List.length (Py.slice_to n xs).
Proof.
  intros Hn Hxs. unfold Py.slice_to.
  destruct (Z.leb_spec 0 n); [|lia].
  rewrite length_firstn. lia.
Qed.

Lemma slice_to_length_le {A : Type} (n : Z) (xs : list A) :
  (0 <= n)%Z -> List.length (Py.slice_to n xs) = Nat.min (Z.to_nat n) (List.length xs).
Proof.
  intros Hn. unfold Py.slice_to.
  destruct (Z.leb_spec 0 n); [|lia].
  now rewrite length_firstn.
Qed.

Section SelectorFacts.

Variable NIL UNAVAILABLE_ENTITY_DESC : string.

Abbreviation entities_of := (CandidateSelector.entities_of NIL UNAVAILABLE_ENTITY_DESC).
Abbreviation sentinel :=
  (CandidateSelector.mkEntity NIL UNAVAILABLE_ENTITY_DESC).

Lemma entities_of_empty self : entities_of self [] = [sentinel].
Proof. reflexivity. Qed.

Lemma entities_of_length self cands :
  cands <> [] -> (0 <= CandidateSelector._top_n self)%Z ->
  List.length (entities_of self cands)
  = Nat.min (Z.to_nat (CandidateSelector._top_n self)) (List.length cands).
Proof.
  intros Hne Hn. unfold CandidateSelector.entities_of.
  destruct cands as [|c cands]; [congruence|].
  change (0 <? List.length (c :: cands)) with true. cbv iota.
  rewrite length_map. now apply slice_to_length_le.
Qed.

Lemma entities_of_nonempty self cands :
  (1 <= CandidateSelector._top_n self)%Z -> 1 <= List.length (entities_of self cands).
Proof.
  intros Hn. destruct cands as [|c cands]; [simpl; lia|].
  rewrite entities_of_length; [simpl; lia | discriminate | lia].
Qed.

End SelectorFacts.

(** C2 (as amended): the selector answers with one entity list per candidate
    list of the knowledge base.  For every top-N, a mention whose retrieved
    candidate list is empty yields exactly the sentinel entity (the NIL
    identifier with the placeholder description).  For every top-N that is at
    least 1, every mention yields at least one entity, and a mention with
    candidates yields [min(top_n, number of candidates)] entities. *)
Theorem C2_every_mention_has_a_candidate :
  forall (NIL UNAVAILABLE_ENTITY_DESC : string)
    (self : CandidateSelector.PipelineCandidateSelector) (mentions : list Spacy.Span),
    let result := CandidateSelector.__call__ NIL UNAVAILABLE_ENTITY_DESC self mentions in
    List.length result = List.length (CandidateSelector._kb self mentions)
    /\ (forall i,
          CandidateSelector._kb self mentions !! i = Some [] ->
          result !! i = Some [CandidateSelector.mkEntity NIL UNAVAILABLE_ENTITY_DESC])
    /\ ((1 <= CandidateSelector._top_n self)%Z ->
        Forall (fun entities => 1 <= List.length entities) result)
    /\ ((1 <= CandidateSelector._top_n self)%Z ->
        forall i cands,
          CandidateSelector._kb self mentions !! i = Some cands -> cands <> [] ->
          exists entities,
            result !! i = Some entities
            /\ List.length entities
               = Nat.min (Z.to_nat (CandidateSelector._top_n self)) (List.length cands)).
Proof.
  intros NIL UNAV self mentions result. subst result.
  unfold CandidateSelector.__call__.
  split; [now rewrite !length_map|]. split; [|split].
  - intros i Hi. rewrite !list_lookup_fmap, Hi. reflexivity.
  - intros Hn. rewrite Forall_map. apply Forall_forall. intros cands _.
    now apply entities_of_nonempty.
  - intros Hn i cands Hi Hne. eexists. split.
    + rewrite !list_lookup_fmap, Hi. reflexivity.
    + rewrite entities_of_length; [| |lia].
      * now rewrite sort_by_prior_prob_length.
      * intros Hnil. apply Hne.
        apply (f_equal (@List.length _)) in Hnil.
        rewrite sort_by_prior_prob_length in Hnil. now destruct cands.
Qed.

(** C2, at top-N 2 and two mentions, the second without candidates. *)
Lemma C2_every_mention_has_a_candidate_witness :
  Forall (fun entities => 1 <= List.length entities)
    (Samples.select 2 [Spacy.mkSpan 0 3 "PER"; Spacy.mkSpan 13 17 "LOC"]).
Proof.
  apply (C2_every_mention_has_a_candidate "NIL" "no description" (Samples.selector 2)
           [Spacy.mkSpan 0 3 "PER"; Spacy.mkSpan 13 17 "LOC"]).
  simpl. lia.
Defined.

(** The candidates come out by decreasing probability, cut at top-N, and a
    missing description is replaced by the placeholder. *)
Example select_top_two :
  Samples.select 2 [Spacy.mkSpan 0 3 "PER"; Spacy.mkSpan 13 17 "LOC"]
  = [ [CandidateSelector.mkEntity "Q2" "second"; CandidateSelector.mkEntity "Q3" "third"];
      [CandidateSelector.mkEntity "NIL" "no description"] ].
Proof. vm_compute. reflexivity. Qed.

(** C2 as stated fails: with top-N 0 a mention that has candidates yields no
    entity at all. *)
Lemma C2_top_n_zero_yields_no_candidate :
  Samples.select 0 [Spacy.mkSpan 0 3 "PER"] = [[]]
  /\ ~ Forall (fun entities => 1 <= List.length entities)
         (Samples.select 0 [Spacy.mkSpan 0 3 "PER"]).
Proof.
  assert (H : Samples.select 0 [Spacy.mkSpan 0 3 "PER"] = [[]]) by (vm_compute; reflexivity).
  split; [exact H|]. rewrite H. intros HF.
  apply Forall_inv in HF. simpl in HF. lia.
Qed.

(** ** Dictionaries *)

Section DictFacts.

Context {V : Type}.
Implicit Types (d : Py.pydict V) (k : string) (v : V).

Lemma dict_get_set k k' v d :
  Py.dict_get k (Py.dict_set k' v d)
  = if String.eqb k' k then Some v else Py.dict_get k d.
Proof.
  induction d as [|[k0 v0] d IH]; simpl.
  - reflexivity.
  - destruct (String.eqb_spec k0 k') as [->|Hne]; simpl.
    + destruct (String.eqb k' k); reflexivity.
    + destruct (String.eqb_spec k0 k) as [->|Hne']; simpl.
      * destruct (String.eqb_spec k' k) as [->|_]; [congruence | reflexivity].
      * exact IH.
Qed.

Lemma dict_get_set_same k v d : Py.dict_get k (Py.dict_set k v d) = Some v.
Proof. now rewrite dict_get_set, String.eqb_refl. Qed.

Lemma dict_get_set_other k k' v d :
  k' <> k -> Py.dict_get k (Py.dict_set k' v d) = Py.dict_get k d.
Proof.
  intros Hne. rewrite dict_get_set.
  destruct (String.eqb_spec k' k); [congruence | reflexivity].
Qed.

Lemma dict_keys_set k v d :
  In k (Py.dict_keys d) /\ Py.dict_keys (Py.dict_set k v d) = Py.dict_keys d
  \/ ~ In k (Py.dict_keys d) /\ Py.dict_keys (Py.dict_set k v d) = Py.dict_keys d ++ [k].
Proof.
  induction d as [|[k0 v0] d IH]; simpl.
  - right. split; [tauto | reflexivity].
  - destruct (String.eqb_spec k0 k) as [->|Hne]; simpl.
    + left. split; [now left | reflexivity].
    + destruct IH as [(Hin & ->) | (Hnin & ->)].
      * left. split; [now right | reflexivity].
      * right. split; [intros [?|?]; [congruence | tauto] | reflexivity].
Qed.

(** Assignment keeps the keys of a dictionary distinct. *)
Lemma dict_set_NoDup k v d :
  List.NoDup (Py.dict_keys d) -> List.NoDup (Py.dict_keys (Py.dict_set k v d)).
Proof.
  intros Hnd. destruct (dict_keys_set k v d) as [(_ & ->) | (Hnin & ->)]; [exact Hnd|].
  apply List.NoDup_app; [exact Hnd | repeat constructor; intros [] |].
  intros x Hx [<-|[]]. tauto.
Qed.

Lemma dict_get_In k v d : Py.dict_get k d = Some v -> In v (Py.dict_values d).
Proof.
  induction d as [|[k0 v0] d IH]; simpl; [discriminate|].
  destruct (String.eqb k0 k); [intros [= ->]; now left | intros H; right; auto].
Qed.

End DictFacts.

Lemma str_in_In x xs : Py.str_in x xs = true <-> In x xs.
Proof.
  unfold Py.str_in. rewrite existsb_exists. split.
  - intros (y & Hy & Heq). apply String.eqb_eq in Heq. now subst.
  - intros H. exists x. split; [exact H | apply String.eqb_refl].
Qed.

Lemma str_in_not_In x xs : Py.str_in x xs = false <-> ~ In x xs.
Proof.
  rewrite <- str_in_In. destruct (Py.str_in x xs); split; intros; congruence.
Qed.

(** ** Labels ([BuiltinTaskWithLabels.add_label]) *)

(** C6: [add_label] raises for every input that is not a string; for a label
    that is already one of the task's labels it returns 0 and leaves the task
    (the label map included) as it was; for a label that is not, it returns 1
    and the label map afterwards holds the label under its normalized key,
    every other key keeping its entry. *)
Theorem C6_add_label :
  forall (FewshotExample : Type) (self : BuiltinTaskWithLabels.BuiltinTaskWithLabels FewshotExample)
    (label : Py.object),
    ((forall s, label <> Py.OScalar (Py.SStr s)) ->
     Py.raised (BuiltinTaskWithLabels.add_label self label))
    /\ (forall s, label = Py.OScalar (Py.SStr s) ->
        (In s (BuiltinTaskWithLabels.labels self) ->
         BuiltinTaskWithLabels.add_label self label = Py.Returns (0%Z, self))
        /\ (~ In s (BuiltinTaskWithLabels.labels self) ->
            exists self',
              BuiltinTaskWithLabels.add_label self label = Py.Returns (1%Z, self')
              /\ Py.dict_get (BuiltinTaskWithLabels._normalizer self s) (BuiltinTaskWithLabels._label_dict self')
                 = Some s
              /\ In s (BuiltinTaskWithLabels.labels self')
              /\ (forall k, k <> BuiltinTaskWithLabels._normalizer self s ->
                    Py.dict_get k (BuiltinTaskWithLabels._label_dict self')
                    = Py.dict_get k (BuiltinTaskWithLabels._label_dict self))
              /\ BuiltinTaskWithLabels.base self' = BuiltinTaskWithLabels.base self
              /\ BuiltinTaskWithLabels._normalizer self' = BuiltinTaskWithLabels._normalizer self)).
Proof.
  intros FewshotExample self label. split.
  - intros Hns. unfold BuiltinTaskWithLabels.add_label.
    destruct label as [[| b | z | s] | items]; try (eexists; reflexivity).
    now destruct (Hns s).
  - intros s ->. unfold BuiltinTaskWithLabels.add_label. split.
    + intros Hin. apply str_in_In in Hin. now rewrite Hin.
    + intros Hnin. apply str_in_not_In in Hnin. rewrite Hnin.
      eexists. split; [reflexivity|]. simpl.
      split; [apply dict_get_set_same|].
      split; [eapply dict_get_In, dict_get_set_same|].
      split; [|split; reflexivity].
      intros k Hk. now apply dict_get_set_other.
Qed.

(** C6, at a task with the labels LOC and PER: adding ORG returns 1 and files
    it under its normalized key. *)
Lemma C6_add_label_witness :
  exists self',
    BuiltinTaskWithLabels.add_label (Samples.labelled_task ["PER"; "LOC"])
      (Py.OScalar (Py.SStr "ORG")) = Py.Returns (1%Z, self')
    /\ Py.dict_get "org" (BuiltinTaskWithLabels._label_dict self') = Some "ORG".
Proof.
  destruct (proj2 (C6_add_label string (Samples.labelled_task ["PER"; "LOC"])
                     (Py.OScalar (Py.SStr "ORG"))) "ORG" eq_refl)
    as [_ Hnew].
  destruct Hnew as (self' & Hrun & Hget & _).
  - vm_compute. intros [H|[H|[]]]; discriminate H.
  - exists self'. split; [exact Hrun | exact Hget].
Defined.

(** A label that differs from a configured one only in case is not among
    the labels: it is added (1 is returned) and takes over the shared key. *)
Example add_label_recased :
  exists self',
    BuiltinTaskWithLabels.add_label (Samples.labelled_task ["PER"; "LOC"])
      (Py.OScalar (Py.SStr "per")) = Py.Returns (1%Z, self')
    /\ BuiltinTaskWithLabels.labels self' = ["LOC"; "per"]
    /\ BuiltinTaskWithLabels.add_label (Samples.labelled_task ["PER"; "LOC"])
         (Py.OScalar (Py.SStr "PER"))
       = Py.Returns (0%Z, Samples.labelled_task ["PER"; "LOC"])
    /\ Py.raised
         (BuiltinTaskWithLabels.add_label (Samples.labelled_task ["PER"; "LOC"])
            (Py.OScalar (Py.SInt 7))).
Proof.
  eexists. split; [vm_compute; reflexivity|]. split; [reflexivity|].
  split; [vm_compute; reflexivity|]. eexists. reflexivity.
Qed.

(** ** Label sources at initialization ([BuiltinTaskWithLabels._initialize]) *)

Section LabelledInitializeFacts.

Context {Example FewshotExample : Type}.
Variable extract : Example -> list string.
Variable generate : Example -> BuiltinTaskWithLabels.BuiltinTaskWithLabels FewshotExample -> FewshotExample.

Abbreviation step := (BuiltinTaskWithLabels._initialize_step extract generate).

(** The loop collects labels and scans examples only when it infers, and
    never touches the normalizer or the label map. *)
Lemma labelled_initialize_loop (infer : bool) (n : Z) egs st :
  let st' := fold_left (step infer n) egs st in
  BuiltinTaskWithLabels.init_labels st'
  = BuiltinTaskWithLabels.init_labels st ++ (if infer then flat_map extract egs else [])
  /\ BuiltinTaskWithLabels.init_scanned st'
     = BuiltinTaskWithLabels.init_scanned st ++ (if infer then egs else [])
  /\ BuiltinTaskWithLabels._normalizer (BuiltinTaskWithLabels.init_self st')
     = BuiltinTaskWithLabels._normalizer (BuiltinTaskWithLabels.init_self st)
  /\ BuiltinTaskWithLabels._label_dict (BuiltinTaskWithLabels.init_self st')
     = BuiltinTaskWithLabels._label_dict (BuiltinTaskWithLabels.init_self st).
Proof.
  revert st. induction egs as [|eg egs IH]; intros st; simpl.
  - destruct infer; rewrite !app_nil_r; auto.
  - destruct (IH (step infer n st eg)) as (Hl & Hs & Hn & Hd).
    rewrite Hl, Hs, Hn, Hd. clear IH Hl Hs Hn Hd.
    unfold BuiltinTaskWithLabels._initialize_step.
    destruct infer; simpl;
      destruct ((n <? 0)%Z || _); simpl; rewrite <- ?app_assoc; auto.
Qed.

End LabelledInitializeFacts.

(** C7: after [_initialize] the label map is built from exactly one source.
    Explicit labels, when non-empty, are that source; otherwise the labels
    configured before are, when there are any; otherwise the labels extracted
    from the examples are.  The examples are handed to
    [_extract_labels_from_example] in the last case only, and then all of
    them are. *)
Theorem C7_label_source_precedence :
  forall (Example FewshotExample : Type) (extract : Example -> list string)
    (generate : Example -> BuiltinTaskWithLabels.BuiltinTaskWithLabels FewshotExample -> FewshotExample)
    (self : BuiltinTaskWithLabels.BuiltinTaskWithLabels FewshotExample)
    (get_examples : list Example) (labels : list string) (n_prompt_examples : Z),
    let result :=
      BuiltinTaskWithLabels._initialize extract generate self get_examples labels
        n_prompt_examples in
    let label_dict := BuiltinTaskWithLabels._label_dict (fst result) in
    let scanned := snd result in
    let build := BuiltinTaskWithLabels.build_label_dict (BuiltinTaskWithLabels._normalizer self) in
    (labels <> [] ->
     label_dict = build labels /\ scanned = [])
    /\ (labels = [] -> BuiltinTaskWithLabels.labels self <> [] ->
        label_dict = build (BuiltinTaskWithLabels.labels self) /\ scanned = [])
    /\ (labels = [] -> BuiltinTaskWithLabels.labels self = [] ->
        label_dict = build (flat_map extract get_examples) /\ scanned = get_examples).
Proof.
  intros Example FewshotExample extract generate self egs labels n.
  unfold BuiltinTaskWithLabels._initialize. cbv zeta. simpl fst. simpl snd.
  split; [|split].
  - intros Hne. destruct labels as [|l ls]; [congruence|].
    destruct (labelled_initialize_loop extract generate false n egs
                (BuiltinTaskWithLabels.mkInit (l :: ls) self [])) as (Hl & Hs & _).
    simpl in *. rewrite Hl, Hs, app_nil_r. auto.
  - intros -> Hne. destruct (BuiltinTaskWithLabels.labels self) as [|l ls] eqn:Hprior; [congruence|].
    destruct (labelled_initialize_loop extract generate false n egs
                (BuiltinTaskWithLabels.mkInit (l :: ls) self [])) as (Hl & Hs & _).
    simpl in *. rewrite Hl, Hs, app_nil_r. auto.
  - intros -> Hprior. rewrite Hprior.
    destruct (labelled_initialize_loop extract generate true n egs
                (BuiltinTaskWithLabels.mkInit [] self [])) as (Hl & Hs & _).
    simpl in *. rewrite Hl, Hs. auto.
Qed.

(** C7, at a task configured with PER: the explicit label LOC wins over PER
    and over the labels of the examples, which are not scanned. *)
Lemma C7_label_source_precedence_witness :
  BuiltinTaskWithLabels._label_dict
    (fst (Samples.labelled_initialize (Samples.labelled_task ["PER"])
            ["ORG DATE"; "GPE"] ["LOC"] 1))
  = BuiltinTaskWithLabels.build_label_dict Samples.lower ["LOC"]
  /\ snd (Samples.labelled_initialize (Samples.labelled_task ["PER"])
            ["ORG DATE"; "GPE"] ["LOC"] 1) = [].
Proof.
  apply (C7_label_source_precedence string string Samples.example_labels (fun eg _ => eg)
           (Samples.labelled_task ["PER"]) ["ORG DATE"; "GPE"] ["LOC"] 1).
  discriminate.
Defined.

(** The three sources, run. *)
Example label_sources_run :
  BuiltinTaskWithLabels.labels
    (fst (Samples.labelled_initialize (Samples.labelled_task ["PER"])
            ["ORG DATE"; "GPE"] ["LOC"] 1)) = ["LOC"]
  /\ BuiltinTaskWithLabels.labels
       (fst (Samples.labelled_initialize (Samples.labelled_task ["PER"])
               ["ORG DATE"; "GPE"] [] 1)) = ["PER"]
  /\ BuiltinTaskWithLabels.labels
       (fst (Samples.labelled_initialize (Samples.labelled_task [])
               ["ORG DATE"; "GPE"] [] 1)) = ["DATE"; "GPE"; "ORG"].
Proof. vm_compute. auto. Qed.

(** ** The order of strings and [sorted(set(...))] *)

Lemma ascii_compare_lt_trans a b c :
  Ascii.compare a b = Lt -> Ascii.compare b c = Lt -> Ascii.compare a c = Lt.
Proof.
  unfold Ascii.compare. rewrite !N.compare_lt_iff. lia.
Qed.

Lemma str_lt_trans a b c : Py.str_lt a b -> Py.str_lt b c -> Py.str_lt a c.
Proof.
  unfold Py.str_lt. revert b c.
  induction a as [|x a IH]; intros [|y b] [|z c]; simpl; try discriminate; auto.
  destruct (Ascii.compare x y) eqn:Hxy; try discriminate.
  - apply Ascii.compare_eq_iff in Hxy. subst y.
    destruct (Ascii.compare x z); try discriminate; auto. apply IH.
  - intros _. destruct (Ascii.compare y z) eqn:Hyz; try discriminate.
    + apply Ascii.compare_eq_iff in Hyz. subst z. now rewrite Hxy.
    + now rewrite (ascii_compare_lt_trans _ _ _ Hxy Hyz).
Qed.

Lemma str_lt_irrefl a : ~ Py.str_lt a a.
Proof.
  unfold Py.str_lt. intros H. pose proof (String.compare_antisym a a) as Ha.
  rewrite H in Ha. discriminate Ha.
Qed.

Lemma compare_gt_lt a b : String.compare a b = Gt -> Py.str_lt b a.
Proof.
  unfold Py.str_lt. intros H. rewrite String.compare_antisym, H. reflexivity.
Qed.

Lemma insert_sorted_In x y xs :
  In y (Py.insert_sorted x xs) <-> y = x \/ In y xs.
Proof.
  induction xs as [|z xs IH]; simpl; [intuition|].
  destruct (String.compare x z) eqn:Hc; simpl.
  - apply String.compare_eq_iff in Hc. subst z. intuition.
  - intuition.
  - rewrite IH. intuition.
Qed.

Lemma insert_sorted_sorted x xs :
  StronglySorted Py.str_lt xs -> StronglySorted Py.str_lt (Py.insert_sorted x xs).
Proof.
  induction 1 as [|z xs Hs IH Hz]; simpl.
  - repeat constructor.
  - destruct (String.compare x z) eqn:Hc.
    + now constructor.
    + constructor; [now constructor|]. constructor; [exact Hc|].
      eapply List.Forall_impl; [|exact Hz]. intros w Hw. eapply str_lt_trans; eauto.
    + constructor; [exact IH|]. apply List.Forall_forall. intros w Hw.
      apply insert_sorted_In in Hw. destruct Hw as [->|Hw].
      * now apply compare_gt_lt.
      * rewrite List.Forall_forall in Hz. auto.
Qed.

(** [sorted(set(xs))] has the elements of [xs]... *)
Lemma sorted_set_In x xs : In x (Py.sorted_set xs) <-> In x xs.
Proof.
  induction xs as [|y xs IH]; simpl; [tauto|].
  rewrite insert_sorted_In, IH. intuition.
Qed.

(** ... in strictly increasing order. *)
Lemma sorted_set_sorted xs : StronglySorted Py.str_lt (Py.sorted_set xs).
Proof.
  induction xs as [|y xs IH]; simpl; [constructor | now apply insert_sorted_sorted].
Qed.

Lemma sorted_before_lt (before after : list string) v x :
  StronglySorted Py.str_lt (before ++ v :: after) -> In x before -> Py.str_lt x v.
Proof.
  induction before as [|b before IH]; simpl; [tauto|].
  intros Hs [->|Hx].
  - apply StronglySorted_inv in Hs as [_ Hall]. rewrite List.Forall_forall in Hall.
    apply Hall, in_or_app. right. now left.
  - apply StronglySorted_inv in Hs as [Hs _]. auto.
Qed.

(** ** Label maps ([{normalizer(label): label for label in ...}]) *)

Section LabelDictFacts.

Variable normalizer : string -> string.

Abbreviation assign := (fun d label => Py.dict_set (normalizer label) label d).

Lemma label_fold_get k labels d :
  Py.dict_get k (fold_left assign labels d)
  = match Declarative.last_with_key normalizer k labels with
    | Some v => Some v
    | None => Py.dict_get k d
    end.
Proof.
  revert d. induction labels as [|l labels IH]; intros d; simpl; [reflexivity|].
  rewrite IH. destruct (Declarative.last_with_key normalizer k labels); [reflexivity|].
  rewrite dict_get_set. now destruct (String.eqb (normalizer l) k).
Qed.

Lemma label_fold_NoDup labels (d : Py.pydict string) :
  List.NoDup (Py.dict_keys d) -> List.NoDup (Py.dict_keys (fold_left assign labels d)).
Proof.
  revert d. induction labels as [|l labels IH]; intros d Hd; simpl; [exact Hd|].
  apply IH. now apply dict_set_NoDup.
Qed.

(** The entry of a key is its last label in the order of the comprehension. *)
Lemma last_with_key_split k labels v :
  Declarative.last_with_key normalizer k labels = Some v ->
  exists before after,
    labels = before ++ v :: after
    /\ normalizer v = k
    /\ Forall (fun v' => normalizer v' <> k) after.
Proof.
  revert v. induction labels as [|l labels IH]; intros v; simpl; [discriminate|].
  destruct (Declarative.last_with_key normalizer k labels) as [w|] eqn:Hlast.
  - intros [= ->]. destruct (IH v eq_refl) as (before & after & -> & Hk & Hafter).
    now exists (l :: before), after.
  - destruct (String.eqb_spec (normalizer l) k) as [Hk|Hk]; [|discriminate].
    intros [= ->]. exists [], labels. split; [reflexivity|]. split; [exact Hk|].
    clear IH. induction labels as [|l' labels IH']; [constructor|].
    simpl in Hlast.
    destruct (Declarative.last_with_key normalizer k labels); [discriminate|].
    destruct (String.eqb_spec (normalizer l') k); [discriminate|].
    constructor; auto.
Qed.

Lemma last_with_key_present k labels v :
  In v labels -> normalizer v = k ->
  exists v', Declarative.last_with_key normalizer k labels = Some v'.
Proof.
  induction labels as [|l labels IH]; simpl; [tauto|].
  intros [->|Hin] Hk.
  - destruct (Declarative.last_with_key normalizer k labels); [eauto|].
    rewrite Hk, String.eqb_refl. eauto.
  - destruct (IH Hin Hk) as (v' & ->). eauto.
Qed.

(** In a sorted sequence the last label of a key is its greatest. *)
Lemma last_with_key_greatest k labels v :
  StronglySorted Py.str_lt labels ->
  Declarative.last_with_key normalizer k labels = Some v ->
  forall v', In v' labels -> normalizer v' = k -> v' = v \/ Py.str_lt v' v.
Proof.
  intros Hs Hlast v' Hin Hk.
  destruct (last_with_key_split _ _ _ Hlast) as (before & after & -> & _ & Hafter).
  apply in_app_or in Hin. destruct Hin as [Hin|[->|Hin]].
  - right. eapply sorted_before_lt; eauto.
  - now left.
  - rewrite List.Forall_forall in Hafter. now destruct (Hafter v' Hin).
Qed.

End LabelDictFacts.

(** What a returning [NERTask.__init__] went through: the examples were
    read and validated, the alignment mode is a known one, and the task
    stores what was computed. *)
Lemma ner_init_returns (lowercase_normalizer : string -> string) (Any : Type)
    (NERExample_of : Any -> Py.outcome Ner.NERExample) labels examples normalizer
    alignment_mode lang case_sensitive_matching single_match self :
  Ner.__init__ lowercase_normalizer NERExample_of labels examples normalizer
    alignment_mode lang case_sensitive_matching single_match = Py.Returns self ->
  exists parsed,
    Ner.read_examples NERExample_of examples = Py.Returns parsed
    /\ Ner._validate_alignment alignment_mode = Py.Returns tt
    /\ self
       = Ner.mkNERTask
           (default lowercase_normalizer normalizer)
           (Ner.label_dict_of (default lowercase_normalizer normalizer)
              (Py.split "," labels))
           parsed alignment_mode lang case_sensitive_matching single_match.
Proof.
  unfold Ner.__init__.
  destruct (Ner.read_examples NERExample_of examples) as [parsed|e]; [|discriminate].
  simpl. destruct (Ner._validate_alignment alignment_mode) as [[]|e]; [|discriminate].
  intros [= <-]. exists parsed. repeat split.
Qed.

(** C5 (as amended): in every label map the normalized keys are distinct,
    so each key has exactly one canonical form, and every supplied label
    finds an entry under its key.  In [BuiltinTaskWithLabels.__init__], whose
    labels are deduplicated and sorted first, the canonical form stored for a
    key is the greatest (the later in sorted order) of the labels that
    collide on it.  In [NERTask.__init__], whose comma-separated labels are
    not sorted, it is the one written last. *)
Theorem C5_label_map_collisions :
  (forall (FewshotExample : Type) (lowercase_normalizer : string -> string)
      (template : string) (prompt_examples : option (list FewshotExample))
      (cfg_keys labels : list string) (label_definitions : option (Py.pydict string))
      (normalizer : option (string -> string)),
      let self :=
        BuiltinTaskWithLabels.__init__ lowercase_normalizer template prompt_examples
          cfg_keys labels label_definitions normalizer in
      let d := BuiltinTaskWithLabels._label_dict self in
      let norm := BuiltinTaskWithLabels._normalizer self in
      List.NoDup (Py.dict_keys d)
      /\ (forall v, In v labels -> exists v', Py.dict_get (norm v) d = Some v')
      /\ (forall k v,
            Py.dict_get k d = Some v ->
            In v labels /\ norm v = k
            /\ forall v', In v' labels -> norm v' = k -> v' = v \/ Py.str_lt v' v))
  /\ (forall (lowercase_normalizer : string -> string) (labels : string)
        (Any : Type)
        (NERExample_of : Any -> Py.outcome Ner.NERExample)
        (examples : option (unit -> Py.outcome (list Any)))
        (normalizer : option (string -> string))
        (alignment_mode lang : string) (case_sensitive_matching single_match : bool)
        (self : Ner.NERTask),
        Ner.__init__ lowercase_normalizer NERExample_of labels examples normalizer
          alignment_mode lang case_sensitive_matching single_match = Py.Returns self ->
        let d := Ner._label_dict self in
        let norm := Ner._normalizer self in
        let written := Py.split "," labels in
        List.NoDup (Py.dict_keys d)
        /\ (forall v, In v written -> exists v', Py.dict_get (norm v) d = Some v')
        /\ (forall k v,
              Py.dict_get k d = Some v ->
              exists before after,
                written = before ++ v :: after
                /\ norm v = k
                /\ Forall (fun v' => norm v' <> k) after)).
Proof.
  split.
  - intros FewshotExample lcn template pe cfg_keys labels defs normalizer self d norm.
    subst d norm self. simpl. unfold BuiltinTaskWithLabels.build_label_dict.
    set (norm := match normalizer with Some f => f | None => lcn end).
    split; [apply label_fold_NoDup; constructor|]. split.
    + intros v Hv. rewrite label_fold_get.
      destruct (last_with_key_present norm (norm v) (Py.sorted_set labels) v)
        as (v' & ->); [now apply sorted_set_In | reflexivity | eauto].
    + intros k v. rewrite label_fold_get.
      destruct (Declarative.last_with_key norm k (Py.sorted_set labels)) as [w|] eqn:Hlast;
        [|discriminate].
      intros [= ->].
      destruct (last_with_key_split _ _ _ _ Hlast) as (before & after & Heq & Hk & _).
      split; [|split; [exact Hk|]].
      * apply sorted_set_In. rewrite Heq. apply in_or_app. right. now left.
      * intros v' Hv' Hk'.
        apply (last_with_key_greatest norm k (Py.sorted_set labels));
          auto using sorted_set_sorted. now apply sorted_set_In.
  - intros lcn labels Any validate examples normalizer mode lang cs sm self Hinit
      d norm written.
    apply ner_init_returns in Hinit as (parsed & _ & _ & ->).
    subst d norm written. simpl. unfold Ner.label_dict_of.
    set (norm := default lcn normalizer).
    split; [apply label_fold_NoDup; constructor|]. split.
    + intros v Hv. rewrite label_fold_get.
      destruct (last_with_key_present norm (norm v) (Py.split "," labels) v)
        as (v' & ->); eauto.
    + intros k v. rewrite label_fold_get.
      destruct (Declarative.last_with_key norm k (Py.split "," labels)) as [w|] eqn:Hlast;
        [|discriminate].
      intros [= ->]. now apply last_with_key_split.
Qed.

(** C5, at the NER task for PER,LOC: the keys of its label map are distinct. *)
Lemma C5_label_map_collisions_witness :
  List.NoDup (Py.dict_keys (Ner._label_dict (Samples.ner_task_state "PER,LOC" false))).
Proof.
  apply (proj2 C5_label_map_collisions Samples.lower "PER,LOC" _ Samples.validate None
           None "contract" "xx" false false (Samples.ner_task_state "PER,LOC" false)).
  reflexivity.
Defined.

(** The sorted label map keeps the later-sorted of two colliding labels,
    whatever the order they are supplied in. *)
Example sorted_collision :
  BuiltinTaskWithLabels._label_dict (Samples.labelled_task ["b"; "B"]) = [("b", "b")]
  /\ BuiltinTaskWithLabels._label_dict (Samples.labelled_task ["B"; "b"]) = [("b", "b")].
Proof. vm_compute. auto. Qed.

(** C5 as stated fails for [NERTask]: for the labels b,B the task is built,
    the two labels collide on the key b, and the stored canonical form is B,
    the one written last, although b is the later one in sorted order. *)
Lemma C5_ner_keeps_the_label_written_last :
  Samples.ner_task "b,B" false = Py.Returns (Samples.ner_task_state "b,B" false)
  /\ Ner._label_dict (Samples.ner_task_state "b,B" false) = [("b", "B")]
  /\ Samples.lower "b" = Samples.lower "B"
  /\ Py.str_lt "B" "b".
Proof. vm_compute. auto. Qed.

(** ** First occurrences ([_filter_first_hit]) *)

Section FirstOccurrences.

Context {A : Type}.
Variable key : A -> string.

Abbreviation unseen seen := (fun y : A => negb (Py.str_in (key y) seen)).
Abbreviation other x := (fun y : A => negb (String.eqb (key y) (key x))).
Abbreviation firsts := (Declarative.first_occurrences key).

Lemma filter_filter (f g : A -> bool) (l : list A) :
  List.filter f (List.filter g l) = List.filter (fun x => g x && f x) l.
Proof.
  induction l as [|x l IH]; simpl; [reflexivity|].
  destruct (g x); simpl; [destruct (f x)|]; now rewrite IH.
Qed.

Lemma str_in_app x xs ys : Py.str_in x (xs ++ ys) = Py.str_in x xs || Py.str_in x ys.
Proof. unfold Py.str_in. apply existsb_app. Qed.

Lemma str_in_cons x y ys :
  Py.str_in x (y :: ys) = String.eqb x y || Py.str_in x ys.
Proof. reflexivity. Qed.

(** The loop of [_filter_first_hit], from any state. *)
Lemma first_hit_loop (off : A -> nat * nat)
    (step : list string * list (nat * nat) -> A -> list string * list (nat * nat)) :
  (forall seen filtered m,
      step (seen, filtered) m
      = if negb (Py.str_in (key m) seen)
        then (seen ++ [key m], filtered ++ [off m]) else (seen, filtered)) ->
  forall ms seen filtered,
    fold_left step ms (seen, filtered)
    = (seen ++ map key (List.filter (unseen seen) (firsts ms)),
       filtered ++ map off (List.filter (unseen seen) (firsts ms))).
Proof.
  intros Hstep ms. induction ms as [|m ms IH]; intros seen filtered; simpl.
  - now rewrite !app_nil_r.
  - rewrite Hstep, filter_filter.
    destruct (Py.str_in (key m) seen) eqn:Hseen; simpl.
    + rewrite IH. do 2 f_equal; f_equal; apply List.filter_ext_in; intros y _.
      all: destruct (String.eqb_spec (key y) (key m)) as [->|]; simpl;
        [now rewrite Hseen | reflexivity].
    + rewrite IH, <- !app_assoc. simpl.
      do 2 f_equal; f_equal; f_equal; apply List.filter_ext; intros y.
      all: rewrite str_in_app, str_in_cons, negb_orb, orb_false_r, andb_comm;
        reflexivity.
Qed.

Lemma firsts_app xs ys :
  firsts (xs ++ ys) = firsts xs ++ List.filter (unseen (map key xs)) (firsts ys).
Proof.
  induction xs as [|x xs IH]; simpl.
  - symmetry. apply forallb_filter_id. apply forallb_forall. reflexivity.
  - rewrite IH, List.filter_app, filter_filter. do 2 f_equal.
    apply List.filter_ext. intros y. rewrite negb_orb, andb_comm.
    reflexivity.
Qed.

Lemma firsts_In x xs : In x (firsts xs) -> In x xs.
Proof.
  revert x. induction xs as [|y xs IH]; intros x; simpl; [tauto|].
  intros [->|Hx]; [now left|]. apply List.filter_In in Hx. right. apply IH. tauto.
Qed.

(** Every key occurs once among the first occurrences... *)
Lemma firsts_NoDup xs : List.NoDup (map key (firsts xs)).
Proof.
  induction xs as [|x xs IH]; simpl; constructor.
  - rewrite in_map_iff. intros (y & Hk & Hy). apply List.filter_In in Hy as [_ Hy].
    rewrite Hk, String.eqb_refl in Hy. discriminate Hy.
  - clear -IH. induction (firsts xs) as [|y l IHl]; simpl; [constructor|].
    inversion IH as [|? ? Hy Hl]; subst.
    destruct (negb _); simpl; [|now apply IHl].
    constructor; [|now apply IHl].
    rewrite in_map_iff. intros (z & Hk & Hz). apply List.filter_In in Hz as [Hz _].
    apply Hy. rewrite <- Hk. now apply in_map.
Qed.

(** ... and no key is lost. *)
Lemma firsts_cover x xs : In x xs -> In (key x) (map key (firsts xs)).
Proof.
  induction xs as [|y xs IH]; simpl; [tauto|].
  intros [->|Hx]; [now left|].
  destruct (String.eqb_spec (key x) (key y)) as [Heq|Hne]; [now left|].
  right. apply in_map_iff in IH as (z & Hk & Hz); [|exact Hx].
  apply in_map_iff. exists z. split; [exact Hk|]. apply List.filter_In. split; [exact Hz|].
  rewrite Hk. now destruct (String.eqb_spec (key x) (key y)).
Qed.

(** A repeat of an earlier key contributes nothing. *)
Lemma firsts_repeat before m after :
  In (key m) (map key before) ->
  firsts (before ++ m :: after) = firsts (before ++ after).
Proof.
  intros Hin. rewrite !firsts_app. f_equal. simpl.
  apply str_in_In in Hin. rewrite Hin. simpl. rewrite filter_filter.
  apply List.filter_ext. intros y.
  destruct (String.eqb_spec (key y) (key m)) as [->|]; simpl; [now rewrite Hin|].
  reflexivity.
Qed.

(** The first element of a key is kept, after the first occurrences of what
    precedes it. *)
Lemma firsts_first before m after :
  ~ In (key m) (map key before) ->
  exists later, firsts (before ++ m :: after) = firsts before ++ m :: later.
Proof.
  intros Hnin. rewrite firsts_app. simpl.
  apply str_in_not_In in Hnin. rewrite Hnin. simpl. eauto.
Qed.

End FirstOccurrences.

Lemma filter_first_hit_firsts (lower : string -> string) (case_sensitive : bool)
    (text : string) (matches : list Ner.Match) :
  Ner._filter_first_hit lower case_sensitive text matches
  = map Declarative.offsets
      (Declarative.first_occurrences (Ner.span_text lower case_sensitive text) matches).
Proof.
  unfold Ner._filter_first_hit.
  rewrite (first_hit_loop (Ner.span_text lower case_sensitive text) Declarative.offsets).
  - simpl. f_equal. apply forallb_filter_id, forallb_forall. reflexivity.
  - intros seen filtered m. reflexivity.
Qed.

(** The loop of [_filter_first_hit] keeps the first match of every matched
    text, the text being the one the match covers in the document, lowercased
    unless the search is case sensitive. *)
Lemma filter_first_hit_matched_text (lower : string -> string) (case_sensitive : bool)
    (text : string) (matches : list Ner.Match) :
  Ner._filter_first_hit lower case_sensitive text matches
  = map Declarative.offsets
      (Declarative.first_occurrences
         (Declarative.matched_text lower case_sensitive text) matches).
Proof.
  unfold Ner._filter_first_hit.
  rewrite (first_hit_loop (Declarative.matched_text lower case_sensitive text)
             Declarative.offsets).
  - simpl. f_equal. apply forallb_filter_id, forallb_forall. reflexivity.
  - intros seen filtered m. destruct case_sensitive; reflexivity.
Qed.

(** C3 (as amended): without [single_match], [find_substrings] returns the
    offsets of every match of the phrase matcher, in its order.  With
    [single_match] it returns the offsets of the first match of each matched
    text, in first-seen order, where the matched text is the text the match
    covers in the document, compared in lower case when the search is not
    case sensitive and as written when it is: every matched text keeps
    exactly one match, a match whose text was matched earlier is dropped
    whatever phrase it came from (the result is that of the matches without
    it), and a match whose text was not matched earlier is kept, after the
    ones kept before it. *)
Theorem C3_find_substrings_single_match :
  forall (lower : string -> string)
    (phrase_matcher : string -> bool -> list string -> string -> list Ner.Match)
    (text : string) (substrings : list string) (lang : string) (case_sensitive : bool),
    let matches := phrase_matcher lang case_sensitive substrings text in
    let key := Declarative.matched_text lower case_sensitive text in
    let found :=
      Ner.find_substrings lower phrase_matcher text substrings lang case_sensitive in
    let firsts := Declarative.first_occurrences key in
    found false = map Declarative.offsets matches
    /\ found true = map Declarative.offsets (firsts matches)
    /\ List.NoDup (map key (firsts matches))
    /\ (forall m, In m matches -> In (key m) (map key (firsts matches)))
    /\ (forall before m after,
          matches = before ++ m :: after ->
          (In (key m) (map key before) ->
           found true = map Declarative.offsets (firsts (before ++ after)))
          /\ (~ In (key m) (map key before) ->
              exists later,
                found true
                = map Declarative.offsets (firsts before) ++ Declarative.offsets m :: later)).
Proof.
  intros lower phrase_matcher text substrings lang cs matches key found firsts.
  assert (Htrue : found true = map Declarative.offsets (firsts matches)).
  { subst found. unfold Ner.find_substrings. apply filter_first_hit_matched_text. }
  split; [reflexivity|]. split; [exact Htrue|].
  split; [apply firsts_NoDup|]. split; [intros m; apply firsts_cover|].
  intros before m after Hsplit. rewrite Htrue, Hsplit. split.
  - intros Hin. subst firsts. now rewrite firsts_repeat.
  - intros Hnin. destruct (firsts_first key before m after Hnin) as (later & Hl).
    exists (map Declarative.offsets later). subst firsts.
    now rewrite Hl, map_app.
Qed.

(** C3, at the text about the New York Times and the phrase New York: the
    second match repeats the text of the first and is dropped. *)
Lemma C3_find_substrings_single_match_witness :
  Ner.find_substrings Samples.lower Samples.phrase_matcher Samples.nyt ["New York"]
    "xx" false true = [(4, 12)].
Proof.
  destruct (proj2 (proj2 (proj2 (proj2
              (C3_find_substrings_single_match Samples.lower Samples.phrase_matcher
                 Samples.nyt ["New York"] "xx" false))))
              [Ner.mkMatch 4 12] (Ner.mkMatch 31 39) [] eq_refl) as [Hdrop _].
  rewrite Hdrop.
  - reflexivity.
  - left. reflexivity.
Defined.

(** C3 as stated fails under case-sensitive matching: in the text Apple and
    apple the phrases Apple and apple are matched at 0 and at 10, the two
    matches have the same case-normalized text, and with [single_match] both
    are retained, because the case-sensitive search compares the texts as
    written. *)
Lemma C3_case_sensitive_search_keeps_case_variants :
  Samples.phrase_matcher "xx" true ["Apple"; "apple"] "Apple and apple"
  = [Ner.mkMatch 0 5; Ner.mkMatch 10 15]
  /\ Declarative.case_normalized_text Samples.lower "Apple and apple" (Ner.mkMatch 0 5)
     = Declarative.case_normalized_text Samples.lower "Apple and apple"
         (Ner.mkMatch 10 15)
  /\ Ner.find_substrings Samples.lower Samples.phrase_matcher "Apple and apple"
       ["Apple"; "apple"] "xx" true true = [(0, 5); (10, 15)].
Proof. vm_compute. auto. Qed.

(** The alignment example of the specification, and a repeat claimed under a
    differently written phrase. *)
Example find_substrings_new_york :
  Ner.find_substrings Samples.lower Samples.phrase_matcher Samples.nyt ["New York"]
    "xx" false false = [(4, 12); (31, 39)]
  /\ Ner.find_substrings Samples.lower Samples.phrase_matcher Samples.nyt ["New York"]
       "xx" false true = [(4, 12)]
  /\ Ner.find_substrings Samples.lower Samples.phrase_matcher Samples.nyt
       ["New York"; "NEW YORK"] "xx" false false = [(4, 12); (4, 12); (31, 39); (31, 39)]
  /\ Ner.find_substrings Samples.lower Samples.phrase_matcher Samples.nyt
       ["New York"; "NEW YORK"] "xx" false true = [(4, 12)].
Proof. vm_compute. auto. Qed.

(** Under case-sensitive matching the matched text is compared as written:
    two matches that differ in case are both first occurrences. *)
Example find_substrings_case_sensitive :
  Ner.find_substrings Samples.lower Samples.phrase_matcher "Apple and apple"
    ["Apple"; "apple"] "xx" true true = [(0, 5); (10, 15)]
  /\ Ner.find_substrings Samples.lower Samples.phrase_matcher "Apple and apple"
       ["Apple"; "apple"] "xx" false true = [(0, 5)].
Proof. vm_compute. auto. Qed.

(** ** Overlap resolution ([filter_spans]) *)

Lemma overlaps_sym a b : Spacy.overlaps a b = Spacy.overlaps b a.
Proof. unfold Spacy.overlaps. apply andb_comm. Qed.

Lemma insert_by_len_In s t spans :
  In t (Spacy.insert_by_len s spans) <-> t = s \/ In t spans.
Proof.
  induction spans as [|u spans IH]; simpl; [intuition|].
  destruct (Spacy.span_len u <=? Spacy.span_len s); simpl; [intuition|].
  rewrite IH. intuition.
Qed.

Lemma insert_by_len_perm s spans :
  Permutation (s :: spans) (Spacy.insert_by_len s spans).
Proof.
  induction spans as [|u spans IH]; simpl; [reflexivity|].
  destruct (Spacy.span_len u <=? Spacy.span_len s); [reflexivity|].
  rewrite perm_swap. now apply perm_skip.
Qed.

Lemma insert_by_len_sorted s spans :
  StronglySorted Declarative.not_shorter spans ->
  StronglySorted Declarative.not_shorter (Spacy.insert_by_len s spans).
Proof.
  induction 1 as [|u spans Hs IH Hu]; simpl.
  - repeat constructor.
  - destruct (Nat.leb_spec (Spacy.span_len u) (Spacy.span_len s)) as [Hle|Hlt].
    + constructor; [now constructor|]. constructor; [exact Hle|].
      eapply List.Forall_impl; [|exact Hu]. unfold Declarative.not_shorter. intros w Hw. lia.
    + constructor; [exact IH|]. apply List.Forall_forall. intros w Hw.
      apply insert_by_len_In in Hw. destruct Hw as [->|Hw].
      * unfold Declarative.not_shorter. lia.
      * rewrite List.Forall_forall in Hu. auto.
Qed.

(** Insertion is stable: among the spans of one length, the inserted span
    comes first and the others keep their order. *)
Lemma insert_by_len_stable n s spans :
  List.filter (Declarative.by_len n) (Spacy.insert_by_len s spans)
  = List.filter (Declarative.by_len n) (s :: spans).
Proof.
  induction spans as [|u spans IH]; [reflexivity|].
  simpl Spacy.insert_by_len.
  destruct (Nat.leb_spec (Spacy.span_len u) (Spacy.span_len s)) as [Hle|Hlt];
    [reflexivity|].
  simpl in *. rewrite IH. unfold Declarative.by_len.
  destruct (Nat.eqb_spec (Spacy.span_len s) n), (Nat.eqb_spec (Spacy.span_len u) n);
    try reflexivity. lia.
Qed.

Lemma sort_longest_first_perm spans :
  Permutation spans (Spacy.sort_longest_first spans).
Proof.
  induction spans as [|s spans IH]; simpl; [reflexivity|].
  rewrite <- insert_by_len_perm. now apply perm_skip.
Qed.

Lemma sort_longest_first_sorted spans :
  StronglySorted Declarative.not_shorter (Spacy.sort_longest_first spans).
Proof.
  induction spans as [|s spans IH]; simpl; [constructor | now apply insert_by_len_sorted].
Qed.

Lemma sort_longest_first_stable n spans :
  List.filter (Declarative.by_len n) (Spacy.sort_longest_first spans) = List.filter (Declarative.by_len n) spans.
Proof.
  induction spans as [|s spans IH]; [reflexivity|].
  simpl Spacy.sort_longest_first. rewrite insert_by_len_stable. simpl. now rewrite IH.
Qed.

Lemma pairwise_snoc {A : Type} (R : A -> A -> Prop) (l : list A) (s : A) :
  ForallOrdPairs R l -> Forall (fun a => R a s) l -> ForallOrdPairs R (l ++ [s]).
Proof.
  induction 1 as [|a l Ha Hl IH]; intros Hs; simpl.
  - repeat constructor.
  - apply List.Forall_cons_iff in Hs as [Has Hs]. constructor; [|now apply IH].
    apply List.Forall_app. split; [exact Ha | now constructor].
Qed.

(** The accepted spans stay pairwise Declarative.disjoint. *)
Lemma greedy_accept_disjoint candidates accepted :
  ForallOrdPairs Declarative.disjoint accepted ->
  ForallOrdPairs Declarative.disjoint (Spacy.greedy_accept accepted candidates).
Proof.
  revert accepted. induction candidates as [|s candidates IH]; intros accepted Hacc; simpl.
  - exact Hacc.
  - destruct (existsb (Spacy.overlaps s) accepted) eqn:Hex; [now apply IH|].
    apply IH, pairwise_snoc; [exact Hacc|].
    apply List.Forall_forall. intros a Ha. unfold Declarative.disjoint. rewrite overlaps_sym.
    destruct (Spacy.overlaps s a) eqn:Hov; [|reflexivity].
    rewrite <- Hex. symmetry. apply existsb_exists. eauto.
Qed.

(** What was accepted stays accepted. *)
Lemma greedy_accept_keeps candidates accepted s :
  In s accepted -> In s (Spacy.greedy_accept accepted candidates).
Proof.
  revert accepted. induction candidates as [|c candidates IH]; intros accepted Hs; simpl.
  - exact Hs.
  - destruct (existsb _ _); apply IH; [exact Hs | apply in_or_app; now left].
Qed.

(** Nothing is accepted that was not a candidate. *)
Lemma greedy_accept_from candidates accepted s :
  In s (Spacy.greedy_accept accepted candidates) -> In s accepted \/ In s candidates.
Proof.
  revert accepted. induction candidates as [|c candidates IH]; intros accepted; simpl.
  - now left.
  - destruct (existsb _ _); intros Hs; apply IH in Hs.
    + tauto.
    + destruct Hs as [Hs|Hs]; [|tauto].
      apply in_app_or in Hs. simpl in Hs. tauto.
Qed.

(** A candidate is accepted, or it overlaps a span accepted before it. *)
Lemma greedy_accept_rule pre s post accepted :
  let kept := Spacy.greedy_accept accepted (pre ++ s :: post) in
  In s kept
  \/ exists t, (In t accepted \/ In t pre) /\ In t kept /\ Spacy.overlaps s t = true.
Proof.
  revert accepted. induction pre as [|p pre IH]; intros accepted; simpl.
  - destruct (existsb (Spacy.overlaps s) accepted) eqn:Hex.
    + right. apply existsb_exists in Hex as (t & Ht & Hov). exists t.
      split; [now left|]. split; [now apply greedy_accept_keeps | exact Hov].
    + left. apply greedy_accept_keeps, in_or_app. right. now left.
  - destruct (existsb (Spacy.overlaps p) accepted).
    + destruct (IH accepted) as [Hs|(t & Ht & Hk & Hov)]; [now left|].
      right. exists t. split; [tauto | now split].
    + destruct (IH (accepted ++ [p])) as [Hs|(t & Ht & Hk & Hov)]; [now left|].
      right. exists t. split; [|now split].
      destruct Ht as [Ht|Ht]; [|tauto].
      apply in_app_or in Ht. simpl in Ht. tauto.
Qed.

Lemma sorted_before_not_shorter (pre post : list Spacy.Span) s t :
  StronglySorted Declarative.not_shorter (pre ++ s :: post) -> In t pre -> Declarative.not_shorter t s.
Proof.
  induction pre as [|p pre IH]; simpl; [tauto|].
  intros Hs [->|Ht].
  - apply StronglySorted_inv in Hs as [_ Hall]. rewrite List.Forall_forall in Hall.
    apply Hall, in_or_app. right. now left.
  - apply StronglySorted_inv in Hs as [Hs _]. auto.
Qed.

(** C4 (on the overlap resolver as the specification describes it): the
    candidates are taken longest first (a permutation of the input, sorted by
    non-increasing length, spans of equal length in their discovery order)
    and accepted greedily.  The output is pairwise non-overlapping and made
    of candidates; a candidate is left out only if it overlaps an accepted
    span that is at least as long.  Of two overlapping candidates of equal
    length the one discovered first survives, and of two non-empty candidates
    at the same start offset exactly the longer one survives, in whichever
    order they were discovered. *)
Theorem C4_filter_spans_non_overlapping :
  (forall spans : list Spacy.Span,
      let order := Spacy.sort_longest_first spans in
      let kept := Spacy.filter_spans spans in
      (kept = Spacy.greedy_accept [] order
       /\ Permutation spans order
       /\ StronglySorted Declarative.not_shorter order
       /\ forall n, List.filter (Declarative.by_len n) order
                    = List.filter (Declarative.by_len n) spans)
      /\ ForallOrdPairs Declarative.disjoint kept
      /\ (forall s, In s kept -> In s spans)
      /\ (forall s, In s spans ->
            In s kept
            \/ exists t, In t kept /\ Spacy.overlaps s t = true
                         /\ Spacy.span_len s <= Spacy.span_len t))
  /\ (forall a b,
        Spacy.span_len a = Spacy.span_len b -> Spacy.overlaps a b = true ->
        Spacy.filter_spans [a; b] = [a])
  /\ (forall a b,
        Spacy.span_start a = Spacy.span_start b ->
        Spacy.span_start b < Spacy.span_end b ->
        Spacy.span_end b < Spacy.span_end a ->
        Spacy.filter_spans [a; b] = [a] /\ Spacy.filter_spans [b; a] = [a]).
Proof.
  split; [|split].
  - intros spans order kept. subst order kept. unfold Spacy.filter_spans.
    split; [|split; [|split]].
    + split; [reflexivity|]. split; [apply sort_longest_first_perm|].
      split; [apply sort_longest_first_sorted | intros n; apply sort_longest_first_stable].
    + apply greedy_accept_disjoint. constructor.
    + intros s Hs. apply greedy_accept_from in Hs as [[]|Hs].
      eapply Permutation_in; [symmetry; apply sort_longest_first_perm | exact Hs].
    + intros s Hs.
      apply (Permutation_in _ (sort_longest_first_perm spans)) in Hs.
      apply in_split in Hs as (pre & post & Hsplit). rewrite Hsplit.
      destruct (greedy_accept_rule pre s post []) as [Hk|(t & Ht & Hk & Hov)]; [now left|].
      right. exists t. split; [exact Hk|]. split; [exact Hov|].
      destruct Ht as [[]|Ht].
      pose proof (sort_longest_first_sorted spans) as Hsorted. rewrite Hsplit in Hsorted.
      apply (sorted_before_not_shorter _ _ _ _ Hsorted Ht).
  - intros a b Hlen Hov. unfold Spacy.filter_spans. simpl.
    rewrite Hlen, Nat.leb_refl. simpl.
    rewrite overlaps_sym, Hov. reflexivity.
  - intros a b Hstart Hb Ha. unfold Spacy.filter_spans, Spacy.sort_longest_first.
    simpl. unfold Spacy.span_len.
    destruct (Nat.leb_spec (Spacy.span_end b - Spacy.span_start b)
                (Spacy.span_end a - Spacy.span_start a)); [|lia].
    destruct (Nat.leb_spec (Spacy.span_end a - Spacy.span_start a)
                (Spacy.span_end b - Spacy.span_start b)); [lia|].
    simpl.
    assert (Hov : Spacy.overlaps b a = true).
    { unfold Spacy.overlaps. apply andb_true_iff. split; apply Nat.ltb_lt; lia. }
    rewrite Hov. auto.
Qed.

(** C4, at the spans of New York Times and New York, which start together:
    the longer one survives. *)
Lemma C4_filter_spans_non_overlapping_witness :
  Spacy.filter_spans [Spacy.mkSpan 4 12 "GPE"; Spacy.mkSpan 4 18 "ORG"]
  = [Spacy.mkSpan 4 18 "ORG"].
Proof.
  apply (proj2 (proj2 C4_filter_spans_non_overlapping) (Spacy.mkSpan 4 18 "ORG")
           (Spacy.mkSpan 4 12 "GPE")); simpl; lia.
Defined.

(** ** Labels of the attached spans ([NERTask.parse_responses]) *)

(** The resolver of the specification keeps candidates only. *)
Lemma filter_spans_incl spans : incl (Spacy.filter_spans spans) spans.
Proof.
  intros s Hs. unfold Spacy.filter_spans in Hs.
  apply greedy_accept_from in Hs as [[]|Hs].
  eapply Permutation_in; [symmetry; apply sort_longest_first_perm | exact Hs].
Qed.

(** An entry of a line comes from a line with a colon, a label that the
    label map knows and a non-blank phrase list, and it carries the canonical
    form that the map holds for the label. *)
Lemma line_entry_Some self line canonical phrases :
  Declarative.line_entry self line = Some (canonical, phrases) ->
  exists label rest,
    Py.split1 ":" line = [label; rest]
    /\ Py.dict_get (Ner._normalizer self label) (Ner._label_dict self) = Some canonical
    /\ Py.strip rest <> ""
    /\ phrases = map Py.strip (Py.split "," (Py.strip rest)).
Proof.
  unfold Declarative.line_entry.
  destruct (Py.split1 ":" line) as [|label [|rest [|? ?]]]; try discriminate.
  destruct (Py.dict_get _ _) as [c|] eqn:Hget; [|discriminate].
  destruct (String.eqb_spec (Py.strip rest) ""); [discriminate|].
  intros [= <- <-]. now exists label, rest.
Qed.

Section SpanLabels.

Variable lower : string -> string.
Variable phrase_matcher : string -> bool -> list string -> string -> list Ner.Match.
Variable char_span : Spacy.Doc -> nat -> nat -> string -> option (nat * nat).

Lemma spans_of_entry_label self doc spans label phrases span :
  In span (Ner.spans_of_entry lower phrase_matcher char_span self doc spans (label, phrases)) ->
  In span spans \/ Spacy.span_label span = label.
Proof.
  unfold Ner.spans_of_entry.
  generalize (Ner.find_substrings lower phrase_matcher (Spacy.text doc) phrases
                (Ner._lang self) (Ner._case_sensitive_matching self)
                (Ner._single_match self)).
  intros offsets. revert spans.
  induction offsets as [|[start end_] offsets IH]; intros spans; simpl; [now left|].
  intros Hin. apply IH in Hin as [Hin|Hin]; [|now right].
  destruct (char_span doc start end_ (Ner._alignment_mode self)) as [[s e]|]; [|now left].
  apply in_app_or in Hin as [Hin|[<-|[]]]; [now left | now right].
Qed.

Lemma collected_span_label self doc entries spans span :
  In span (fold_left (Ner.spans_of_entry lower phrase_matcher char_span self doc)
             entries spans) ->
  In span spans \/ exists phrases, In (Spacy.span_label span, phrases) entries.
Proof.
  revert spans. induction entries as [|[label phrases] entries IH]; intros spans; simpl;
    [now left|].
  intros Hin. apply IH in Hin as [Hin|(ps & Hin)].
  - apply spans_of_entry_label in Hin as [Hin|<-]; [now left|].
    right. exists phrases. now left.
  - right. exists ps. now right.
Qed.

End SpanLabels.

(** The label map of a task built by [NERTask.__init__] files every
    canonical form under its own normalized form. *)
Lemma ner_label_dict_canonical (lowercase_normalizer : string -> string) (Any : Type)
    (NERExample_of : Any -> Py.outcome Ner.NERExample) labels examples normalizer
    alignment_mode lang case_sensitive_matching single_match self k v :
  Ner.__init__ lowercase_normalizer NERExample_of labels examples normalizer
    alignment_mode lang case_sensitive_matching single_match = Py.Returns self ->
  Py.dict_get k (Ner._label_dict self) = Some v ->
  Ner._normalizer self v = k.
Proof.
  intros Hinit. apply ner_init_returns in Hinit as (parsed & _ & _ & ->).
  simpl. unfold Ner.label_dict_of. rewrite label_fold_get.
  destruct (Declarative.last_with_key _ k _) as [w|] eqn:Hlast; [|discriminate].
  intros [= ->]. apply last_with_key_split in Hlast as (_ & _ & _ & Hk & _). exact Hk.
Qed.

(** C10: for a task built by [NERTask.__init__], a response line that lacks
    a colon, whose label (normalized) is not a key of the label map, or whose
    phrase list is blank adds nothing to the formatted response.  Parsing a
    response never raises, and every span attached to the document carries a
    label that the label map holds as the canonical form of a key, which is
    the label's own normalized form; the span stems from a response line
    with a colon and a non-blank phrase list whose label normalizes to that
    key, however the label is written in the line.  The overlap resolver is
    assumed to return candidates only. *)
Theorem C10_attached_labels_are_configured :
  forall (lower : string -> string)
    (phrase_matcher : string -> bool -> list string -> string -> list Ner.Match)
    (char_span : Spacy.Doc -> nat -> nat -> string -> option (nat * nat))
    (filter_spans : list Spacy.Span -> list Spacy.Span)
    (lowercase_normalizer : string -> string) (labels : string)
    (Any : Type)
    (NERExample_of : Any -> Py.outcome Ner.NERExample)
    (examples : option (unit -> Py.outcome (list Any)))
    (normalizer : option (string -> string))
    (alignment_mode lang : string) (case_sensitive_matching single_match : bool)
    (self : Ner.NERTask),
    (forall spans, incl (filter_spans spans) spans) ->
    Ner.__init__ lowercase_normalizer NERExample_of labels examples normalizer
      alignment_mode lang case_sensitive_matching single_match = Py.Returns self ->
    let dict := Ner._label_dict self in
    let norm := Ner._normalizer self in
    (forall output line,
        Py.contains_char ":" line = false
        \/ (exists label rest,
              Py.split1 ":" line = [label; rest]
              /\ (Py.dict_mem (norm label) dict = false \/ Py.strip rest = "")) ->
        Ner._format_response_line self output line = Py.Returns output)
    /\ (forall doc response,
          exists doc',
            Ner.parse_response lower phrase_matcher char_span filter_spans
              self doc response = Py.Returns doc'
            /\ forall span,
                In span (Spacy.ents doc') ->
                Py.dict_mem (norm (Spacy.span_label span)) dict = true
                /\ Py.dict_get (norm (Spacy.span_label span)) dict
                   = Some (Spacy.span_label span)
                /\ exists line label rest,
                    In line (Py.split "010" (Py.strip response))
                    /\ Py.split1 ":" line = [label; rest]
                    /\ Py.dict_get (norm label) dict = Some (Spacy.span_label span)
                    /\ Py.strip rest <> "").
Proof.
  intros lower phrase_matcher char_span filter_spans lcn labels Any validate examples
    normalizer mode lang cs sm self Hincl Hinit dict norm.
  split.
  - intros output line Hline. rewrite format_response_line_entry.
    replace (Declarative.line_entry self line) with (@None (string * list string));
      [simpl; now rewrite app_nil_r|].
    unfold Declarative.line_entry.
    destruct Hline as [Hc|(label & rest & -> & Hwhy)].
    + destruct (split1_no_colon _ _ Hc) as (a & ->). reflexivity.
    + fold norm dict. unfold Py.dict_mem in Hwhy.
      destruct (Py.dict_get (norm label) dict); [|reflexivity].
      destruct Hwhy as [Hmem| ->]; [discriminate Hmem | reflexivity].
  - intros doc response.
    destruct (parse_response_returns lower phrase_matcher char_span filter_spans
                self doc response) as (spans & Hcollect & Hparse).
    eexists. split; [exact Hparse|]. simpl. intros span Hspan.
    apply Hincl in Hspan. rewrite collect_spans_returns in Hcollect.
    injection Hcollect as <-.
    apply collected_span_label in Hspan as [[]|(phrases & Hentry)].
    apply in_flat_map in Hentry as (line & Hline & Hentry).
    destruct (Declarative.line_entry self line) as [[c ps]|] eqn:Hle; [|destruct Hentry].
    destruct Hentry as [[= -> ->]|[]].
    apply line_entry_Some in Hle as (label & rest & Hsplit & Hget & Hne & _).
    pose proof (ner_label_dict_canonical _ _ _ _ _ _ _ _ _ _ _ _ _ Hinit Hget) as Hk.
    fold norm in Hk. fold norm dict in Hget.
    assert (Hself : Py.dict_get (norm (Spacy.span_label span)) dict
                    = Some (Spacy.span_label span)) by (now rewrite Hk).
    split; [unfold Py.dict_mem; now rewrite Hself|]. split; [exact Hself|].
    now exists line, label, rest.
Qed.

(** C10, at the task for PER,LOC and a response with a known label written
    in lower case, an unknown label and a line without a colon: the one span
    attached carries the configured form PER. *)
Lemma C10_attached_labels_are_configured_witness :
  exists doc',
    Samples.ner_parse_responses (Samples.ner_task_state "PER,LOC" false)
      [Samples.doc_of "Ann lives in Rome"] [Samples.three_lines]
    = Py.Returns [doc']
    /\ Spacy.ents doc' = [Spacy.mkSpan 0 3 "PER"]
    /\ forall span,
        In span (Spacy.ents doc') ->
        Py.dict_get (Samples.lower (Spacy.span_label span))
          (Ner._label_dict (Samples.ner_task_state "PER,LOC" false))
        = Some (Spacy.span_label span).
Proof.
  destruct (proj2 (C10_attached_labels_are_configured Samples.lower Samples.phrase_matcher
                     Samples.char_span Spacy.filter_spans Samples.lower "PER,LOC" _
                     Samples.validate None None
                     "contract" "xx" false false (Samples.ner_task_state "PER,LOC" false)
                     filter_spans_incl eq_refl)
              (Samples.doc_of "Ann lives in Rome") Samples.three_lines)
    as (doc' & Hparse & Hspans).
  vm_compute in Hparse. injection Hparse as Hdoc. subst doc'.
  eexists. split; [vm_compute; reflexivity|]. split; [reflexivity|].
  intros span Hspan. apply (Hspans span Hspan).
Defined.

(** ** Serialization ([BuiltinTask.to_bytes] and [from_bytes]) *)

Lemma for_each_total_in {A S : Type} (body : S -> A -> Py.outcome S) (f : S -> A -> S)
    (xs : list A) (acc : S) :
  (forall s x, In x xs -> body s x = Py.Returns (f s x)) ->
  Py.for_each body xs acc = Py.Returns (fold_left f xs acc).
Proof.
  revert acc. induction xs as [|x xs IH]; intros acc Hbody; simpl; [reflexivity|].
  rewrite Hbody by now left. simpl. apply IH. intros s y Hy. apply Hbody. now right.
Qed.

Lemma dict_get_None {V : Type} (k : string) (d : Py.pydict V) :
  ~ In k (Py.dict_keys d) -> Py.dict_get k d = None.
Proof.
  induction d as [|[k0 v0] d IH]; simpl; [reflexivity|].
  intros Hnin. destruct (String.eqb_spec k0 k) as [->|_]; [tauto|]. apply IH. tauto.
Qed.

Section ConfigFacts.

Context {FewshotExample : Type}.
Implicit Types (self : BuiltinTask.BuiltinTask FewshotExample) (cfg : Py.pydict Py.scalar).

Lemma cfg_fold_get self keys cfg k :
  (forall key, In key keys -> is_Some (BuiltinTask.attrs self !! key)) ->
  Py.dict_get k (fold_left (Declarative.cfg_entry self) keys cfg)
  = if Py.str_in k keys then BuiltinTask.attrs self !! k else Py.dict_get k cfg.
Proof.
  revert cfg. induction keys as [|key keys IH]; intros cfg Hattrs; [reflexivity|].
  simpl fold_left. rewrite IH by (intros; apply Hattrs; now right).
  rewrite str_in_cons. destruct (Py.str_in k keys); [now rewrite orb_true_r|].
  rewrite orb_false_r. unfold Declarative.cfg_entry.
  destruct (Hattrs key (or_introl eq_refl)) as [v Hv]. rewrite Hv, dict_get_set.
  rewrite String.eqb_sym.
  destruct (String.eqb_spec k key) as [->|_]; [now rewrite Hv | reflexivity].
Qed.

Lemma cfg_fold_NoDup self keys cfg :
  List.NoDup (Py.dict_keys cfg) ->
  List.NoDup (Py.dict_keys (fold_left (Declarative.cfg_entry self) keys cfg)).
Proof.
  revert cfg. induction keys as [|key keys IH]; intros cfg Hnd; [exact Hnd|].
  simpl. apply IH. unfold Declarative.cfg_entry.
  destruct (BuiltinTask.attrs self !! key); [now apply dict_set_NoDup | exact Hnd].
Qed.

(** [get_cfg] returns when every configuration key is an attribute. *)
Lemma get_cfg_returns self :
  (forall key, In key (BuiltinTask._cfg_keys self) ->
     is_Some (BuiltinTask.attrs self !! key)) ->
  BuiltinTask.get_cfg self
  = Py.Returns (fold_left (Declarative.cfg_entry self) (BuiltinTask._cfg_keys self) []).
Proof.
  intros Hattrs. unfold BuiltinTask.get_cfg. apply for_each_total_in.
  intros cfg key Hkey. unfold BuiltinTask.getattr, Declarative.cfg_entry.
  destruct (Hattrs key Hkey) as [v ->]. reflexivity.
Qed.

(** [get_cfg] raises [AttributeError] otherwise. *)
Lemma get_cfg_raises self key :
  In key (BuiltinTask._cfg_keys self) -> BuiltinTask.attrs self !! key = None ->
  Py.raised (BuiltinTask.get_cfg self).
Proof.
  unfold BuiltinTask.get_cfg. generalize (@nil (string * Py.scalar)).
  induction (BuiltinTask._cfg_keys self) as [|k keys IH]; intros acc Hin Hnone; [destruct Hin|].
  simpl. unfold BuiltinTask.getattr at 1.
  destruct (BuiltinTask.attrs self !! k) as [v|] eqn:Hk; simpl.
  - destruct Hin as [->|Hin]; [congruence|]. now apply IH.
  - eexists. reflexivity.
Qed.

(** [set_cfg] assigns the entries of a dictionary and nothing else. *)
Lemma set_cfg_attrs self cfg k :
  List.NoDup (Py.dict_keys cfg) ->
  BuiltinTask.attrs (BuiltinTask.set_cfg self cfg) !! k
  = match Py.dict_get k cfg with
    | Some v => Some v
    | None => BuiltinTask.attrs self !! k
    end.
Proof.
  revert self. induction cfg as [|[k0 v0] cfg IH]; intros self Hnd; [reflexivity|].
  apply List.NoDup_cons_iff in Hnd as [Hk0 Hnd].
  change (BuiltinTask.set_cfg self ((k0, v0) :: cfg))
    with (BuiltinTask.set_cfg (BuiltinTask.setattr self k0 v0) cfg).
  rewrite IH by exact Hnd. simpl.
  destruct (String.eqb_spec k0 k) as [->|Hne].
  - rewrite (dict_get_None k cfg Hk0). apply lookup_insert_eq.
  - destruct (Py.dict_get k cfg); [reflexivity|]. now apply lookup_insert_ne.
Qed.

Lemma set_cfg_frame self cfg :
  BuiltinTask._prompt_examples (BuiltinTask.set_cfg self cfg)
  = BuiltinTask._prompt_examples self
  /\ BuiltinTask._cfg_keys (BuiltinTask.set_cfg self cfg) = BuiltinTask._cfg_keys self.
Proof.
  revert self. induction cfg as [|[k0 v0] cfg IH]; intros self; [now split|].
  change (BuiltinTask.set_cfg self ((k0, v0) :: cfg))
    with (BuiltinTask.set_cfg (BuiltinTask.setattr self k0 v0) cfg).
  destruct (IH (BuiltinTask.setattr self k0 v0)) as [-> ->]. now split.
Qed.

End ConfigFacts.

Section RoundTrip.

Context {FewshotExample ExampleDict bytes : Type}.

Variable to_dict : FewshotExample -> ExampleDict.
Variable parse_obj : ExampleDict -> Py.outcome FewshotExample.
Variable json_dumps : Py.pydict Py.scalar -> bytes.
Variable json_loads : bytes -> Py.outcome (Py.pydict Py.scalar).
Variable msgpack_dumps_examples : list ExampleDict -> bytes.
Variable msgpack_loads_examples : bytes -> Py.outcome (list ExampleDict).
Variable msgpack_dumps : Py.pydict bytes -> bytes.
Variable msgpack_loads : bytes -> Py.outcome (Py.pydict bytes).

(** The collaborators decode what they encoded: an example validates from
    its own dictionary form, and the codecs of srsly return the value they
    were given (for dictionaries, one with distinct keys). *)
Hypothesis parse_obj_to_dict : forall e, parse_obj (to_dict e) = Py.Returns e.
Hypothesis json_round_trip :
  forall cfg, List.NoDup (Py.dict_keys cfg) -> json_loads (json_dumps cfg) = Py.Returns cfg.
Hypothesis msgpack_examples_round_trip :
  forall egs, msgpack_loads_examples (msgpack_dumps_examples egs) = Py.Returns egs.
Hypothesis msgpack_round_trip :
  forall msg, List.NoDup (Py.dict_keys msg) -> msgpack_loads (msgpack_dumps msg) = Py.Returns msg.

Abbreviation save :=
  (BuiltinTask.to_bytes to_dict json_dumps msgpack_dumps_examples msgpack_dumps).
Abbreviation load :=
  (BuiltinTask.from_bytes parse_obj json_loads msgpack_loads_examples msgpack_loads).

Implicit Types (src dst : BuiltinTask.BuiltinTask FewshotExample) (exclude : list string).






Lemma task_eq (x y : BuiltinTask.BuiltinTask FewshotExample) :
  BuiltinTask.attrs x = BuiltinTask.attrs y ->
  BuiltinTask._prompt_examples x = BuiltinTask._prompt_examples y ->
  BuiltinTask._cfg_keys x = BuiltinTask._cfg_keys y ->
  x = y.
Proof. destruct x, y. simpl. now intros -> -> ->. Qed.




End RoundTrip.



(** A round trip, run: the bytes of a task loaded into a fresh task with
    nothing excluded, and with the configuration excluded. *)
Example round_trip_run :
  (exists data,
      Samples.save Samples.saved_task [] = Py.Returns data
      /\ Samples.load Samples.fresh_task data []
         = Py.Returns
             (BuiltinTask.with_prompt_examples
                (BuiltinTask.setattr Samples.fresh_task "_template"
                   (Py.SStr "Summarize in {{ max_n_words }} words."))
                ["a worked example"]))
  /\ (exists data,
        Samples.save Samples.saved_task ["cfg"] = Py.Returns data
        /\ Samples.load Samples.fresh_task data ["cfg"]
           = Py.Returns
               (BuiltinTask.with_prompt_examples Samples.fresh_task ["a worked example"])).
Proof.
  split; eexists; (split; [reflexivity|]); vm_compute; reflexivity.
Qed.

(* ===================================================================== *)
(** * Part III.  Further properties of the sources                        *)
(* ===================================================================== *)

(** ** Construction of a [NERTask] ([__init__], [_validate_alignment]) *)

Section ReadExamples.

Context {Any : Type} (NERExample_of : Any -> Py.outcome Ner.NERExample).

(** The item validates to the example. *)
Let validates (eg : Any) (example : Ner.NERExample) : Prop :=
  NERExample_of eg = Py.Returns example.

Let body (parsed : list Ner.NERExample) (eg : Any) : Py.outcome (list Ner.NERExample) :=
  example ← NERExample_of eg; mret (parsed ++ [example]).

Lemma validate_loop_all egs examples parsed :
  Forall2 validates egs examples ->
  Py.for_each body egs parsed = Py.Returns (parsed ++ examples).
Proof.
  intros Hall. revert parsed.
  induction Hall as [|eg example egs examples Heg _ IH]; intros parsed; simpl.
  - now rewrite app_nil_r.
  - unfold body at 1. rewrite Heg. simpl. rewrite IH, <- app_assoc. reflexivity.
Qed.

Lemma validate_loop_first_bad before bad after examples e parsed :
  Forall2 validates before examples ->
  NERExample_of bad = Py.Raises e ->
  Py.for_each body (before ++ bad :: after) parsed = Py.Raises e.
Proof.
  intros Hall Hbad. revert parsed.
  induction Hall as [|eg example egs examples Heg _ IH]; intros parsed; simpl.
  - unfold body at 1. now rewrite Hbad.
  - unfold body at 1. rewrite Heg. simpl. apply IH.
Qed.

(** Without a reader there are no examples; with one, the examples are the
    validated items in order, and the first thing that fails ends the
    reading: the reader itself, or else the first item that does not
    validate, whatever comes after it. *)
Lemma read_examples_cases (examples : option (unit -> Py.outcome (list Any))) :
  match examples with
  | None => Ner.read_examples NERExample_of examples = Py.Returns None
  | Some read =>
      (forall e, read tt = Py.Raises e ->
                 Ner.read_examples NERExample_of examples = Py.Raises e)
      /\ (forall egs parsed,
            read tt = Py.Returns egs ->
            Forall2 validates egs parsed ->
            Ner.read_examples NERExample_of examples = Py.Returns (Some parsed))
      /\ (forall before bad after parsed e,
            read tt = Py.Returns (before ++ bad :: after) ->
            Forall2 validates before parsed ->
            NERExample_of bad = Py.Raises e ->
            Ner.read_examples NERExample_of examples = Py.Raises e)
  end.
Proof.
  destruct examples as [read|]; [|reflexivity]. unfold Ner.read_examples.
  split; [|split].
  - intros e ->. reflexivity.
  - intros egs parsed -> Hall. simpl.
    fold body. now rewrite (validate_loop_all _ _ [] Hall).
  - intros before bad after parsed e -> Hall Hbad. simpl.
    fold body. now rewrite (validate_loop_first_bad _ _ after _ _ [] Hall Hbad).
Qed.

End ReadExamples.

(** X1: [NERTask.__init__] reads and validates the examples before it looks
    at the alignment mode, so an error of the examples is the one raised,
    whatever the mode: what the reader raises, or else what the first item
    that does not validate raises, the items after it not being looked at.
    When there is no reader, or every item validates, the alignment mode
    decides: for strict, contract or expand the task is returned, with the
    arguments as given, the default normalizer when none is passed, the label
    map of the comma-separated labels and the validated examples in order;
    for any other mode [ValueError] is raised.  A task that is returned
    therefore has one of the three modes. *)
Theorem X1_ner_init_alignment_mode :
  forall (lowercase_normalizer : string -> string) (Any : Type)
    (NERExample_of : Any -> Py.outcome Ner.NERExample) (labels : string)
    (examples : option (unit -> Py.outcome (list Any)))
    (normalizer : option (string -> string))
    (alignment_mode lang : string) (case_sensitive_matching single_match : bool),
    let made :=
      Ner.__init__ lowercase_normalizer NERExample_of labels examples normalizer
        alignment_mode lang case_sensitive_matching single_match in
    let task parsed :=
      Ner.mkNERTask (default lowercase_normalizer normalizer)
        (Ner.label_dict_of (default lowercase_normalizer normalizer)
           (Py.split "," labels))
        parsed alignment_mode lang case_sensitive_matching single_match in
    let known := In alignment_mode ["strict"; "contract"; "expand"] in
    let by_mode parsed :=
      (known -> made = Py.Returns (task parsed))
      /\ (~ known -> exists msg, made = Py.Raises (Py.ValueError msg)) in
    (examples = None -> by_mode None)
    /\ (forall read,
          examples = Some read ->
          (forall e, read tt = Py.Raises e -> made = Py.Raises e)
          /\ (forall before bad after parsed e,
                read tt = Py.Returns (before ++ bad :: after) ->
                Forall2 (fun eg example => NERExample_of eg = Py.Returns example)
                  before parsed ->
                NERExample_of bad = Py.Raises e ->
                made = Py.Raises e)
          /\ (forall egs parsed,
                read tt = Py.Returns egs ->
                Forall2 (fun eg example => NERExample_of eg = Py.Returns example)
                  egs parsed ->
                by_mode (Some parsed)))
    /\ (forall self, made = Py.Returns self -> known).
Proof.
  intros lcn Any validate labels examples normalizer mode lang cs sm made task known
    by_mode.
  assert (Hmode : forall parsed,
             Ner.read_examples validate examples = Py.Returns parsed -> by_mode parsed).
  { intros parsed Hread. subst by_mode made known. cbv beta.
    unfold Ner.__init__, Ner._validate_alignment. rewrite Hread. split.
    - intros Hin. apply str_in_In in Hin. rewrite Hin. reflexivity.
    - intros Hnin. apply str_in_not_In in Hnin. rewrite Hnin. simpl. eauto. }
  assert (Hraise : forall e,
             Ner.read_examples validate examples = Py.Raises e -> made = Py.Raises e).
  { intros e Hread. subst made. unfold Ner.__init__. now rewrite Hread. }
  pose proof (read_examples_cases validate examples) as Hcases.
  split; [|split].
  - intros ->. apply Hmode, Hcases.
  - intros read ->. destruct Hcases as (Hreader & Hall & Hbad). split; [|split].
    + intros e He. apply Hraise, Hreader, He.
    + intros before bad after parsed e Hegs Hbefore He.
      eapply Hraise, Hbad; eauto.
    + intros egs parsed Hegs Hparsed. eapply Hmode, Hall; eauto.
  - intros self Hmade. subst made known.
    apply ner_init_returns in Hmade as (_ & _ & Hvalid & _).
    unfold Ner._validate_alignment in Hvalid.
    destruct (Py.str_in mode ["strict"; "contract"; "expand"]) eqn:Hin;
      [now apply str_in_In | discriminate].
Qed.

(** X1, at a reader whose second item does not validate and the unknown
    mode loose: the error raised is that of the item, not that of the mode. *)
Lemma X1_ner_init_alignment_mode_witness :
  Ner.__init__ Samples.lower Samples.validate "PER,LOC"
    (Some (fun _ => Py.Returns [Some (Ner.mkNERExample "Ann lives in Rome" []); None;
                                Some (Ner.mkNERExample "Bob" [])]))
    None "loose" "xx" false false
  = Py.Raises (Py.ValueError "validation error for NERExample").
Proof.
  apply (proj1 (proj2 (proj1 (proj2 (X1_ner_init_alignment_mode Samples.lower _
                                       Samples.validate "PER,LOC" _ None "loose" "xx"
                                       false false)) _ eq_refl)))
    with (before := [Some (Ner.mkNERExample "Ann lives in Rome" [])]) (bad := None)
         (after := [Some (Ner.mkNERExample "Bob" [])])
         (parsed := [Ner.mkNERExample "Ann lives in Rome" []]).
  - reflexivity.
  - repeat constructor.
  - reflexivity.
Defined.

(** ** The shape of a response line ([NERTask._format_response]) *)

Lemma contains_char_append sep a b :
  Py.contains_char sep (String.append a b)
  = Py.contains_char sep a || Py.contains_char sep b.
Proof.
  induction a as [|c a IH]; simpl; [reflexivity|].
  rewrite IH. apply orb_assoc.
Qed.

(** [s.split(sep, 1)] cuts at the first separator. *)
Lemma split1_first sep a b :
  Py.contains_char sep a = false ->
  Py.split1 sep (String.append a (String sep b)) = [a; b].
Proof.
  induction a as [|c a IH]; simpl.
  - intros _. now rewrite Ascii.eqb_refl.
  - intros Hc. apply orb_false_iff in Hc as [Hc Ha]. rewrite Hc, IH by exact Ha.
    reflexivity.
Qed.

Lemma split1_two_inv sep s a b :
  Py.split1 sep s = [a; b] ->
  s = String.append a (String sep b) /\ Py.contains_char sep a = false.
Proof.
  revert a. induction s as [|c s IH]; intros a; simpl; [discriminate|].
  destruct (Ascii.eqb_spec c sep) as [->|Hne].
  - intros [= <- <-]. now split.
  - destruct (Py.split1 sep s) as [|p [|q [|? ?]]]; try discriminate.
    intros [= <- <-]. destruct (IH p eq_refl) as [-> Hp]. simpl. split; [reflexivity|].
    rewrite Hp. destruct (Ascii.eqb_spec c sep); [contradiction | reflexivity].
Qed.

(** X2: a response line made of a label without a colon, a colon and a rest
    that is not blank, whose label normalizes to a key of the label map, adds
    exactly one entry: the canonical form the map holds for the key, with
    the rest cut at its commas and each phrase trimmed.  Only the first
    colon of a line separates: a colon in the rest belongs to the phrases. *)
Theorem X2_format_response_line_well_formed :
  forall (self : Ner.NERTask) (output : list (string * list string))
    (label rest canonical : string),
    Py.contains_char ":" label = false ->
    Py.dict_get (Ner._normalizer self label) (Ner._label_dict self) = Some canonical ->
    Py.strip rest <> "" ->
    Ner._format_response_line self output (String.append label (String ":" rest))
    = Py.Returns
        (output ++ [(canonical, map Py.strip (Py.split "," (Py.strip rest)))]).
Proof.
  intros self output label rest canonical Hlabel Hget Hrest.
  rewrite format_response_line_entry. unfold Declarative.line_entry.
  rewrite split1_first by exact Hlabel. rewrite Hget.
  destruct (String.eqb_spec (Py.strip rest) ""); [contradiction | reflexivity].
Qed.

(** X2, at a line whose phrases hold a colon of their own. *)
Lemma X2_format_response_line_well_formed_witness :
  Ner._format_response_line (Samples.ner_task_state "PER,LOC" false) []
    "Loc: Rome, Area 51: Nevada"
  = Py.Returns [("LOC", ["Rome"; "Area 51: Nevada"])].
Proof.
  apply (X2_format_response_line_well_formed (Samples.ner_task_state "PER,LOC" false)
           [] "Loc" " Rome, Area 51: Nevada" "LOC").
  - reflexivity.
  - reflexivity.
  - vm_compute. discriminate.
Defined.

(** ** Trimming ([str.strip] in [_format_response]) *)

Lemma lstrip_chars_head cs :
  Py.lstrip_chars cs = []
  \/ exists c rest, Py.lstrip_chars cs = c :: rest /\ Py.is_space c = false.
Proof.
  induction cs as [|c cs IH]; simpl; [now left|].
  destruct (Py.is_space c) eqn:Hc; [exact IH|]. right. now exists c, cs.
Qed.

Lemma lstrip_chars_fixed c rest :
  Py.is_space c = false -> Py.lstrip_chars (c :: rest) = c :: rest.
Proof. intros Hc. simpl. now rewrite Hc. Qed.

Lemma lstrip_chars_idem cs : Py.lstrip_chars (Py.lstrip_chars cs) = Py.lstrip_chars cs.
Proof.
  destruct (lstrip_chars_head cs) as [->|(c & rest & -> & Hc)]; [reflexivity|].
  now apply lstrip_chars_fixed.
Qed.

Lemma lstrip_chars_snoc cs c :
  Py.is_space c = false -> Py.lstrip_chars (cs ++ [c]) = Py.lstrip_chars cs ++ [c].
Proof.
  intros Hc. induction cs as [|d cs IH]; simpl; [now rewrite Hc|].
  destruct (Py.is_space d); [exact IH | reflexivity].
Qed.

(** Trimming the right end keeps a left end that is already trimmed. *)
Lemma lstrip_rstrip_chars cs :
  Py.lstrip_chars (Py.rstrip_chars (Py.lstrip_chars cs))
  = Py.rstrip_chars (Py.lstrip_chars cs).
Proof.
  destruct (lstrip_chars_head cs) as [->|(c & rest & -> & Hc)]; [reflexivity|].
  unfold Py.rstrip_chars. simpl rev.
  rewrite lstrip_chars_snoc by exact Hc. rewrite rev_app_distr. simpl.
  now rewrite Hc.
Qed.

Lemma rstrip_chars_idem cs : Py.rstrip_chars (Py.rstrip_chars cs) = Py.rstrip_chars cs.
Proof.
  unfold Py.rstrip_chars. now rewrite rev_involutive, lstrip_chars_idem.
Qed.

(** [s.strip().strip() == s.strip()] *)
Lemma strip_idem s : Py.strip (Py.strip s) = Py.strip s.
Proof.
  unfold Py.strip. rewrite list_ascii_of_string_of_list_ascii.
  now rewrite lstrip_rstrip_chars, rstrip_chars_idem.
Qed.

(** X3: [_format_response] never raises.  It returns at most one entry per
    line of the trimmed response, every phrase it returns is trimmed, and
    white space around the response changes nothing; a blank response gives
    no entry. *)
Theorem X3_format_response_trims :
  forall (self : Ner.NERTask) (response : string),
    exists entries,
      Ner._format_response self response = Py.Returns entries
      /\ List.length entries <= List.length (Py.split "010" (Py.strip response))
      /\ (forall label phrases p,
            In (label, phrases) entries -> In p phrases -> Py.strip p = p)
      /\ Ner._format_response self (Py.strip response) = Py.Returns entries
      /\ (Py.strip response = "" -> entries = []).
Proof.
  intros self response. eexists. split; [apply format_response_entries|].
  split; [|split; [|split]].
  - induction (Py.split "010" (Py.strip response)) as [|line lines IH]; simpl; [lia|].
    rewrite length_app. destruct (Declarative.line_entry self line); simpl; lia.
  - intros label phrases p Hentry Hp.
    apply in_flat_map in Hentry as (line & _ & Hentry).
    destruct (Declarative.line_entry self line) as [[c ps]|] eqn:Hle; [|destruct Hentry].
    destruct Hentry as [[= -> ->]|[]].
    apply line_entry_Some in Hle as (_ & rest & _ & _ & _ & ->).
    apply in_map_iff in Hp as (q & <- & _). apply strip_idem.
  - now rewrite format_response_entries, strip_idem.
  - intros ->. reflexivity.
Qed.

(** The white space that is trimmed is that of [str.strip]: next to the
    ASCII white space it includes the next-line character and the no-break
    space. *)
Lemma is_space_chars (c : ascii) :
  Py.is_space c = true
  <-> In (nat_of_ascii c) [9; 10; 11; 12; 13; 28; 29; 30; 31; 32; 133; 160].
Proof.
  destruct c as [[] [] [] [] [] [] [] []]; vm_compute; split;
    solve [ discriminate | intuition discriminate | intuition ].
Qed.

(** A no-break space around a phrase or around the response is trimmed, and
    a phrase list made of a no-break space is blank: the line is skipped. *)
Example format_response_no_break_space :
  let self := Samples.ner_task_state "PER,LOC" false in
  let nbsp := String "160" "" in
  Ner._format_response self ("PER:" ++ nbsp ++ "Ann") = Py.Returns [("PER", ["Ann"])]
  /\ Ner._format_response self (nbsp ++ "PER: Ann") = Py.Returns [("PER", ["Ann"])]
  /\ Ner._format_response self ("PER:" ++ nbsp) = Py.Returns [].
Proof. vm_compute. auto. Qed.

(** ** What [single_match] leaves out ([find_substrings]) *)

Lemma filter_sublist {A : Type} (f : A -> bool) (l : list A) : sublist (List.filter f l) l.
Proof.
  induction l as [|x l IH]; simpl; [constructor|].
  destruct (f x); now constructor.
Qed.

Lemma map_sublist {A B : Type} (f : A -> B) (l k : list A) :
  sublist l k -> sublist (map f l) (map f k).
Proof. induction 1; simpl; now constructor. Qed.

Lemma first_occurrences_sublist {A : Type} (key : A -> string) (xs : list A) :
  sublist (Declarative.first_occurrences key xs) xs.
Proof.
  induction xs as [|x xs IH]; simpl; constructor.
  etransitivity; [apply filter_sublist | exact IH].
Qed.

(** Where every key occurs once, every element is a first occurrence. *)
Lemma first_occurrences_NoDup {A : Type} (key : A -> string) (xs : list A) :
  List.NoDup (map key xs) -> Declarative.first_occurrences key xs = xs.
Proof.
  induction xs as [|x xs IH]; simpl; [reflexivity|].
  intros Hnd. apply List.NoDup_cons_iff in Hnd as [Hx Hnd]. rewrite IH by exact Hnd.
  f_equal. apply forallb_filter_id, forallb_forall. intros y Hy.
  destruct (String.eqb_spec (key y) (key x)) as [Heq|]; [|reflexivity].
  destruct Hx. rewrite <- Heq. now apply in_map.
Qed.

(** X4: what [find_substrings] returns with [single_match] is a subsequence
    of what it returns without: nothing is added and nothing is reordered.
    When the matched texts (under the casing policy) are pairwise different,
    [single_match] changes nothing. *)
Theorem X4_single_match_subsequence :
  forall (lower : string -> string)
    (phrase_matcher : string -> bool -> list string -> string -> list Ner.Match)
    (text : string) (substrings : list string) (lang : string) (case_sensitive : bool),
    let found :=
      Ner.find_substrings lower phrase_matcher text substrings lang case_sensitive in
    sublist (found true) (found false)
    /\ List.length (found true) <= List.length (found false)
    /\ (List.NoDup
          (map (Ner.span_text lower case_sensitive text)
             (phrase_matcher lang case_sensitive substrings text)) ->
        found true = found false).
Proof.
  intros lower phrase_matcher text substrings lang cs found. subst found.
  unfold Ner.find_substrings. rewrite filter_first_hit_firsts.
  assert (Hsub : sublist
            (map Declarative.offsets
               (Declarative.first_occurrences (Ner.span_text lower cs text)
                  (phrase_matcher lang cs substrings text)))
            (map (fun m => (Ner.start_char m, Ner.end_char m))
               (phrase_matcher lang cs substrings text))).
  { apply (map_sublist Declarative.offsets), first_occurrences_sublist. }
  split; [exact Hsub|]. split; [now apply sublist_length|].
  intros Hnd. now rewrite first_occurrences_NoDup.
Qed.

(** ** What [parse_responses] leaves untouched *)

Lemma map_fst_combine {A B : Type} (xs : list A) (ys : list B) :
  map fst (combine xs ys) = firstn (List.length ys) xs.
Proof.
  revert ys. induction xs as [|x xs IH]; intros [|y ys]; simpl; try reflexivity.
  now rewrite IH.
Qed.

(** X5: [NERTask.parse_responses] changes nothing of a document but its
    entities: the documents it yields have, in order, the texts and the
    custom attributes of the documents that have a response. *)
Theorem X5_ner_parse_responses_frame :
  forall (lower : string -> string)
    (phrase_matcher : string -> bool -> list string -> string -> list Ner.Match)
    (char_span : Spacy.Doc -> nat -> nat -> string -> option (nat * nat))
    (filter_spans : list Spacy.Span -> list Spacy.Span)
    (self : Ner.NERTask) (docs : list Spacy.Doc) (responses : list string),
    exists yielded,
      Ner.parse_responses lower phrase_matcher char_span filter_spans self docs responses
      = Py.Returns yielded
      /\ map Spacy.text yielded = firstn (List.length responses) (map Spacy.text docs)
      /\ map Spacy.user_attrs yielded
         = firstn (List.length responses) (map Spacy.user_attrs docs).
Proof.
  intros lower phrase_matcher char_span filter_spans self docs responses.
  set (g := fun (p : Spacy.Doc * string) =>
              Spacy.set_ents (fst p)
                (filter_spans
                   (fold_left (Ner.spans_of_entry lower phrase_matcher char_span self (fst p))
                      (flat_map
                         (fun line =>
                            Declarative.option_list (Declarative.line_entry self line))
                         (Py.split "010" (Py.strip (snd p)))) []))).
  exists (map g (combine docs responses)). split; [|split].
  - unfold Ner.parse_responses.
    rewrite (for_each_total _ (fun out p => out ++ [g p])).
    + now rewrite fold_left_snoc_map.
    + intros s [doc response]. unfold Ner.parse_response.
      now rewrite collect_spans_returns.
  - rewrite firstn_map, <- map_fst_combine, !map_map. reflexivity.
  - rewrite firstn_map, <- map_fst_combine, !map_map. reflexivity.
Qed.

(** ** Summaries ([SummarizationTask.__init__] and [parse_responses]) *)

Lemma summarization_field {FewshotExample : Type} (template : string)
    (max_n_words : option Z) (field : string)
    (prompt_examples : option (list FewshotExample)) :
  Summarization.field (Summarization.__init__ template max_n_words field prompt_examples)
  = Py.Returns field.
Proof.
  unfold Summarization.field, Summarization.__init__, BuiltinTask.getattr. simpl.
  rewrite lookup_insert_ne by discriminate. now rewrite lookup_insert_eq.
Qed.

(** X6: for a task built by [SummarizationTask.__init__] with the field
    [field], [parse_responses] raises only what the injected parser raises.
    When the parser returns its summaries, one document is yielded per
    (document, summary) pair; the i-th keeps its text and its entities, holds
    the i-th summary under [field], and keeps every other custom attribute. *)
Theorem X6_summarization_writes_its_field :
  forall (FewshotExample : Type)
    (parser : BuiltinTask.BuiltinTask FewshotExample -> list Spacy.Doc ->
              list string -> Py.outcome (list string))
    (template : string) (max_n_words : option Z) (field : string)
    (prompt_examples : option (list FewshotExample))
    (docs : list Spacy.Doc) (responses : list string),
    let self := Summarization.__init__ template max_n_words field prompt_examples in
    (forall e,
        parser self docs responses = Py.Raises e ->
        Summarization.parse_responses parser self docs responses = Py.Raises e)
    /\ (forall summaries,
          parser self docs responses = Py.Returns summaries ->
          exists yielded,
            Summarization.parse_responses parser self docs responses = Py.Returns yielded
            /\ List.length yielded = Nat.min (List.length docs) (List.length summaries)
            /\ forall i doc summary,
                docs !! i = Some doc -> summaries !! i = Some summary ->
                exists doc',
                  yielded !! i = Some doc'
                  /\ Spacy.text doc' = Spacy.text doc
                  /\ Spacy.ents doc' = Spacy.ents doc
                  /\ Spacy.user_attrs doc' !! field = Some summary
                  /\ forall other,
                      other <> field ->
                      Spacy.user_attrs doc' !! other = Spacy.user_attrs doc !! other).
Proof.
  intros FewshotExample parser template max_n_words field pe docs responses self.
  split.
  - intros e He. unfold Summarization.parse_responses. now rewrite He.
  - intros summaries Hparse.
    set (g := fun (p : Spacy.Doc * string) => Spacy.set_user_attr (fst p) field (snd p)).
    exists (map g (combine docs summaries)). split; [|split].
    + unfold Summarization.parse_responses. rewrite Hparse. simpl.
      rewrite (for_each_total _ (fun out p => out ++ [g p])).
      * now rewrite fold_left_snoc_map.
      * intros s [doc summary]. subst self. now rewrite summarization_field.
    + now rewrite length_map, length_combine.
    + intros i doc summary Hd Hs. exists (g (doc, summary)).
      split; [|split; [reflexivity|split; [reflexivity|split]]].
      * rewrite list_lookup_fmap, (combine_lookup _ _ _ _ _ Hd Hs). reflexivity.
      * simpl. apply lookup_insert_eq.
      * intros other Hother. simpl. now apply lookup_insert_ne.
Qed.

(** X6, at two documents and one response. *)
Lemma X6_summarization_writes_its_field_witness :
  exists yielded,
    Summarization.parse_responses Samples.parse_summaries Samples.fresh_task
      [Samples.doc_of "A long text."; Samples.doc_of "Another long text."] [" A text. "]
    = Py.Returns yielded
    /\ List.length yielded = 1.
Proof.
  destruct (proj2 (X6_summarization_writes_its_field string Samples.parse_summaries
                     "Summarize." None "summary" None
                     [Samples.doc_of "A long text."; Samples.doc_of "Another long text."]
                     [" A text. "]) ["A text."] eq_refl)
    as (yielded & Hrun & Hlen & _).
  exists yielded. split; [exact Hrun | exact Hlen].
Defined.

(** ** Which examples initialization takes ([_initialize]) *)

Section InitializePrefix.

Context {Example FewshotExample : Type}.
Variable generate : Example -> BuiltinTask.BuiltinTask FewshotExample -> FewshotExample.

Lemma initialize_unbounded_cons eg egs self :
  BuiltinTask._initialize generate self (eg :: egs) (-1)
  = BuiltinTask._initialize generate
      (BuiltinTask.with_prompt_examples self
         (BuiltinTask._prompt_examples self ++ [generate eg self])) egs (-1).
Proof. reflexivity. Qed.

Lemma initialize_take (n : Z) egs self :
  (0 <= n)%Z ->
  BuiltinTask._initialize generate self egs n
  = BuiltinTask._initialize generate self
      (firstn (Z.to_nat n - List.length (BuiltinTask._prompt_examples self)) egs) (-1).
Proof.
  intros Hn. revert self. induction egs as [|eg egs IH]; intros self.
  - now rewrite firstn_nil.
  - rewrite initialize_cons, IH. unfold BuiltinTask._initialize_step.
    destruct (Z.ltb_spec n 0); [lia|]. simpl.
    destruct (Z.ltb_spec (Z.of_nat (List.length (BuiltinTask._prompt_examples self))) n)
      as [Hlt|Hge].
    + replace (Z.to_nat n - List.length (BuiltinTask._prompt_examples self))
        with (S (Z.to_nat n - S (List.length (BuiltinTask._prompt_examples self))))
        by lia.
      rewrite firstn_cons, initialize_unbounded_cons. simpl.
      rewrite length_app. simpl. do 2 f_equal. lia.
    + replace (Z.to_nat n - List.length (BuiltinTask._prompt_examples self)) with 0
        by lia.
      reflexivity.
Qed.

End InitializePrefix.

(** X7: with a cap [n >= 0], [BuiltinTask._initialize] takes the first
    [n - (number of examples already stored)] training examples, in order,
    and no others: it does what an initialization without cap does on that
    prefix.  The count afterwards is the count before plus the length of the
    prefix. *)
Theorem X7_initialize_takes_a_prefix :
  forall (Example FewshotExample : Type)
    (generate : Example -> BuiltinTask.BuiltinTask FewshotExample -> FewshotExample)
    (self : BuiltinTask.BuiltinTask FewshotExample) (get_examples : list Example) (n : Z),
    (0 <= n)%Z ->
    let before := List.length (BuiltinTask._prompt_examples self) in
    let taken := firstn (Z.to_nat n - before) get_examples in
    BuiltinTask._initialize generate self get_examples n
    = BuiltinTask._initialize generate self taken (-1)
    /\ List.length
         (BuiltinTask._prompt_examples
            (BuiltinTask._initialize generate self get_examples n))
       = before + Nat.min (Z.to_nat n - before) (List.length get_examples).
Proof.
  intros Example FewshotExample generate self egs n Hn before taken.
  subst before taken. split; [now apply initialize_take|].
  rewrite initialize_take by exact Hn.
  rewrite initialize_unbounded by lia. now rewrite length_firstn.
Qed.

(** X7, at one stored example, three training examples and cap 2: the first
    training example is taken. *)
Lemma X7_initialize_takes_a_prefix_witness :
  BuiltinTask._prompt_examples
    (BuiltinTask._initialize (fun (eg : string) _ => eg)
       (BuiltinTask.__init__ "template" (Some ["stored"]) ["_template"])
       ["a"; "b"; "c"] 2)
  = ["stored"; "a"].
Proof.
  rewrite (proj1 (X7_initialize_takes_a_prefix string string (fun eg _ => eg)
                    (BuiltinTask.__init__ "template" (Some ["stored"]) ["_template"])
                    ["a"; "b"; "c"] 2 ltac:(lia))).
  reflexivity.
Defined.

(** ** Prompt examples of a task with labels ([BuiltinTaskWithLabels._initialize]) *)

Section LabelledExamples.

Context {Example FewshotExample : Type}.
Variable extract : Example -> list string.
Variable generate :
  Example -> BuiltinTaskWithLabels.BuiltinTaskWithLabels FewshotExample -> FewshotExample.

Lemma with_base_base (self : BuiltinTaskWithLabels.BuiltinTaskWithLabels FewshotExample) :
  BuiltinTaskWithLabels.with_base self (BuiltinTaskWithLabels.base self) = self.
Proof. now destruct self. Qed.

Lemma labelled_initialize_step_base (infer : bool) (n : Z) self b labels scanned eg :
  exists labels' scanned',
    BuiltinTaskWithLabels._initialize_step extract generate infer n
      (BuiltinTaskWithLabels.mkInit labels (BuiltinTaskWithLabels.with_base self b) scanned)
      eg
    = BuiltinTaskWithLabels.mkInit labels'
        (BuiltinTaskWithLabels.with_base self
           (BuiltinTask._initialize_step
              (fun eg b => generate eg (BuiltinTaskWithLabels.with_base self b)) n b eg))
        scanned'.
Proof.
  unfold BuiltinTaskWithLabels._initialize_step, BuiltinTask._initialize_step. simpl.
  destruct infer; destruct ((n <? 0)%Z || _); eexists; eexists; reflexivity.
Qed.

Lemma labelled_initialize_examples (infer : bool) (n : Z) egs self b labels scanned :
  BuiltinTaskWithLabels.init_self
    (fold_left (BuiltinTaskWithLabels._initialize_step extract generate infer n) egs
       (BuiltinTaskWithLabels.mkInit labels (BuiltinTaskWithLabels.with_base self b) scanned))
  = BuiltinTaskWithLabels.with_base self
      (BuiltinTask._initialize
         (fun eg b => generate eg (BuiltinTaskWithLabels.with_base self b)) b egs n).
Proof.
  revert b labels scanned. induction egs as [|eg egs IH]; intros b labels scanned;
    [reflexivity|].
  rewrite initialize_cons. simpl fold_left.
  destruct (labelled_initialize_step_base infer n self b labels scanned eg)
    as (labels' & scanned' & ->).
  apply IH.
Qed.

End LabelledExamples.

(** X8: [BuiltinTaskWithLabels._initialize] treats the prompt examples as
    [BuiltinTask._initialize] does, whatever labels are passed: the inherited
    state afterwards is that of the base initialization, each example being
    generated against the task with its label map as it was before the call.
    The normalizer and the label definitions are not changed. *)
Theorem X8_labelled_initialize_examples :
  forall (Example FewshotExample : Type) (extract : Example -> list string)
    (generate : Example -> BuiltinTaskWithLabels.BuiltinTaskWithLabels FewshotExample ->
                FewshotExample)
    (self : BuiltinTaskWithLabels.BuiltinTaskWithLabels FewshotExample)
    (get_examples : list Example) (labels : list string) (n_prompt_examples : Z),
    let self' :=
      fst (BuiltinTaskWithLabels._initialize extract generate self get_examples labels
             n_prompt_examples) in
    BuiltinTaskWithLabels.base self'
    = BuiltinTask._initialize
        (fun eg b => generate eg (BuiltinTaskWithLabels.with_base self b))
        (BuiltinTaskWithLabels.base self) get_examples n_prompt_examples
    /\ BuiltinTaskWithLabels._normalizer self' = BuiltinTaskWithLabels._normalizer self
    /\ BuiltinTaskWithLabels._label_definitions self'
       = BuiltinTaskWithLabels._label_definitions self.
Proof.
  intros Example FewshotExample extract generate self egs labels n self'. subst self'.
  unfold BuiltinTaskWithLabels._initialize. cbv zeta. simpl fst.
  set (labels0 := match labels with [] => _ | _ => labels end).
  set (infer := match labels0 with [] => true | _ => false end).
  set (labels1 := if infer then [] else labels0).
  pose proof (labelled_initialize_examples extract generate infer n egs self
                (BuiltinTaskWithLabels.base self) labels1 []) as H.
  rewrite with_base_base in H. rewrite H. now split.
Qed.

(** ** The invariant of the label map *)

Section MoreDictFacts.

Context {V : Type}.
Implicit Types (d : Py.pydict V) (k : string) (v : V).

Lemma dict_set_In k v k0 v0 d :
  In (k, v) (Py.dict_set k0 v0 d) -> (k, v) = (k0, v0) \/ In (k, v) d.
Proof.
  induction d as [|[k1 v1] d IH]; simpl.
  - intros [[= <- <-]|[]]. now left.
  - destruct (String.eqb_spec k1 k0) as [->|Hne]; simpl.
    + intros [[= <- <-]|Hin]; [now left | right; now right].
    + intros [Heq|Hin]; [right; now left|].
      destruct (IH Hin) as [?|?]; [now left | right; now right].
Qed.

Lemma dict_set_new k v d :
  ~ In k (Py.dict_keys d) -> Py.dict_set k v d = d ++ [(k, v)].
Proof.
  induction d as [|[k1 v1] d IH]; simpl; [reflexivity|].
  intros Hnin. destruct (String.eqb_spec k1 k) as [->|_]; [destruct Hnin; now left|].
  rewrite IH; [reflexivity|]. intros Hin. apply Hnin. now right.
Qed.

Lemma dict_get_Some_In k v d : Py.dict_get k d = Some v -> In (k, v) d.
Proof.
  induction d as [|[k1 v1] d IH]; simpl; [discriminate|].
  destruct (String.eqb_spec k1 k) as [->|_]; [intros [= ->]; now left | auto].
Qed.

Lemma dict_In_get k v d :
  List.NoDup (Py.dict_keys d) -> In (k, v) d -> Py.dict_get k d = Some v.
Proof.
  induction d as [|[k1 v1] d IH]; simpl; [tauto|].
  intros Hnd. apply List.NoDup_cons_iff in Hnd as [Hk1 Hnd].
  intros [[= -> ->]|Hin]; [now rewrite String.eqb_refl|].
  destruct (String.eqb_spec k1 k) as [->|_]; [|auto].
  destruct Hk1. apply in_map_iff. now exists (k, v).
Qed.

Lemma dict_get_None_keys k d : Py.dict_get k d = None -> ~ In k (Py.dict_keys d).
Proof.
  induction d as [|[k1 v1] d IH]; simpl; [tauto|].
  destruct (String.eqb_spec k1 k) as [->|Hne]; [discriminate|].
  intros Hget [?|Hin]; [congruence | now apply IH].
Qed.

End MoreDictFacts.

Section LabelInvariant.

Variable normalizer : string -> string.

Lemma label_dict_ok_set (d : Py.pydict string) label :
  Declarative.label_dict_ok normalizer d ->
  Declarative.label_dict_ok normalizer (Py.dict_set (normalizer label) label d).
Proof.
  intros [Hnd Hok]. split; [now apply dict_set_NoDup|].
  intros k v Hin. apply dict_set_In in Hin as [[= -> ->]|Hin]; [reflexivity | auto].
Qed.

Lemma label_dict_ok_fold labels (d : Py.pydict string) :
  Declarative.label_dict_ok normalizer d ->
  Declarative.label_dict_ok normalizer
    (fold_left (fun d label => Py.dict_set (normalizer label) label d) labels d).
Proof.
  revert d. induction labels as [|l labels IH]; intros d Hd; simpl; [exact Hd|].
  apply IH. now apply label_dict_ok_set.
Qed.

Lemma label_dict_ok_nil : Declarative.label_dict_ok normalizer [].
Proof. split; [constructor | intros k v []]. Qed.

End LabelInvariant.

Lemma labelled_initialize_normalizer {Example FewshotExample : Type}
    (extract : Example -> list string)
    (generate : Example -> BuiltinTaskWithLabels.BuiltinTaskWithLabels FewshotExample ->
                FewshotExample)
    (self : BuiltinTaskWithLabels.BuiltinTaskWithLabels FewshotExample)
    (egs : list Example) (labels : list string) (n : Z) :
  BuiltinTaskWithLabels._normalizer
    (fst (BuiltinTaskWithLabels._initialize extract generate self egs labels n))
  = BuiltinTaskWithLabels._normalizer self.
Proof.
  unfold BuiltinTaskWithLabels._initialize. cbv zeta. simpl.
  set (st := BuiltinTaskWithLabels.mkInit _ self []).
  set (infer := match _ with [] => true | _ => false end).
  destruct (labelled_initialize_loop extract generate infer n egs st) as (_ & _ & Hn & _).
  exact Hn.
Qed.

(** X9: every operation that builds or changes a label map leaves it with
    distinct keys, each entry filing a label under the label's own
    normalized form: [BuiltinTaskWithLabels.__init__], [NERTask.__init__]
    and [_initialize] establish this, and [add_label] preserves it. *)
Theorem X9_label_map_invariant :
  (forall (FewshotExample : Type) (lowercase_normalizer : string -> string)
      (template : string) (prompt_examples : option (list FewshotExample))
      (cfg_keys labels : list string) (label_definitions : option (Py.pydict string))
      (normalizer : option (string -> string)),
      let self :=
        BuiltinTaskWithLabels.__init__ lowercase_normalizer template prompt_examples
          cfg_keys labels label_definitions normalizer in
      Declarative.label_dict_ok (BuiltinTaskWithLabels._normalizer self)
        (BuiltinTaskWithLabels._label_dict self))
  /\ (forall (lowercase_normalizer : string -> string) (labels : string)
        (Any : Type)
        (NERExample_of : Any -> Py.outcome Ner.NERExample)
        (examples : option (unit -> Py.outcome (list Any)))
        (normalizer : option (string -> string))
        (alignment_mode lang : string) (case_sensitive_matching single_match : bool)
        (self : Ner.NERTask),
        Ner.__init__ lowercase_normalizer NERExample_of labels examples normalizer
          alignment_mode lang case_sensitive_matching single_match = Py.Returns self ->
        Declarative.label_dict_ok (Ner._normalizer self) (Ner._label_dict self))
  /\ (forall (Example FewshotExample : Type) (extract : Example -> list string)
        (generate : Example -> BuiltinTaskWithLabels.BuiltinTaskWithLabels FewshotExample ->
                    FewshotExample)
        (self : BuiltinTaskWithLabels.BuiltinTaskWithLabels FewshotExample)
        (get_examples : list Example) (labels : list string) (n_prompt_examples : Z),
        let self' :=
          fst (BuiltinTaskWithLabels._initialize extract generate self get_examples labels
                 n_prompt_examples) in
        Declarative.label_dict_ok (BuiltinTaskWithLabels._normalizer self')
          (BuiltinTaskWithLabels._label_dict self'))
  /\ (forall (FewshotExample : Type)
        (self self' : BuiltinTaskWithLabels.BuiltinTaskWithLabels FewshotExample)
        (label : Py.object) (r : Z),
        Declarative.label_dict_ok (BuiltinTaskWithLabels._normalizer self)
          (BuiltinTaskWithLabels._label_dict self) ->
        BuiltinTaskWithLabels.add_label self label = Py.Returns (r, self') ->
        Declarative.label_dict_ok (BuiltinTaskWithLabels._normalizer self')
          (BuiltinTaskWithLabels._label_dict self')).
Proof.
  split; [|split; [|split]].
  - intros. subst self. simpl. apply label_dict_ok_fold, label_dict_ok_nil.
  - intros lcn labels Any validate examples normalizer mode lang cs sm self Hinit.
    apply ner_init_returns in Hinit as (parsed & _ & _ & ->).
    simpl. apply label_dict_ok_fold, label_dict_ok_nil.
  - intros Example FewshotExample extract generate self egs labels n self'. subst self'.
    rewrite labelled_initialize_normalizer.
    unfold BuiltinTaskWithLabels._initialize. cbv zeta. simpl.
    apply label_dict_ok_fold, label_dict_ok_nil.
  - intros FewshotExample self self' label r Hok. unfold BuiltinTaskWithLabels.add_label.
    destruct label as [[| b | z | s] | items]; try discriminate.
    destruct (Py.str_in s (BuiltinTaskWithLabels.labels self)); intros [= <- <-];
      [exact Hok|].
    simpl. now apply label_dict_ok_set.
Qed.

(** X9, at the NER task for the labels b and B, which collide. *)
Lemma X9_label_map_invariant_witness :
  Declarative.label_dict_ok Samples.lower
    (Ner._label_dict (Samples.ner_task_state "b,B" false)).
Proof.
  apply (proj1 (proj2 X9_label_map_invariant) Samples.lower "b,B" _ Samples.validate
           None None "contract" "xx" false false (Samples.ner_task_state "b,B" false)).
  reflexivity.
Defined.

(** ** The labels of a task ([labels], [add_label], re-initialization) *)

Lemma sorted_NoDup xs : StronglySorted Py.str_lt xs -> List.NoDup xs.
Proof.
  induction 1 as [|x xs Hs IH Hx]; constructor; [|exact IH].
  intros Hin. rewrite List.Forall_forall in Hx. exact (str_lt_irrefl x (Hx x Hin)).
Qed.

Lemma map_NoDup_on {A B : Type} (f : A -> B) (l : list A) :
  (forall a b, In a l -> In b l -> f a = f b -> a = b) ->
  List.NoDup l -> List.NoDup (map f l).
Proof.
  intros Hinj. induction 1 as [|x l Hx Hl IH]; simpl; constructor.
  - rewrite in_map_iff. intros (y & Hy & Hin).
    apply Hx. rewrite (Hinj x y); [exact Hin | now left | now right | now symmetry].
  - apply IH. intros a b Ha Hb. apply Hinj; now right.
Qed.

(** Labels with distinct keys are filed one after the other. *)
Lemma label_fold_distinct (normalizer : string -> string) labels (d : Py.pydict string) :
  List.NoDup (Py.dict_keys d ++ map normalizer labels) ->
  fold_left (fun d label => Py.dict_set (normalizer label) label d) labels d
  = d ++ map (fun label => (normalizer label, label)) labels.
Proof.
  revert d. induction labels as [|l labels IH]; intros d Hnd; simpl.
  - now rewrite app_nil_r.
  - assert (Hl : ~ In (normalizer l) (Py.dict_keys d)).
    { intros Hin. apply List.NoDup_app_remove_l in Hnd as Hnd'.
      apply NoDup_remove_2 in Hnd. apply Hnd, in_or_app. now left. }
    rewrite (dict_set_new _ _ _ Hl), IH, <- app_assoc; [reflexivity|].
    unfold Py.dict_keys. rewrite map_app, <- app_assoc. exact Hnd.
Qed.

(** X10: when no two of the labels passed to [BuiltinTaskWithLabels.__init__]
    share a normalized form, the [labels] property lists the distinct labels
    in increasing order, each once. *)
Theorem X10_labels_sorted_without_collisions :
  forall (FewshotExample : Type) (lowercase_normalizer : string -> string)
    (template : string) (prompt_examples : option (list FewshotExample))
    (cfg_keys labels : list string) (label_definitions : option (Py.pydict string))
    (normalizer : option (string -> string)),
    let self :=
      BuiltinTaskWithLabels.__init__ lowercase_normalizer template prompt_examples
        cfg_keys labels label_definitions normalizer in
    (forall a b,
        In a labels -> In b labels ->
        BuiltinTaskWithLabels._normalizer self a = BuiltinTaskWithLabels._normalizer self b ->
        a = b) ->
    BuiltinTaskWithLabels.labels self = Py.sorted_set labels
    /\ StronglySorted Py.str_lt (BuiltinTaskWithLabels.labels self)
    /\ forall label, In label (BuiltinTaskWithLabels.labels self) <-> In label labels.
Proof.
  intros FewshotExample lcn template pe cfg_keys labels defs normalizer self Hinj.
  assert (Hlabels : BuiltinTaskWithLabels.labels self = Py.sorted_set labels).
  { subst self. unfold BuiltinTaskWithLabels.labels. simpl in *.
    unfold BuiltinTaskWithLabels.build_label_dict.
    rewrite label_fold_distinct.
    - simpl. unfold Py.dict_values. rewrite map_map. simpl. apply map_id.
    - simpl. apply map_NoDup_on; [|apply sorted_NoDup, sorted_set_sorted].
      intros a b Ha Hb. apply Hinj; now apply sorted_set_In. }
  rewrite Hlabels. split; [reflexivity|]. split; [apply sorted_set_sorted|].
  intros label. apply sorted_set_In.
Qed.

(** X10, at the labels PER, LOC and PER again. *)
Lemma X10_labels_sorted_without_collisions_witness :
  BuiltinTaskWithLabels.labels (Samples.labelled_task ["PER"; "LOC"; "PER"])
  = ["LOC"; "PER"].
Proof.
  unfold Samples.labelled_task.
  rewrite (proj1 (X10_labels_sorted_without_collisions string Samples.lower "template"
                    None ["_template"] ["PER"; "LOC"; "PER"] None None
                    ltac:(simpl; intros a b [<-|[<-|[<-|[]]]] [<-|[<-|[<-|[]]]] H;
                          first [reflexivity | discriminate H]))).
  reflexivity.
Defined.

Lemma labelled_initialize_prior {Example FewshotExample : Type}
    (extract : Example -> list string)
    (generate : Example -> BuiltinTaskWithLabels.BuiltinTaskWithLabels FewshotExample ->
                FewshotExample)
    (self : BuiltinTaskWithLabels.BuiltinTaskWithLabels FewshotExample)
    (egs : list Example) (n : Z) :
  BuiltinTaskWithLabels.labels self <> [] ->
  BuiltinTaskWithLabels._label_dict
    (fst (BuiltinTaskWithLabels._initialize extract generate self egs [] n))
  = BuiltinTaskWithLabels.build_label_dict (BuiltinTaskWithLabels._normalizer self)
      (BuiltinTaskWithLabels.labels self).
Proof.
  intros Hne. unfold BuiltinTaskWithLabels._initialize. cbv zeta. simpl fst.
  destruct (BuiltinTaskWithLabels.labels self) as [|l ls] eqn:Hprior; [congruence|].
  destruct (labelled_initialize_loop extract generate false n egs
              (BuiltinTaskWithLabels.mkInit (l :: ls) self [])) as (Hl & _).
  simpl in *. now rewrite Hl, app_nil_r.
Qed.

(** Rebuilding a well-formed label map from its own values keeps every
    entry. *)
Lemma rebuild_label_dict_get (normalizer : string -> string) (d : Py.pydict string) k :
  Declarative.label_dict_ok normalizer d ->
  Py.dict_get k (BuiltinTaskWithLabels.build_label_dict normalizer (Py.dict_values d))
  = Py.dict_get k d.
Proof.
  intros [Hnd Hok]. unfold BuiltinTaskWithLabels.build_label_dict.
  rewrite label_fold_get. simpl.
  destruct (Declarative.last_with_key normalizer k (Py.sorted_set (Py.dict_values d)))
    as [v'|] eqn:Hlast.
  - apply last_with_key_split in Hlast as (before & after & Hsplit & Hk & _).
    assert (Hv' : In v' (Py.dict_values d)).
    { apply sorted_set_In. rewrite Hsplit. apply in_or_app. right. now left. }
    apply in_map_iff in Hv' as ([k' v''] & Heq & Hin). simpl in Heq. subst v''.
    rewrite (Hok _ _ Hin) in Hk. subst k'. symmetry. now apply dict_In_get.
  - destruct (Py.dict_get k d) as [v|] eqn:Hget; [|reflexivity].
    apply dict_get_Some_In in Hget as Hin.
    destruct (last_with_key_present normalizer k (Py.sorted_set (Py.dict_values d)) v)
      as (w & Hw); [|now apply Hok | congruence].
    apply sorted_set_In, in_map_iff. now exists (k, v).
Qed.

(** X11: initializing again without explicit labels a task that has labels
    keeps the canonical form of every key and adds no key (the order of the
    entries may change, since the map is rebuilt from the sorted labels). *)
Theorem X11_reinitialize_keeps_labels :
  forall (Example FewshotExample : Type) (extract : Example -> list string)
    (generate : Example -> BuiltinTaskWithLabels.BuiltinTaskWithLabels FewshotExample ->
                FewshotExample)
    (self : BuiltinTaskWithLabels.BuiltinTaskWithLabels FewshotExample)
    (get_examples : list Example) (n_prompt_examples : Z),
    Declarative.label_dict_ok (BuiltinTaskWithLabels._normalizer self)
      (BuiltinTaskWithLabels._label_dict self) ->
    BuiltinTaskWithLabels.labels self <> [] ->
    let self' :=
      fst (BuiltinTaskWithLabels._initialize extract generate self get_examples []
             n_prompt_examples) in
    forall k,
      Py.dict_get k (BuiltinTaskWithLabels._label_dict self')
      = Py.dict_get k (BuiltinTaskWithLabels._label_dict self).
Proof.
  intros Example FewshotExample extract generate self egs n Hok Hne self' k.
  subst self'. rewrite labelled_initialize_prior by exact Hne.
  now apply rebuild_label_dict_get.
Qed.

(** The map of the labels A, B and a holds a and B; initializing again keeps
    both canonical forms and lists them in sorted order. *)
Example reinitialize_reorders :
  BuiltinTaskWithLabels.labels (Samples.labelled_task ["A"; "B"; "a"]) = ["a"; "B"]
  /\ BuiltinTaskWithLabels.labels
       (fst (Samples.labelled_initialize (Samples.labelled_task ["A"; "B"; "a"])
               ["ORG"] [] 0)) = ["B"; "a"].
Proof. vm_compute. auto. Qed.

(** X11, at that task. *)
Lemma X11_reinitialize_keeps_labels_witness :
  Py.dict_get "a"
    (BuiltinTaskWithLabels._label_dict
       (fst (Samples.labelled_initialize (Samples.labelled_task ["A"; "B"; "a"])
               ["ORG"] [] 0)))
  = Some "a".
Proof.
  unfold Samples.labelled_initialize.
  rewrite (X11_reinitialize_keeps_labels string string Samples.example_labels
             (fun eg _ => eg) (Samples.labelled_task ["A"; "B"; "a"]) ["ORG"] 0).
  - reflexivity.
  - apply label_dict_ok_fold, label_dict_ok_nil.
  - vm_compute. discriminate.
Defined.

(** X12: adding the same label a second time returns 0 and changes nothing,
    whatever the first call returned.  A first call that returns 1 makes the
    list of labels one longer when the label's normalized key is new, and
    keeps its length (replacing the entry of the key) when it is not. *)
Theorem X12_add_label_twice :
  forall (FewshotExample : Type)
    (self self' : BuiltinTaskWithLabels.BuiltinTaskWithLabels FewshotExample)
    (label : Py.object) (r : Z),
    BuiltinTaskWithLabels.add_label self label = Py.Returns (r, self') ->
    BuiltinTaskWithLabels.add_label self' label = Py.Returns (0%Z, self')
    /\ (r = 0%Z \/ r = 1%Z)
    /\ (r = 1%Z ->
        forall s, label = Py.OScalar (Py.SStr s) ->
        List.length (BuiltinTaskWithLabels.labels self')
        = if Py.dict_mem (BuiltinTaskWithLabels._normalizer self s)
               (BuiltinTaskWithLabels._label_dict self)
          then List.length (BuiltinTaskWithLabels.labels self)
          else S (List.length (BuiltinTaskWithLabels.labels self))).
Proof.
  intros FewshotExample self self' label r. unfold BuiltinTaskWithLabels.add_label.
  destruct label as [[| b | z | s] | items]; try discriminate.
  destruct (Py.str_in s (BuiltinTaskWithLabels.labels self)) eqn:Hin; intros [= <- <-].
  - rewrite Hin. split; [reflexivity|]. split; [now left | discriminate].
  - assert (Hnow : Py.str_in s
                     (BuiltinTaskWithLabels.labels
                        (BuiltinTaskWithLabels.with_label_dict self
                           (Py.dict_set (BuiltinTaskWithLabels._normalizer self s) s
                              (BuiltinTaskWithLabels._label_dict self)))) = true).
    { apply str_in_In. eapply dict_get_In, dict_get_set_same. }
    simpl. simpl in Hnow. rewrite Hnow. split; [reflexivity|]. split; [now right|].
    intros _ s' [= <-]. unfold BuiltinTaskWithLabels.labels, Py.dict_values. simpl.
    rewrite !length_map.
    rewrite <- (length_map fst (Py.dict_set _ _ _)), <- (length_map fst (BuiltinTaskWithLabels._label_dict self)).
    fold (@Py.dict_keys string (Py.dict_set (BuiltinTaskWithLabels._normalizer self s) s
                                  (BuiltinTaskWithLabels._label_dict self))).
    fold (@Py.dict_keys string (BuiltinTaskWithLabels._label_dict self)).
    unfold Py.dict_mem.
    destruct (dict_keys_set (BuiltinTaskWithLabels._normalizer self s) s
                (BuiltinTaskWithLabels._label_dict self)) as [(Hk & ->)|(Hk & ->)].
    + destruct (Py.dict_get _ _) eqn:Hget; [reflexivity|].
      now apply dict_get_None_keys in Hget.
    + rewrite (dict_get_None _ _ Hk), length_app. simpl. lia.
Qed.

(** X12, at a task with the labels LOC and PER and the new label ORG. *)
Lemma X12_add_label_twice_witness :
  exists self',
    BuiltinTaskWithLabels.add_label (Samples.labelled_task ["PER"; "LOC"])
      (Py.OScalar (Py.SStr "ORG")) = Py.Returns (1%Z, self')
    /\ BuiltinTaskWithLabels.add_label self' (Py.OScalar (Py.SStr "ORG"))
       = Py.Returns (0%Z, self').
Proof.
  eexists. split; [vm_compute; reflexivity|].
  apply (X12_add_label_twice string (Samples.labelled_task ["PER"; "LOC"]) _
           (Py.OScalar (Py.SStr "ORG")) 1%Z).
  vm_compute. reflexivity.
Defined.

(** ** Ranking of the candidates ([PipelineCandidateSelector.__call__]) *)

Lemma insert_by_prob_In c x cands :
  In x (CandidateSelector.insert_by_prob c cands) <-> x = c \/ In x cands.
Proof.
  induction cands as [|d cands IH]; simpl; [intuition|].
  destruct (Qle_bool _ _); simpl; [intuition|]. rewrite IH. intuition.
Qed.

Lemma insert_by_prob_sorted c cands :
  StronglySorted Declarative.at_least_as_probable cands ->
  StronglySorted Declarative.at_least_as_probable (CandidateSelector.insert_by_prob c cands).
Proof.
  induction 1 as [|d cands Hs IH Hd]; simpl.
  - repeat constructor.
  - destruct (Qle_bool (CandidateSelector.prior_prob d) (CandidateSelector.prior_prob c))
      eqn:Hle.
    + apply Qle_bool_iff in Hle. constructor; [now constructor|].
      constructor; [exact Hle|].
      eapply List.Forall_impl; [|exact Hd]. unfold Declarative.at_least_as_probable.
      intros x Hx. eapply Qle_trans; eauto.
    + constructor; [exact IH|]. apply List.Forall_forall. intros x Hx.
      apply insert_by_prob_In in Hx as [->|Hx].
      * unfold Declarative.at_least_as_probable. apply Qlt_le_weak, Qnot_le_lt.
        intros H. apply Qle_bool_iff in H. congruence.
      * rewrite List.Forall_forall in Hd. auto.
Qed.

Lemma sort_by_prior_prob_sorted cands :
  StronglySorted Declarative.at_least_as_probable
    (CandidateSelector.sort_by_prior_prob cands).
Proof.
  induction cands as [|c cands IH]; simpl; [constructor | now apply insert_by_prob_sorted].
Qed.

Lemma sorted_app_inv {A : Type} (R : A -> A -> Prop) (l1 l2 : list A) :
  StronglySorted R (l1 ++ l2) ->
  StronglySorted R l1 /\ forall a b, In a l1 -> In b l2 -> R a b.
Proof.
  induction l1 as [|x l1 IH]; simpl.
  - intros _. split; [constructor | intros a b []].
  - intros Hs. apply StronglySorted_inv in Hs as [Hs Hx].
    destruct (IH Hs) as [Hl1 Hcross]. apply List.Forall_app in Hx as [Hx1 Hx2]. split.
    + now constructor.
    + intros a b [<-|Ha] Hb; [|auto]. rewrite List.Forall_forall in Hx2. auto.
Qed.

(** [xs[:n]] is always a prefix. *)
Lemma slice_to_prefix {A : Type} (n : Z) (xs : list A) :
  exists m, Py.slice_to n xs = firstn m xs.
Proof. unfold Py.slice_to. destruct (0 <=? n)%Z; eauto. Qed.

(** X13: for a mention with candidates, the selector keeps a best-first
    part of them: the retrieved candidates split into kept and dropped ones,
    the entities returned are those of the kept candidates, in order of
    decreasing prior probability, no dropped candidate is more probable than
    a kept one, each description is the table's entry for the id or the
    placeholder, and for a top-N of at least 0 the number kept is
    [min(top_n, number of candidates)]. *)
Theorem X13_selector_keeps_the_most_probable :
  forall (NIL UNAVAILABLE_ENTITY_DESC : string)
    (self : CandidateSelector.PipelineCandidateSelector) (mentions : list Spacy.Span)
    (i : nat) (cands : list CandidateSelector.Candidate),
    CandidateSelector._kb self mentions !! i = Some cands ->
    cands <> [] ->
    exists kept dropped entities,
      Permutation cands (kept ++ dropped)
      /\ CandidateSelector.__call__ NIL UNAVAILABLE_ENTITY_DESC self mentions !! i
         = Some entities
      /\ map CandidateSelector.id entities = map CandidateSelector.entity_ kept
      /\ (forall e, In e entities ->
            CandidateSelector.description e
            = default UNAVAILABLE_ENTITY_DESC
                (CandidateSelector._descs self !! CandidateSelector.id e))
      /\ StronglySorted Declarative.at_least_as_probable kept
      /\ (forall k d, In k kept -> In d dropped -> Declarative.at_least_as_probable k d)
      /\ ((0 <= CandidateSelector._top_n self)%Z ->
          List.length kept
          = Nat.min (Z.to_nat (CandidateSelector._top_n self)) (List.length cands)).
Proof.
  intros NIL UNAV self mentions i cands Hi Hne.
  set (sorted := CandidateSelector.sort_by_prior_prob cands).
  destruct (slice_to_prefix (CandidateSelector._top_n self) sorted) as (m & Hslice).
  pose proof (sort_by_prior_prob_sorted cands) as Hsorted. fold sorted in Hsorted.
  rewrite <- (firstn_skipn m sorted) in Hsorted.
  apply sorted_app_inv in Hsorted as [Hkept Hcross].
  exists (firstn m sorted), (skipn m sorted). eexists.
  split; [rewrite firstn_skipn; apply sort_by_prior_prob_perm|].
  split.
  { unfold CandidateSelector.__call__. rewrite !list_lookup_fmap, Hi. simpl.
    unfold CandidateSelector.entities_of. fold sorted.
    replace (0 <? List.length sorted) with true; [rewrite Hslice; reflexivity|].
    symmetry. apply Nat.ltb_lt. subst sorted. rewrite sort_by_prior_prob_length.
    destruct cands; [congruence | simpl; lia]. }
  split; [now rewrite map_map|]. split.
  { intros e He. apply in_map_iff in He as (c & <- & _). reflexivity. }
  split; [exact Hkept|]. split; [exact Hcross|].
  intros Hn. rewrite <- Hslice, slice_to_length_le by exact Hn.
  subst sorted. now rewrite sort_by_prior_prob_length.
Qed.

(** X13, at the sample knowledge base and top-N 2. *)
Lemma X13_selector_keeps_the_most_probable_witness :
  exists kept dropped,
    Permutation
      [ CandidateSelector.mkCandidate "Q1" (1 # 10);
        CandidateSelector.mkCandidate "Q2" (9 # 10);
        CandidateSelector.mkCandidate "Q3" (5 # 10) ] (kept ++ dropped)
    /\ List.length kept = 2
    /\ forall k d, In k kept -> In d dropped -> Declarative.at_least_as_probable k d.
Proof.
  destruct (X13_selector_keeps_the_most_probable "NIL" "no description"
              (Samples.selector 2) [Spacy.mkSpan 0 3 "PER"] 0
              [ CandidateSelector.mkCandidate "Q1" (1 # 10);
                CandidateSelector.mkCandidate "Q2" (9 # 10);
                CandidateSelector.mkCandidate "Q3" (5 # 10) ] eq_refl)
    as (kept & dropped & entities & Hperm & _ & _ & _ & _ & Hcross & Hlen).
  - discriminate.
  - exists kept, dropped. split; [exact Hperm|]. split; [|exact Hcross].
    apply Hlen. simpl. lia.
Defined.

(** ** The configuration dictionary ([get_cfg], [set_cfg]) *)

Lemma for_each_app {A S : Type} (body : S -> A -> Py.outcome S) (xs ys : list A) (acc : S) :
  Py.for_each body (xs ++ ys) acc
  = Py.bind (Py.for_each body xs acc) (Py.for_each body ys).
Proof.
  revert acc. induction xs as [|x xs IH]; intros acc; simpl; [reflexivity|].
  destruct (body acc x); simpl; [apply IH | reflexivity].
Qed.

(** X14: [get_cfg] raises [AttributeError] for the first configuration key
    that is not an attribute of the task.  When every key is an attribute it
    returns a dictionary with distinct keys that holds, for each
    configuration key, the attribute of that name, and nothing else;
    assigning that dictionary back with [set_cfg] leaves the task as it is. *)
Theorem X14_get_cfg :
  forall (FewshotExample : Type) (self : BuiltinTask.BuiltinTask FewshotExample),
    (forall before key after,
        BuiltinTask._cfg_keys self = before ++ key :: after ->
        (forall k, In k before -> is_Some (BuiltinTask.attrs self !! k)) ->
        BuiltinTask.attrs self !! key = None ->
        BuiltinTask.get_cfg self = Py.Raises (Py.AttributeError key))
    /\ ((forall k, In k (BuiltinTask._cfg_keys self) ->
           is_Some (BuiltinTask.attrs self !! k)) ->
        exists cfg,
          BuiltinTask.get_cfg self = Py.Returns cfg
          /\ List.NoDup (Py.dict_keys cfg)
          /\ (forall k,
                Py.dict_get k cfg
                = if Py.str_in k (BuiltinTask._cfg_keys self)
                  then BuiltinTask.attrs self !! k else None)
          /\ BuiltinTask.set_cfg self cfg = self).
Proof.
  intros FewshotExample self. split.
  - intros before key after Hkeys Hbefore Hkey. unfold BuiltinTask.get_cfg.
    rewrite Hkeys, for_each_app.
    rewrite (for_each_total_in _ (Declarative.cfg_entry self)).
    + simpl. unfold BuiltinTask.getattr. now rewrite Hkey.
    + intros cfg k Hk. unfold BuiltinTask.getattr, Declarative.cfg_entry.
      destruct (Hbefore k Hk) as [v ->]. reflexivity.
  - intros Hattrs. eexists. split; [now apply get_cfg_returns|].
    split; [apply cfg_fold_NoDup; constructor|]. split.
    + intros k. now rewrite cfg_fold_get.
    + destruct (set_cfg_frame self
                  (fold_left (Declarative.cfg_entry self) (BuiltinTask._cfg_keys self) []))
        as [Hegs Hkeys].
      apply task_eq; [|exact Hegs | exact Hkeys].
      apply map_eq. intros k.
      rewrite set_cfg_attrs by (apply cfg_fold_NoDup; constructor).
      rewrite cfg_fold_get by exact Hattrs. simpl.
      destruct (Py.str_in k (BuiltinTask._cfg_keys self)) eqn:Hk; [|reflexivity].
      apply str_in_In in Hk. now destruct (Hattrs k Hk) as [v ->].
Qed.

(** X14, at a task whose class names a configuration key that was never
    assigned. *)
Lemma X14_get_cfg_witness :
  BuiltinTask.get_cfg
    (BuiltinTask.__init__ (FewshotExample := string) "template" None
       ["_template"; "_label_definitions"; "_single_match"])
  = Py.Raises (Py.AttributeError "_label_definitions").
Proof.
  apply (proj1 (X14_get_cfg string
                  (BuiltinTask.__init__ "template" None
                     ["_template"; "_label_definitions"; "_single_match"]))
           ["_template"] "_label_definitions" ["_single_match"]).
  - reflexivity.
  - intros k [<-|[]]. vm_compute. eexists. reflexivity.
  - reflexivity.
Defined.

(** ** What a summarization task persists ([_cfg_keys], [get_cfg], [set_cfg]) *)

(** X15: the configuration of a task built by [SummarizationTask.__init__]
    is its template and nothing else.  Assigning the configuration of one
    such task to another gives the other the template of the first; its
    maximal number of words, its field and its prompt examples stay its own. *)
Theorem X15_summarization_persists_the_template :
  forall (FewshotExample : Type) (template template' : string)
    (max_n_words max_n_words' : option Z) (field field' : string)
    (prompt_examples prompt_examples' : option (list FewshotExample)),
    let saved := Summarization.__init__ template max_n_words field prompt_examples in
    let loading := Summarization.__init__ template' max_n_words' field' prompt_examples' in
    BuiltinTask.get_cfg saved = Py.Returns [("_template", Py.SStr template)]
    /\ BuiltinTask.set_cfg loading [("_template", Py.SStr template)]
       = Summarization.__init__ template max_n_words' field' prompt_examples'.
Proof.
  intros FewshotExample template template' mw mw' field field' pe pe' saved loading.
  subst saved loading. split.
  - unfold BuiltinTask.get_cfg, Summarization.__init__. simpl.
    unfold BuiltinTask.getattr. simpl.
    rewrite !lookup_insert_ne by discriminate. now rewrite lookup_singleton_eq.
  - reflexivity.
Qed.

(** ** Prompts of a summarization task ([generate_prompts], [_get_prompt_data]) *)

Section PromptFacts.

Context {FewshotExample Template : Type}.
Variable from_string : Py.scalar -> Py.outcome Template.
Variable render :
  Template -> string -> list FewshotExample -> Py.pydict Py.scalar -> Py.outcome string.
Variable check : BuiltinTask.BuiltinTask FewshotExample -> list string.

(** Once the check of the examples is switched off, a document adds its
    prompt and nothing else. *)
Lemma prompts_after_check (t : Template)
    (r : string -> list FewshotExample -> Py.pydict Py.scalar -> string)
    (self : BuiltinTask.BuiltinTask FewshotExample) (max_n_words : Py.scalar)
    (docs : list Spacy.Doc) (prompts warnings : list string) :
  (forall text egs data, render t text egs data = Py.Returns (r text egs data)) ->
  BuiltinTask.attrs self !! "_check_example_summaries" = Some (Py.SBool false) ->
  BuiltinTask.attrs self !! "_max_n_words" = Some max_n_words ->
  Py.for_each
    (fun '(prompts, self, warnings) doc =>
       let prompt_examples := BuiltinTask._prompt_examples self in
       '(data, self', emitted) ← Summarization._get_prompt_data check self doc;
       prompt ← render t (Spacy.text doc) prompt_examples data;
       mret (prompts ++ [prompt], self', warnings ++ emitted))
    docs (prompts, self, warnings)
  = Py.Returns
      (prompts
       ++ map (fun doc =>
                 r (Spacy.text doc) (BuiltinTask._prompt_examples self)
                   [("max_n_words", max_n_words)]) docs,
       self, warnings).
Proof.
  intros Hrender Hcheck Hmax. revert prompts.
  induction docs as [|doc docs IH]; intros prompts; simpl.
  - now rewrite app_nil_r.
  - unfold Summarization._get_prompt_data, BuiltinTask.getattr.
    rewrite Hcheck. simpl. rewrite Hmax. simpl. rewrite Hrender. simpl.
    rewrite app_nil_r, IH, <- app_assoc. reflexivity.
Qed.

End PromptFacts.

(** X16: for a task built by [SummarizationTask.__init__] whose template
    compiles and renders, [generate_prompts] yields one prompt per document,
    in order, each rendered from the document's text, the prompt examples and
    the maximal number of words.  The summaries of the examples are checked
    once, when the first prompt is generated: the check is then switched off,
    and generating prompts again emits no warning and changes nothing. *)
Theorem X16_summarization_checks_examples_once :
  forall (FewshotExample Template : Type)
    (from_string : Py.scalar -> Py.outcome Template)
    (render : Template -> string -> list FewshotExample -> Py.pydict Py.scalar ->
              Py.outcome string)
    (check : BuiltinTask.BuiltinTask FewshotExample -> list string)
    (template : string) (max_n_words : option Z) (field : string)
    (prompt_examples : option (list FewshotExample))
    (t : Template) (r : string -> list FewshotExample -> Py.pydict Py.scalar -> string)
    (docs : list Spacy.Doc),
    from_string (Py.SStr template) = Py.Returns t ->
    (forall text egs data, render t text egs data = Py.Returns (r text egs data)) ->
    let self := Summarization.__init__ template max_n_words field prompt_examples in
    let checked :=
      BuiltinTask.setattr self "_check_example_summaries" (Py.SBool false) in
    let data :=
      [("max_n_words",
        match max_n_words with Some n => Py.SInt n | None => Py.SNone end)] in
    let prompts :=
      map (fun doc => r (Spacy.text doc) (default [] prompt_examples) data) docs in
    Summarization.generate_prompts from_string render check self docs
    = Py.Returns
        (prompts,
         match docs with [] => self | _ => checked end,
         match docs with [] => [] | _ => check self end)
    /\ Summarization.generate_prompts from_string render check checked docs
       = Py.Returns (prompts, checked, [])
    /\ List.length prompts = List.length docs.
Proof.
  intros FewshotExample Template from_string render check template mw field pe t r docs
    Hcompile Hrender self checked data prompts.
  assert (Hsteady : forall before warnings,
             Py.for_each
               (fun '(prompts, self, warnings) doc =>
                  let prompt_examples := BuiltinTask._prompt_examples self in
                  '(data, self', emitted) ← Summarization._get_prompt_data check self doc;
                  prompt ← render t (Spacy.text doc) prompt_examples data;
                  mret (prompts ++ [prompt], self', warnings ++ emitted))
               docs (before, checked, warnings)
             = Py.Returns (before ++ prompts, checked, warnings)).
  { intros before warnings.
    apply (prompts_after_check render check t r checked
             (match mw with Some n => Py.SInt n | None => Py.SNone end));
      [exact Hrender | reflexivity | reflexivity]. }
  split; [|split; [|apply length_map]].
  - unfold Summarization.generate_prompts.
    change (BuiltinTask.getattr self "_template") with (Py.Returns (Py.SStr template)).
    simpl. rewrite Hcompile. simpl.
    destruct docs as [|doc docs']; [reflexivity|].
    simpl Py.for_each.
    change (Summarization._get_prompt_data check self doc)
      with (Py.Returns (data, checked, check self)).
    simpl. rewrite Hrender. simpl.
    rewrite (prompts_after_check render check t r checked
               (match mw with Some n => Py.SInt n | None => Py.SNone end));
      [reflexivity | exact Hrender | reflexivity | reflexivity].
  - unfold Summarization.generate_prompts.
    change (BuiltinTask.getattr checked "_template") with (Py.Returns (Py.SStr template)).
    simpl. rewrite Hcompile. simpl. apply (Hsteady [] []).
Qed.

(** X16, at two documents: two prompts, one round of warnings. *)
Lemma X16_summarization_checks_examples_once_witness :
  Summarization.generate_prompts Samples.from_string Samples.render Samples.check_summaries
    Samples.fresh_task [Samples.doc_of "First text."; Samples.doc_of "Second text."]
  = Py.Returns
      (["Summarize. First text."; "Summarize. Second text."],
       BuiltinTask.setattr Samples.fresh_task "_check_example_summaries" (Py.SBool false),
       ["summary too long"]).
Proof.
  apply (X16_summarization_checks_examples_once string string Samples.from_string
           Samples.render Samples.check_summaries "Summarize." None "summary" None
           "Summarize." (Samples.render_text "Summarize.")
           [Samples.doc_of "First text."; Samples.doc_of "Second text."]).
  - reflexivity.
  - intros text egs data. reflexivity.
Defined.

(** ** The labels offered and the labels attached ([NERTask]) *)

(** X17: every prompt of [NERTask.generate_prompts] is rendered with the
    same list of labels, the values of the label map, and a span that
    [parse_responses] attaches always carries one of the labels of that
    list: no label is attached that the prompt did not offer.  The overlap
    resolver is assumed to return candidates only. *)
Theorem X17_attached_labels_were_offered :
  forall (render : string -> list string -> option (list Ner.NERExample) -> string)
    (lower : string -> string)
    (phrase_matcher : string -> bool -> list string -> string -> list Ner.Match)
    (char_span : Spacy.Doc -> nat -> nat -> string -> option (nat * nat))
    (filter_spans : list Spacy.Span -> list Spacy.Span) (self : Ner.NERTask),
    (forall spans, incl (filter_spans spans) spans) ->
    let offered := Py.dict_values (Ner._label_dict self) in
    (forall docs,
        Ner.generate_prompts render self docs
        = map (fun doc => render (Spacy.text doc) offered (Ner._examples self)) docs)
    /\ (forall doc response doc' span,
          Ner.parse_response lower phrase_matcher char_span filter_spans
            self doc response = Py.Returns doc' ->
          In span (Spacy.ents doc') ->
          In (Spacy.span_label span) offered).
Proof.
  intros render lower phrase_matcher char_span filter_spans self Hincl offered.
  split; [reflexivity|].
  intros doc response doc' span Hparse Hspan.
  destruct (parse_response_returns lower phrase_matcher char_span filter_spans
              self doc response) as (spans & Hcollect & Hparse').
  rewrite Hparse' in Hparse. injection Hparse as <-. simpl in Hspan.
  apply Hincl in Hspan. rewrite collect_spans_returns in Hcollect.
  injection Hcollect as <-.
  apply collected_span_label in Hspan as [[]|(phrases & Hentry)].
  apply in_flat_map in Hentry as (line & _ & Hentry).
  destruct (Declarative.line_entry self line) as [[c ps]|] eqn:Hle; [|destruct Hentry].
  destruct Hentry as [[= -> ->]|[]].
  apply line_entry_Some in Hle as (label & rest & _ & Hget & _).
  eapply dict_get_In, Hget.
Qed.

(** X17, at the task for PER,LOC and the response of three lines. *)
Lemma X17_attached_labels_were_offered_witness :
  Ner.generate_prompts (fun text _ _ => text) (Samples.ner_task_state "PER,LOC" false)
    [Samples.doc_of "Ann lives in Rome"] = ["Ann lives in Rome"]
  /\ forall doc' span,
      Ner.parse_response Samples.lower Samples.phrase_matcher Samples.char_span
        Spacy.filter_spans (Samples.ner_task_state "PER,LOC" false)
        (Samples.doc_of "Ann lives in Rome") Samples.three_lines = Py.Returns doc' ->
      In span (Spacy.ents doc') ->
      In (Spacy.span_label span) ["PER"; "LOC"].
Proof.
  split; [reflexivity|]. intros doc' span.
  apply (X17_attached_labels_were_offered (fun text _ _ => text) Samples.lower
           Samples.phrase_matcher Samples.char_span Spacy.filter_spans
           (Samples.ner_task_state "PER,LOC" false) filter_spans_incl).
Defined.
